(** * Provisioning scripts of the Digital Studies 101 course

    A shallow embedding of the three installer scripts

      - install_vscode_extensions.py
      - installs_required.py
      - setup_python_environment.py

    The scripts are sequential orchestrations of external commands.  Each
    Python function becomes a computation in a small monad that threads the
    state of the machine, may raise a Python exception, and emits the trace
    of what the function did to the outside world (lines printed, modules
    imported, child processes started, library routines called).  Whatever
    the scripts obtain from the operating system, the package index or a
    third-party library is a field of the [Host] interface, so every theorem
    holds for all behaviours of the outside world.

    What the model takes for granted: a child process ends, or fails to
    start; the outside world raises instances of [Exception] only, no
    keyboard interrupt; looking at the machine ([shutil.which], an import,
    [os.path.exists]) does not change it; the interpreter, the platform and
    the environment variables stay the same during a run. *)

From stdpp Require Import gmap strings list fin_maps pretty.

Open Scope string_scope.
Open Scope Z_scope.
Open Scope list_scope.

(** ** Python strings *)

Module PyStr.

(** [s.split(sep)] for a non-empty [sep]: the pieces between the
    non-overlapping occurrences of [sep], scanned from the left.  [skip]
    counts the characters of a separator that has just been recognised and
    is still to be passed over, [piece] is the piece under construction.
    (Python raises ValueError on an empty separator; both call sites pass a
    literal.) *)
Fixpoint split_from (sep : string) (skip : nat) (piece s : string) : list string :=
  match s with
  | EmptyString => [piece]
  | String c s' =>
      match skip with
      | S k => split_from sep k piece s'
      | O =>
          if String.prefix sep s
          then piece :: split_from sep (Nat.pred (String.length sep)) "" s'
          else split_from sep O (piece +:+ String c "") s'
      end
  end.

Definition split (sep s : string) : list string := split_from sep O "" s.

(** [l[0]] on the result of a split, which is never empty. *)
Definition first (l : list string) : string := hd "" l.

(** [sep.join(l)] *)
Fixpoint join (sep : string) (l : list string) : string :=
  match l with
  | [] => ""
  | [x] => x
  | x :: rest => x +:+ sep +:+ join sep rest
  end.

(** [c * n] *)
Fixpoint repeat (c : string) (n : nat) : string :=
  match n with
  | O => ""
  | S k => c +:+ repeat c k
  end.

(** [s.startswith(p)] and [s.endswith(p)] *)
Definition startswith (s p : string) : bool := String.prefix p s.

Definition endswith (s p : string) : bool :=
  let n := String.length s in
  let k := String.length p in
  (k <=? n)%nat && String.eqb (String.substring (n - k) k s) p.

(** Truthiness of a string: [bool(s)]. *)
Definition truthy (s : string) : bool := negb (String.eqb s "").

End PyStr.

(** ** Exceptions *)

(** The subclasses of [Exception] that the scripts name in an [except]
    clause or that the routines they call raise. *)
Inductive exn_class :=
  | Exception
  | ImportError | ModuleNotFoundError
  | LookupError
  | OSError | FileNotFoundError | FileExistsError | NotADirectoryError
  | PermissionError
  | SubprocessError | CalledProcessError | TimeoutExpired
  | AttributeError | ValueError | JSONDecodeError | RuntimeError.

#[global] Instance exn_class_eq_dec : EqDecision exn_class.
Proof. solve_decision. Defined.

(** The method resolution order of a class: itself and its ancestors. *)
Definition mro (c : exn_class) : list exn_class :=
  match c with
  | Exception => [Exception]
  | ImportError => [ImportError; Exception]
  | ModuleNotFoundError => [ModuleNotFoundError; ImportError; Exception]
  | LookupError => [LookupError; Exception]
  | OSError => [OSError; Exception]
  | FileNotFoundError => [FileNotFoundError; OSError; Exception]
  | FileExistsError => [FileExistsError; OSError; Exception]
  | NotADirectoryError => [NotADirectoryError; OSError; Exception]
  | PermissionError => [PermissionError; OSError; Exception]
  | SubprocessError => [SubprocessError; Exception]
  | CalledProcessError => [CalledProcessError; SubprocessError; Exception]
  | TimeoutExpired => [TimeoutExpired; SubprocessError; Exception]
  | AttributeError => [AttributeError; Exception]
  | ValueError => [ValueError; Exception]
  | JSONDecodeError => [JSONDecodeError; ValueError; Exception]
  | RuntimeError => [RuntimeError; Exception]
  end.

(** An exception in flight: [Raised c text] is an instance of [c] with
    [str(e) = text]; [Exit code] is the [SystemExit] that [sys.exit(code)]
    raises, which is no [Exception]. *)
Inductive exn :=
  | Raised (c : exn_class) (text : string)
  | Exit (code : Z).

(** What the outside world raises: a class and the text of the instance. *)
Definition error : Type := exn_class * string.

Definition throw (err : error) : exn := Raised err.1 err.2.

(** [str(e)], as the f-strings of the scripts print it. *)
Definition str_of (e : exn) : string :=
  match e with
  | Raised _ text => text
  | Exit code => pretty code
  end.

Definition isinstance (e : exn) (c : exn_class) : bool :=
  match e with
  | Raised c' _ => bool_decide (c ∈ mro c')
  | Exit _ => false
  end.

(** ** The machine *)

(** JSON documents, as [json.load] returns them. *)
#[warning="-register-all"]
Inductive json :=
  | JNull
  | JBool (b : bool)
  | JNum (n : Z)
  | JStr (s : string)
  | JArr (l : list json)
  | JObj (m : gmap string json).

(** What a path of the file system holds.  A regular file is either a JSON
    document or some other content, of which only the size matters. *)
Inductive node :=
  | Dir
  | JsonFile (doc : json)
  | Blob (size : N).

(** The ambient interpreter and operating system: fixed for the time of a
    run, read but never written by the scripts. *)
Record ambient := Ambient {
  version_info : nat * nat;          (* sys.version_info[:2] *)
  version : string;                  (* sys.version *)
  executable : string;               (* sys.executable *)
  system : string;                   (* platform.system() *)
  environ : gmap string string;      (* os.environ *)
  script_dir : string;               (* os.path.dirname(os.path.abspath(__file__)) *)
}.

(** The state of the machine: its file system, and whatever else the
    outside world consists of (installed packages and editor extensions, the
    network, the package index), kept abstract. *)
Record machine (X : Type) := Machine {
  fs : gmap string node;
  world : X;
}.
Arguments Machine {X} _ _.
Arguments fs {X} _.
Arguments world {X} _.

(** How a child process ended: it ran to completion, or it could not be
    started or waited for and [subprocess] raised. *)
Inductive proc_result :=
  | Completed (returncode : Z) (stderr : string)
  | Failed (err : error).

(** The outside world, as the scripts reach it. *)
Class Host (X : Type) := {
  (* shutil.which(cmd) is not None *)
  which : machine X → string → bool;
  (* import of a module in the running interpreter; None when it loads *)
  import_module : machine X → string → option error;
  (* a child process with the given argv and timeout in seconds *)
  spawn : list string → option nat → machine X → proc_result * machine X;
  (* a routine of an imported library; None when it returns normally *)
  libcall : string → list string → machine X → option error * machine X;
  (* os.path.abspath *)
  abspath : string → string;
  (* appdirs.user_data_dir(appname, appauthor) *)
  user_data_dir : string → string → string;
  (* str.strip() *)
  strip : string → string;
  (* str(CalledProcessError(returncode, cmd)) *)
  called_process_error_text : list string → Z → string;
}.

(** ** Traces *)

Inductive event :=
  | Print (line : string)
  | Import (name : string)
  | Spawn (argv : list string) (timeout : option nat) (capture : bool)
  | Call (fn : string) (args : list string).

#[global] Instance event_eq_dec : EqDecision event.
Proof. solve_decision. Defined.

(** A version probe [cmd --version] only detects; every other child
    process, and a download through a library, acquires something. *)
Definition is_probe (argv : list string) : bool :=
  match argv with
  | [_; flag] => String.eqb flag "--version"
  | _ => false
  end.

Definition is_acquisition (e : event) : bool :=
  match e with
  | Spawn argv _ _ => negb (is_probe argv)
  | Call fn _ => String.eqb fn "nltk.download"
  | _ => false
  end.

Definition acquisitions (t : list event) : list event := filter is_acquisition t.

Definition is_spawn (e : event) : bool :=
  match e with
  | Spawn _ _ _ => true
  | _ => false
  end.

Definition is_import (e : event) : bool :=
  match e with
  | Import _ => true
  | _ => false
  end.

(** ** The monad of the scripts *)

Inductive result (A : Type) :=
  | Val (a : A)
  | Exc (e : exn).
Arguments Val {A} _.
Arguments Exc {A} _.

Definition M (X A : Type) : Type := machine X → result A * machine X * list event.

Definition ret {X A} (a : A) : M X A := λ m, (Val a, m, []).

Definition raise {X A} (e : exn) : M X A := λ m, (Exc e, m, []).

Definition bind {X A B} (c : M X A) (k : A → M X B) : M X B :=
  λ m,
    match c m with
    | (Val a, m1, t1) => let '(r, m2, t2) := k a m1 in (r, m2, t1 ++ t2)
    | (Exc e, m1, t1) => (Exc e, m1, t1)
    end.

Declare Scope py_scope.
Delimit Scope py_scope with py.
Notation "x <- c ;; k" := (bind c (λ x, k))
  (at level 100, c at next level, k at level 200, right associativity) : py_scope.
Notation "c ;; k" := (bind c (λ _, k))
  (at level 100, k at level 200, right associativity) : py_scope.
Open Scope py_scope.

(** The first [except] clause, in source order, whose classes match. *)
Fixpoint select_handler {X A} (e : exn)
    (clauses : list (list exn_class * (exn → M X A))) : option (M X A) :=
  match clauses with
  | [] => None
  | (classes, h) :: rest =>
      if existsb (isinstance e) classes then Some (h e)
      else select_handler e rest
  end.

(** [try: body except ...]: an exception of the body that a clause matches
    is handled there; any other propagates, and so does one raised by the
    handler. *)
Definition try {X A} (body : M X A)
    (clauses : list (list exn_class * (exn → M X A))) : M X A :=
  λ m,
    match body m with
    | (Val a, m1, t1) => (Val a, m1, t1)
    | (Exc e, m1, t1) =>
        match select_handler e clauses with
        | Some h => let '(r, m2, t2) := h m1 in (r, m2, t1 ++ t2)
        | None => (Exc e, m1, t1)
        end
    end.

Definition get {X} : M X (machine X) := λ m, (Val m, m, []).

Definition print {X} (line : string) : M X unit := λ m, (Val tt, m, [Print line]).

Definition sys_exit {X A} (code : Z) : M X A := raise (Exit code).

(** The exit status of the interpreter when the script's [main] ends with
    [r]: zero on a normal return, the code of [sys.exit], and one after the
    traceback of any other uncaught exception. *)
Definition exit_status {A} (r : result A) : Z :=
  match r with
  | Val _ => 0
  | Exc (Exit code) => code
  | Exc (Raised _ _) => 1
  end.

Definition outcome {X A} (x : result A * machine X * list event) : result A := x.1.1.
Definition final {X A} (x : result A * machine X * list event) : machine X := x.1.2.
Definition trace {X A} (x : result A * machine X * list event) : list event := x.2.

(** ** Helpers shared by the three scripts *)

Definition nl : string := String (Ascii.ascii_of_nat 10) "".
Definition dq : string := String (Ascii.ascii_of_nat 34) "".
Definition backslash : string := String (Ascii.ascii_of_nat 92) "".

Record completed := { returncode : Z; stderr : option string }.

Section Runtime.
Context {X : Type} `{Host X}.

(** [for x in l: body], the loop state threaded through the iterations. *)
Fixpoint for_each {A S : Type} (l : list A) (s : S) (body : A → S → M X S) : M X S :=
  match l with
  | [] => ret s
  | a :: rest => s' <- body a s ;; for_each rest s' body
  end.

(** [for x in l: body] where the body may [return b] from the enclosing
    function ([Some b]) or fall through to the next iteration ([None]). *)
Fixpoint for_return {A B : Type} (l : list A) (body : A → M X (option B)) : M X (option B) :=
  match l with
  | [] => ret None
  | a :: rest =>
      r <- body a ;;
      match r with
      | Some b => ret (Some b)
      | None => for_return rest body
      end
  end.

(** [subprocess.run(argv, capture_output=capture, text=True, timeout=timeout)] *)
Definition subprocess_run (argv : list string) (timeout : option nat) (capture : bool)
    : M X completed :=
  λ m,
    match spawn argv timeout m with
    | (Completed rc err, m') =>
        (Val {| returncode := rc; stderr := if capture then Some err else None |},
         m', [Spawn argv timeout capture])
    | (Failed err, m') => (Exc (throw err), m', [Spawn argv timeout capture])
    end.

(** [subprocess.check_call(argv)]: no timeout, nothing captured; a nonzero
    return code raises [CalledProcessError]. *)
Definition check_call (argv : list string) : M X unit :=
  r <- subprocess_run argv None false ;;
  if returncode r =? 0 then ret tt
  else raise (Raised CalledProcessError (called_process_error_text argv (returncode r))).

(** [import name] and [__import__(name)] *)
Definition import (name : string) : M X unit :=
  λ m,
    match import_module m name with
    | None => (Val tt, m, [Import name])
    | Some err => (Exc (throw err), m, [Import name])
    end.

(** A routine of an imported library. *)
Definition call (fn : string) (args : list string) : M X unit :=
  λ m,
    match libcall fn args m with
    | (None, m') => (Val tt, m', [Call fn args])
    | (Some err, m') => (Exc (throw err), m', [Call fn args])
    end.

(** [os.path.exists(p)] *)
Definition path_exists (m : machine X) (p : string) : bool :=
  match fs m !! p with
  | Some _ => true
  | None => false
  end.

(** [os.path.getsize(p) > 0]; the size of a directory is taken to be
    zero, a JSON document has at least one character. *)
Definition nonempty (m : machine X) (p : string) : bool :=
  match fs m !! p with
  | Some (Blob size) => (0 <? size)%N
  | Some (JsonFile _) => true
  | _ => false
  end.

(** The path separator of the platform. *)
Definition sep (amb : ambient) : string :=
  if String.eqb (system amb) "Windows" then backslash else "/".

(** [os.path.join(a, b)] as [posixpath.join] computes it; with the
    separator of the platform this is also what [ntpath.join] returns when
    [b] is a plain name, which is the case at every call site. *)
Definition path_join (amb : ambient) (a b : string) : string :=
  if PyStr.startswith b (sep amb) then b
  else if negb (PyStr.truthy a) || PyStr.endswith a (sep amb) then a +:+ b
  else a +:+ sep amb +:+ b.

Definition path_join3 (amb : ambient) (a b c : string) : string :=
  path_join amb (path_join amb a b) c.

(** [sys.version_info[:2] < min_version], the comparison of two pairs. *)
Definition version_lt (v w : nat * nat) : bool :=
  (v.1 <? w.1)%nat || ((v.1 =? w.1)%nat && (v.2 <? w.2)%nat).

End Runtime.

(** ** install_vscode_extensions.py *)

Module VscodeExtensions.
Section Script.
Context {X : Type} `{Host X} (amb : ambient).

Definition probe_errors : list exn_class :=
  [TimeoutExpired; CalledProcessError; FileNotFoundError].

(** The body of the first loop of [check_vscode_installed]. *)
Definition probe_command (cmd : string) : M X (option string) :=
  m <- get ;;
  if which m cmd then
    try
      (result <- subprocess_run [cmd; "--version"] (Some 10%nat) true ;;
       if returncode result =? 0 then
         print ("✅ Found working VS Code command: " +:+ cmd) ;;
         ret (Some cmd)
       else
         print ("⚠️  Found " +:+ cmd +:+ " but it's not working properly") ;;
         ret None)
      [(probe_errors,
        λ _, print ("⚠️  Found " +:+ cmd +:+ " in PATH but it's not functional") ;;
             ret None)]
  else ret None.

(** The probe of an installation path: the body of the loop over the common
    Windows locations, and the check of the macOS location. *)
Definition probe_path (path : string) : M X (option string) :=
  m <- get ;;
  if path_exists m path then
    try
      (result <- subprocess_run [path; "--version"] (Some 10%nat) true ;;
       if returncode result =? 0 then
         print ("✅ Found working VS Code at: " +:+ path) ;;
         ret (Some path)
       else ret None)
      [(probe_errors, λ _, ret None)]
  else ret None.

Definition possible_paths (username : string) : list string :=
  [ "C:\Program Files\Microsoft VS Code\bin\code.cmd";
    "C:\Program Files (x86)\Microsoft VS Code\bin\code.cmd";
    "C:\Users\" +:+ username +:+ "\AppData\Local\Programs\Microsoft VS Code\bin\code.cmd";
    "C:\Program Files\Microsoft VS Code\Code.exe";
    "C:\Program Files (x86)\Microsoft VS Code\Code.exe";
    "C:\Users\" +:+ username +:+ "\AppData\Local\Programs\Microsoft VS Code\Code.exe" ].

Definition macos_path : string :=
  "/Applications/Visual Studio Code.app/Contents/Resources/app/bin/code".

Definition check_vscode_installed : M X (option string) :=
  print "🔍 Checking for Visual Studio Code installation..." ;;
  found <- for_return ["code"; "code-insiders"] probe_command ;;
  match found with
  | Some cmd => ret (Some cmd)
  | None =>
      found <-
        (if String.eqb (system amb) "Windows" then
           print "🔍 Searching for VS Code in common Windows locations..." ;;
           for_return
             (possible_paths (default "" (environ amb !! "USERNAME")))
             probe_path
         else if String.eqb (system amb) "Darwin" then
           print "🔍 Searching for VS Code on macOS..." ;;
           probe_path macos_path
         else ret None) ;;
      match found with
      | Some path => ret (Some path)
      | None =>
          print "❌ Visual Studio Code not found or not working" ;;
          print "💡 Please install VS Code from: https://code.visualstudio.com/" ;;
          print "💡 After installation, you may need to:" ;;
          print "   - Restart your terminal/command prompt" ;;
          print "   - Add VS Code to your PATH" ;;
          print "   - On Windows: Use 'Add to PATH' option during installation" ;;
          ret None
      end
  end.

Definition install_extension (vscode_cmd extension_id extension_name : string) : M X bool :=
  try
    (print ("📦 Installing " +:+ extension_name +:+ "...") ;;
     result <- subprocess_run [vscode_cmd; "--install-extension"; extension_id]
                 (Some 60%nat) true ;;
     if returncode result =? 0 then
       print ("✅ " +:+ extension_name +:+ " installed successfully") ;;
       ret true
     else
       print ("❌ Failed to install " +:+ extension_name) ;;
       match stderr result with
       | Some err =>
           if PyStr.truthy err then print ("   Error: " +:+ strip err) else ret tt
       | None => ret tt
       end ;;
       ret false)
    [ ([TimeoutExpired],
       λ _, print ("⏱️  " +:+ extension_name +:+ " installation timed out") ;;
            ret false);
      ([FileNotFoundError],
       λ _, print ("❌ VS Code command not found when installing " +:+ extension_name) ;;
            ret false);
      ([Exception],
       λ e, print ("❌ Unexpected error installing " +:+ extension_name +:+ ": "
                   +:+ str_of e) ;;
            ret false) ].

Definition extensions : list (string * string) :=
  [ ("ms-python.python", "Python");
    ("ms-python.pylint", "Pylint (Python Linting)");
    ("ms-toolsai.jupyter", "Jupyter");
    ("ms-toolsai.jupyter-keymap", "Jupyter Keymap");
    ("ms-toolsai.jupyter-renderers", "Jupyter Notebook Renderers");
    ("mechatroner.rainbow-csv", "Rainbow CSV");
    ("GrapeCity.gc-excelviewer", "Excel Viewer");
    ("ms-vscode.vscode-json", "JSON Language Features");
    ("redhat.vscode-yaml", "YAML Support");
    ("yzhang.markdown-all-in-one", "Markdown All in One");
    ("shd101wyy.markdown-preview-enhanced", "Markdown Preview Enhanced");
    ("ms-vscode.vscode-typescript-next", "TypeScript and JavaScript");
    ("ms-vscode-remote.vscode-remote-extensionpack", "Remote Development");
    ("streetsidesoftware.code-spell-checker", "Code Spell Checker") ].

(** The installation loop of [main]: every extension is tried, the display
    names of the ones that failed are collected in order. *)
Definition install_all (vscode_cmd : string) (exts : list (string * string))
    : M X (list string) :=
  for_each exts []
    (λ ext failed_extensions,
       ok <- install_extension vscode_cmd ext.1 ext.2 ;;
       ret (if ok then failed_extensions else failed_extensions ++ [ext.2])).

Definition print_summary (failed_extensions : list string) : M X unit :=
  print (nl +:+ "🎯 Installation Summary") ;;
  print (PyStr.repeat "=" 60) ;;
  match failed_extensions with
  | _ :: _ =>
      print ("❌ Failed to install " +:+ pretty (length failed_extensions)
             +:+ " extension(s):") ;;
      for_each failed_extensions tt (λ ext _, print ("  • " +:+ ext)) ;;
      print (nl +:+ "💡 You can install these manually through VS Code Extensions marketplace")
  | [] => print "✅ All extensions installed successfully!"
  end.

Definition print_epilogue : M X unit :=
  print (nl +:+ "📋 What's included:") ;;
  print "• Python Development: Syntax highlighting, debugging, linting" ;;
  print "• Jupyter Notebooks: Full notebook support with renderers" ;;
  print "• Data Science: CSV viewing, Excel support" ;;
  print "• Git Integration: Enhanced git features and GitHub integration" ;;
  print "• Productivity: Markdown support, spell checking, themes" ;;
  print "• Code Quality: Error highlighting, auto-formatting" ;;
  print (nl +:+ "💡 Next Steps:") ;;
  print "1. Restart VS Code to activate all extensions" ;;
  print "2. Open your course folder in VS Code" ;;
  print "3. Select Python interpreter (Ctrl+Shift+P → 'Python: Select Interpreter')" ;;
  print "4. Start working with your Jupyter notebooks!" ;;
  print (nl +:+ "🔧 Configuration Tips:") ;;
  print "• Use Ctrl+Shift+P to access the Command Palette" ;;
  print "• Install additional extensions from the Extensions marketplace (Ctrl+Shift+X)" ;;
  print "• Configure Python interpreter for your virtual environment" ;;
  print "• Enable auto-save: File → Auto Save" ;;
  print (nl +:+ "🎉 Setup complete! VS Code is ready for Digital Studies 101.").

(** [main], with the list of extensions as a parameter. *)
Definition main_with (exts : list (string * string)) : M X unit :=
  print "🚀 VS Code Extensions Installation for Digital Studies 101" ;;
  print (PyStr.repeat "=" 60) ;;
  vscode_cmd <- check_vscode_installed ;;
  match vscode_cmd with
  | None => sys_exit 1
  | Some cmd =>
      if negb (PyStr.truthy cmd) then sys_exit 1
      else
        print (nl +:+ "📋 Installing " +:+ pretty (length exts)
               +:+ " recommended extensions...") ;;
        print (PyStr.repeat "-" 60) ;;
        failed_extensions <- install_all cmd exts ;;
        print_summary failed_extensions ;;
        print_epilogue
  end.

Definition main : M X unit := main_with extensions.

End Script.
End VscodeExtensions.

(** ** installs_required.py *)

Module InstallsRequired.
Section Script.
Context {X : Type} `{Host X} (amb : ambient).

Definition min_version : nat * nat := (3%nat, 8%nat).

Definition show_version (v : nat * nat) : string := pretty v.1 +:+ "." +:+ pretty v.2.

Definition check_python_version : M X bool :=
  let current_version := version_info amb in
  print ("🐍 Python version: " +:+ version amb) ;;
  if version_lt current_version min_version then
    print ("❌ Python " +:+ show_version min_version +:+ "+ is required, but you have "
           +:+ show_version current_version) ;;
    print "💡 Please upgrade Python: https://www.python.org/downloads/" ;;
    ret false
  else
    print ("✅ Python version " +:+ show_version current_version +:+ " is compatible") ;;
    ret true.

(** [package_name.split('>=')[0].split('<')[0]] *)
Definition derive_import_name (package_name : string) : string :=
  PyStr.first (PyStr.split "<" (PyStr.first (PyStr.split ">=" package_name))).

Definition pip_install (package_name : string) : list string :=
  [executable amb; "-m"; "pip"; "install"; "--upgrade"; package_name].

Definition check_and_install_package (package_name : string) (import_name : option string)
    : M X bool :=
  let import_name :=
    match import_name with
    | None => derive_import_name package_name
    | Some name => name
    end in
  try
    (import import_name ;;
     print ("✅ " +:+ package_name +:+ " already installed") ;;
     ret true)
    [([ImportError],
      λ _,
        print ("📦 Installing " +:+ package_name +:+ "...") ;;
        try
          (check_call (pip_install package_name) ;;
           print ("✅ " +:+ package_name +:+ " installed successfully") ;;
           ret true)
          [([CalledProcessError],
            λ _, print ("❌ Failed to install " +:+ package_name) ;; ret false)])].

Definition upgrade_pip : M X bool :=
  print "🔄 Upgrading pip to latest version..." ;;
  try
    (check_call (pip_install "pip") ;;
     print "✅ Pip upgraded successfully" ;;
     ret true)
    [([CalledProcessError],
      λ _, print "⚠️  Failed to upgrade pip, continuing with current version" ;;
           ret false)].

Definition nltk_data_packages : list (string * string) :=
  [("punkt", "tokenizers/punkt"); ("vader_lexicon", "vader_lexicon")].

(** The body of the loop of [check_and_download_nltk_data]. *)
Definition ensure_nltk_data (package path : string) : M X unit :=
  try
    (call "nltk.data.find" [path] ;;
     print ("✅ NLTK " +:+ package +:+ " already available"))
    [([LookupError],
      λ _,
        print ("📥 Downloading NLTK " +:+ package +:+ "...") ;;
        call "nltk.download" [package] ;;
        print ("✅ NLTK " +:+ package +:+ " downloaded successfully"))].

Definition check_and_download_nltk_data : M X unit :=
  try
    (import "nltk" ;;
     for_each nltk_data_packages tt (λ entry _, ensure_nltk_data entry.1 entry.2))
    [([ImportError],
      λ _, print "❌ NLTK not installed - skipping NLTK data downloads")].

Definition models : list string := ["en_core_web_sm"; "en_core_web_md"; "en_core_web_trf"].

(** The body of the loop of [check_and_download_spacy_model]. *)
Definition ensure_spacy_model (model_name : string) : M X unit :=
  try
    (call "spacy.load" [model_name] ;;
     print ("✅ spaCy model " +:+ model_name +:+ " already available"))
    [([OSError],
      λ _,
        print ("📥 Downloading spaCy model " +:+ model_name +:+ "...") ;;
        try
          (check_call [executable amb; "-m"; "spacy"; "download"; model_name] ;;
           print ("✅ spaCy model " +:+ model_name +:+ " downloaded successfully"))
          [([CalledProcessError],
            λ _, print ("❌ Failed to download spaCy model " +:+ model_name))])].

Definition check_and_download_spacy_model : M X unit :=
  try
    (import "spacy" ;;
     for_each models tt (λ model_name _, ensure_spacy_model model_name))
    [([ImportError],
      λ _, print "❌ spaCy not installed - skipping model download")].

(** [check_and_setup_geoparser] returns [True], [False], or nothing at all
    when control reaches the end of the function ([None]).  The import of
    [os] from the standard library is left out. *)
Definition check_and_setup_geoparser : M X (option bool) :=
  try
    (import "geoparser" ;;
     print "🔍 Checking geoparser installation..." ;;
     try
       (import "appdirs" ;;
        m <- get ;;
        let data_dir := path_join amb (user_data_dir "geoparser" "") "geonames" in
        let db_path := path_join amb data_dir "geonames.db" in
        print ("📁 Checking for geoparser data at: " +:+ data_dir) ;;
        print ("�️  Looking for database: " +:+ db_path) ;;
        if path_exists m db_path && nonempty m db_path then
          print "✅ GeoNames database already exists" ;;
          try
            (call "geoparser.Geoparser" [] ;;
             print "✅ Geoparser instantiated successfully - data is working" ;;
             ret (Some true))
            [([Exception],
              λ e,
                print ("⚠️  Database exists but instantiation failed: " +:+ str_of e) ;;
                print "🔄 Will attempt to re-download..." ;;
                ret None)]
        else
          (if path_exists m data_dir
           then print "� Data directory exists but no database found"
           else print "📂 Data directory does not exist") ;;
          ret None)
       [([ImportError],
         λ _,
           print "⚠️  appdirs not available, using fallback check" ;;
           print "� Proceeding with GeoNames download..." ;;
           try
             (let download_cmd :=
                [executable amb; "-m"; "geoparser"; "download"; "geonames"] in
              print ("🚀 Running: " +:+ PyStr.join " " download_cmd) ;;
              check_call download_cmd ;;
              print "✅ GeoNames database downloaded successfully" ;;
              ret (Some true))
             [([CalledProcessError],
               λ e,
                 print ("❌ Failed to download GeoNames database: " +:+ str_of e) ;;
                 print "💡 You may need to run this manually: python -m geoparser download geonames" ;;
                 ret (Some false))])])
    [([ImportError],
      λ _, print "❌ Geoparser not installed - skipping GeoNames database setup" ;;
           ret (Some false))].

Definition core_packages : list string :=
  [ "jupyterlab"; "ipywidgets"; "notebook";
    "pandas"; "matplotlib";
    "plotly"; "mapclassify";
    "tqdm";
    "praw";
    "nltk"; "spacy"; "geoparser";
    "transformers"; "torch"; "scipy";
    "cryptography" ].

Definition essential_packages : list string := ["jupyterlab"].

(** The two installation loops of [main]: the essential packages, whose
    results are dropped, then every other package, the failures collected. *)
Definition install_essential (essential : list string) : M X unit :=
  for_each essential tt (λ package _, check_and_install_package package None ;; ret tt).

Definition install_packages (packages essential : list string) : M X (list string) :=
  for_each packages []
    (λ package failed_packages,
       if negb (bool_decide (package ∈ essential)) then
         ok <- check_and_install_package package None ;;
         ret (if ok then failed_packages else failed_packages ++ [package])
       else ret failed_packages).

Definition print_summary (failed_packages : list string) : M X unit :=
  print (nl +:+ "🎯 Installation Summary") ;;
  print (PyStr.repeat "=" 70) ;;
  match failed_packages with
  | _ :: _ =>
      print ("❌ Failed to install: " +:+ PyStr.join ", " failed_packages) ;;
      print "💡 Try installing these manually with: pip install <package_name>"
  | [] => print "✅ All packages installed successfully!"
  end.

Definition print_epilogue : M X unit :=
  print (nl +:+ "📋 What's included:") ;;
  print "• Lesson 1: Reddit scraping (praw, pandas)" ;;
  print "• Lesson 2: Basic Python (pandas, matplotlib)" ;;
  print "• Lesson 3: Data wrangling (pandas, plotly)" ;;
  print "• Lesson 4: Location extraction (spacy, geoparser, nltk)" ;;
  print "• Lesson 5: Sentiment analysis (transformers, torch, scipy)" ;;
  print "• All lessons: Interactive visualization (plotly, mapclassify)" ;;
  print "• JupyterLab: Complete notebook environment with all dependencies" ;;
  print (nl +:+ "💡 Notes:") ;;
  print "• JupyterLab includes all essential Jupyter ecosystem dependencies" ;;
  print "• Geoparser now fully supports Python 3.13+" ;;
  print "• NLTK data packages are automatically downloaded" ;;
  print "• spaCy models (en_core_web_md & en_core_web_trf) are downloaded" ;;
  print "• GeoNames database is downloaded for geoparser" ;;
  print "• All packages support Windows, macOS, and Linux" ;;
  print (nl +:+ "🎉 Setup complete! You're ready to start the lessons.").

(** [main], with the two package lists as parameters. *)
Definition main_with (packages essential : list string) : M X unit :=
  print "🚀 Starting Digital Studies 101 - Python Lessons Package Installation" ;;
  print (PyStr.repeat "=" 70) ;;
  ok <- check_python_version ;;
  if negb ok then
    print (nl +:+ "❌ Installation aborted due to incompatible Python version.") ;;
    sys_exit 1
  else
    print (nl +:+ "🔧 Preparing installation environment...") ;;
    print (PyStr.repeat "-" 40) ;;
    upgrade_pip ;;
    print (nl +:+ "📦 Installing core packages...") ;;
    print (PyStr.repeat "-" 40) ;;
    print "Installing JupyterLab first (includes most Jupyter ecosystem dependencies)..." ;;
    install_essential essential ;;
    failed_packages <- install_packages packages essential ;;
    print (nl +:+ "📚 Setting up NLP resources...") ;;
    print (PyStr.repeat "-" 40) ;;
    check_and_download_nltk_data ;;
    check_and_download_spacy_model ;;
    check_and_setup_geoparser ;;
    print_summary failed_packages ;;
    print_epilogue.

Definition main : M X unit := main_with core_packages essential_packages.

End Script.
End InstallsRequired.

(** ** setup_python_environment.py *)

Module SetupEnvironment.
Section Script.
Context {X : Type} `{Host X} (amb : ambient).

Definition min_version : nat * nat := (3%nat, 8%nat).

Definition show_version (v : nat * nat) : string := pretty v.1 +:+ "." +:+ pretty v.2.

Definition check_python_version : M X bool :=
  let current_version := version_info amb in
  print ("🐍 Python version: " +:+ version amb) ;;
  print ("🐍 Python executable: " +:+ executable amb) ;;
  if version_lt current_version min_version then
    print ("❌ Python " +:+ show_version min_version +:+ "+ is required, but you have "
           +:+ show_version current_version) ;;
    print "💡 Please upgrade Python: https://www.python.org/downloads/" ;;
    ret false
  else
    print ("✅ Python version " +:+ show_version current_version +:+ " is compatible") ;;
    ret true.

(** [p] is [root] or lies below it. *)
Definition within (root p : string) : bool :=
  String.eqb p root || PyStr.startswith p (root +:+ sep amb).

(** [shutil.rmtree(path)]: the directory and everything below it is
    removed; a path that is no directory raises.  Deleting a directory is
    taken to succeed. *)
Definition rmtree (path : string) : M X unit :=
  λ m,
    match fs m !! path with
    | Some Dir =>
        (Val tt,
         Machine (filter (λ entry, negb (within path entry.1)) (fs m)) (world m),
         [])
    | Some _ => (Exc (Raised NotADirectoryError path), m, [])
    | None => (Exc (Raised FileNotFoundError path), m, [])
    end.

Definition create_virtual_environment (venv_path : string) : M X bool :=
  print ("🔧 Creating virtual environment at: " +:+ venv_path) ;;
  try
    (m <- get ;;
     (if path_exists m venv_path then
        print "🗑️  Removing existing virtual environment..." ;;
        rmtree venv_path
      else ret tt) ;;
     call "venv.create" [venv_path] ;;
     print "✅ Virtual environment created successfully" ;;
     ret true)
    [([Exception],
      λ e, print ("❌ Failed to create virtual environment: " +:+ str_of e) ;;
           ret false)].

Definition get_venv_python (venv_path : string) : string :=
  if String.eqb (system amb) "Windows"
  then path_join3 amb venv_path "Scripts" "python.exe"
  else path_join3 amb venv_path "bin" "python".

Definition get_venv_pip (venv_path : string) : string :=
  if String.eqb (system amb) "Windows"
  then path_join3 amb venv_path "Scripts" "pip.exe"
  else path_join3 amb venv_path "bin" "pip".

Definition upgrade_pip_in_venv (venv_path : string) : M X bool :=
  print "🔄 Upgrading pip in virtual environment..." ;;
  let venv_python := get_venv_python venv_path in
  try
    (check_call [venv_python; "-m"; "pip"; "install"; "--upgrade"; "pip"] ;;
     print "✅ Pip upgraded successfully in virtual environment" ;;
     ret true)
    [([CalledProcessError],
      λ e, print ("⚠️  Failed to upgrade pip: " +:+ str_of e) ;; ret false)].

Definition pip_install (venv_python package_name : string) : list string :=
  [venv_python; "-m"; "pip"; "install"; "--upgrade"; package_name].

Definition install_package_in_venv (venv_path package_name : string) : M X bool :=
  let venv_python := get_venv_python venv_path in
  try
    (print ("📦 Installing " +:+ package_name +:+ " in virtual environment...") ;;
     check_call (pip_install venv_python package_name) ;;
     print ("✅ " +:+ package_name +:+ " installed successfully") ;;
     ret true)
    [([CalledProcessError],
      λ e, print ("❌ Failed to install " +:+ package_name +:+ ": " +:+ str_of e) ;;
           ret false)].

Definition setup_jupyter_kernel (venv_path kernel_name : string) : M X bool :=
  let venv_python := get_venv_python venv_path in
  print ("🔧 Setting up Jupyter kernel '" +:+ kernel_name +:+ "'...") ;;
  try
    (check_call
       [venv_python; "-m"; "ipykernel"; "install";
        "--user";
        "--name"; kernel_name;
        "--display-name"; "Python (Digital Studies 101)"] ;;
     print ("✅ Jupyter kernel '" +:+ kernel_name +:+ "' installed successfully") ;;
     print "📝 This kernel will appear as 'Python (Digital Studies 101)' in VS Code" ;;
     ret true)
    [([CalledProcessError],
      λ e, print ("❌ Failed to setup Jupyter kernel: " +:+ str_of e) ;; ret false)].

(** [os.makedirs(path, exist_ok=True)]; only the directory itself is
    recorded, not the parents it creates on the way. *)
Definition makedirs (path : string) : M X unit :=
  λ m,
    match fs m !! path with
    | Some Dir => (Val tt, m, [])
    | Some _ => (Exc (Raised FileExistsError path), m, [])
    | None => (Val tt, Machine (<[path := Dir]> (fs m)) (world m), [])
    end.

(** [with open(path, 'r') as f: json.load(f)] *)
Definition json_load (path : string) : M X json :=
  λ m,
    match fs m !! path with
    | Some (JsonFile doc) => (Val doc, m, [])
    | Some (Blob _) => (Exc (Raised JSONDecodeError path), m, [])
    | Some Dir => (Exc (Raised OSError path), m, [])
    | None => (Exc (Raised FileNotFoundError path), m, [])
    end.

(** [with open(path, 'w') as f: json.dump(doc, f, indent=4)] *)
Definition json_dump (doc : json) (path : string) : M X unit :=
  λ m,
    match fs m !! path with
    | Some Dir => (Exc (Raised OSError path), m, [])
    | _ => (Val tt, Machine (<[path := JsonFile doc]> (fs m)) (world m), [])
    end.

(** [d.update(other)] on dictionaries: the entries of [other] win. *)
Definition dict_update (d other : gmap string json) : gmap string json := other ∪ d.

(** [existing_settings.update(settings)], on whatever [json.load] gave. *)
Definition update (existing : json) (settings : gmap string json) : M X (gmap string json) :=
  match existing with
  | JObj d => ret (dict_update d settings)
  | _ => raise (Raised AttributeError "object has no attribute 'update'")
  end.

Definition new_settings (venv_python : string) : gmap string json :=
  <["python.pythonPath" := JStr venv_python]>
    (<["python.defaultInterpreterPath" := JStr venv_python]>
       (<["jupyter.kernels.filter" :=
            JArr [JObj (<["path" := JStr venv_python]>
                          (<["type" := JStr "pythonEnvironment"]> ∅))]]> ∅)).

Definition settings_path (workspace_path : string) : string :=
  path_join amb (path_join amb workspace_path ".vscode") "settings.json".

Definition create_vscode_settings (venv_path workspace_path : string) : M X bool :=
  let vscode_dir := path_join amb workspace_path ".vscode" in
  let settings_file := path_join amb vscode_dir "settings.json" in
  makedirs vscode_dir ;;
  let venv_python := abspath (get_venv_python venv_path) in
  let settings := new_settings venv_python in
  try
    (m <- get ;;
     settings <-
       (if path_exists m settings_file then
          existing_settings <- json_load settings_file ;;
          update existing_settings settings
        else ret settings) ;;
     json_dump (JObj settings) settings_file ;;
     print ("✅ VS Code settings created at: " +:+ settings_file) ;;
     print ("🔧 Python interpreter set to: " +:+ venv_python) ;;
     ret true)
    [([Exception],
      λ e, print ("❌ Failed to create VS Code settings: " +:+ str_of e) ;; ret false)].

Definition nltk_script : string :=
  nl +:+
  "import nltk" +:+ nl +:+
  "import ssl" +:+ nl +:+
  nl +:+
  "# Handle SSL certificate issues" +:+ nl +:+
  "try:" +:+ nl +:+
  "    _create_unverified_https_context = ssl._create_unverified_context" +:+ nl +:+
  "except AttributeError:" +:+ nl +:+
  "    pass" +:+ nl +:+
  "else:" +:+ nl +:+
  "    ssl._create_default_https_context = _create_unverified_https_context" +:+ nl +:+
  nl +:+
  "# Download required NLTK data" +:+ nl +:+
  "packages = [" +:+ dq +:+ "punkt" +:+ dq +:+ ", " +:+ dq +:+ "vader_lexicon" +:+ dq
    +:+ "]" +:+ nl +:+
  "for package in packages:" +:+ nl +:+
  "    try:" +:+ nl +:+
  "        nltk.data.find(f" +:+ dq +:+ "tokenizers/{package}" +:+ dq +:+ " if package == "
    +:+ dq +:+ "punkt" +:+ dq +:+ " else package)" +:+ nl +:+
  "        print(f" +:+ dq +:+ "✅ NLTK {package} already available" +:+ dq +:+ ")" +:+ nl +:+
  "    except LookupError:" +:+ nl +:+
  "        print(f" +:+ dq +:+ "📥 Downloading NLTK {package}..." +:+ dq +:+ ")" +:+ nl +:+
  "        nltk.download(package, quiet=True)" +:+ nl +:+
  "        print(f" +:+ dq +:+ "✅ NLTK {package} downloaded successfully" +:+ dq +:+ ")"
    +:+ nl.

Definition check_and_download_nltk_data (venv_path : string) : M X bool :=
  let venv_python := get_venv_python venv_path in
  print "📚 Setting up NLTK data..." ;;
  try
    (check_call [venv_python; "-c"; nltk_script] ;;
     ret true)
    [([CalledProcessError],
      λ e, print ("❌ Failed to setup NLTK data: " +:+ str_of e) ;; ret false)].

Definition models : list string := ["en_core_web_sm"; "en_core_web_md"].

Definition spacy_download (venv_python model_name : string) : list string :=
  [venv_python; "-m"; "spacy"; "download"; model_name].

Definition check_and_download_spacy_model (venv_path : string) : M X unit :=
  let venv_python := get_venv_python venv_path in
  print "🤖 Setting up spaCy models..." ;;
  for_each models tt
    (λ model_name _,
       try
         (print ("📥 Downloading spaCy model " +:+ model_name +:+ "...") ;;
          check_call (spacy_download venv_python model_name) ;;
          print ("✅ spaCy model " +:+ model_name +:+ " downloaded successfully"))
         [([CalledProcessError],
           λ _, print ("⚠️  Failed to download spaCy model " +:+ model_name
                       +:+ " - you can install it later"))]).

Definition setup_geoparser (venv_path : string) : M X bool :=
  let venv_python := get_venv_python venv_path in
  print "🌍 Setting up geoparser..." ;;
  try
    (print "📥 Downloading GeoNames database (this may take a while)..." ;;
     print "💾 This will download ~1GB of geographic data" ;;
     check_call [venv_python; "-m"; "geoparser"; "download"; "geonames"] ;;
     print "✅ GeoNames database downloaded successfully" ;;
     ret true)
    [([CalledProcessError],
      λ e,
        print ("⚠️  Failed to setup geoparser: " +:+ str_of e) ;;
        print "💡 You can set this up later with: python -m geoparser download geonames" ;;
        ret false)].

Definition packages : list string :=
  [ "ipykernel"; "jupyterlab"; "jupyter"; "ipywidgets"; "notebook";
    "pandas"; "numpy"; "matplotlib"; "seaborn"; "plotly"; "mapclassify";
    "tqdm";
    "praw";
    "nltk"; "spacy"; "geoparser";
    "transformers"; "torch"; "scipy"; "scikit-learn";
    "cryptography"; "requests" ].

Definition essential_packages : list string := ["ipykernel"; "jupyterlab"; "jupyter"].

(** The two installation loops of [main].  The first tries every
    essential package; the second every other one. *)
Definition install_essential (venv_path : string) (essential failed : list string)
    : M X (list string) :=
  for_each essential failed
    (λ package failed_packages,
       ok <- install_package_in_venv venv_path package ;;
       if negb ok then
         print ("❌ Critical package " +:+ package +:+ " failed to install!") ;;
         ret (failed_packages ++ [package])
       else ret failed_packages).

Definition install_remaining (venv_path : string) (pkgs essential failed : list string)
    : M X (list string) :=
  for_each pkgs failed
    (λ package failed_packages,
       if negb (bool_decide (package ∈ essential)) then
         ok <- install_package_in_venv venv_path package ;;
         ret (if ok then failed_packages else failed_packages ++ [package])
       else ret failed_packages).

(** [any(pkg in failed_packages for pkg in essential_packages)] *)
Definition any_failed (essential failed_packages : list string) : bool :=
  existsb (λ pkg, bool_decide (pkg ∈ failed_packages)) essential.

Definition print_summary (failed_packages : list string) : M X unit :=
  print (nl +:+ "🎯 Setup Summary") ;;
  print (PyStr.repeat "=" 60) ;;
  match failed_packages with
  | _ :: _ =>
      print ("⚠️  Some packages failed to install: " +:+ PyStr.join ", " failed_packages) ;;
      print "💡 You can install these manually later in the virtual environment"
  | [] => print "✅ All packages installed successfully!"
  end.

Definition print_epilogue (venv_path : string) : M X unit :=
  print (nl +:+ "📋 What was created:") ;;
  print ("• Virtual environment: " +:+ venv_path) ;;
  print "• Jupyter kernel: 'Python (Digital Studies 101)'" ;;
  print "• VS Code settings: .vscode/settings.json" ;;
  print (nl +:+ "🔧 Next Steps:") ;;
  print "1. Restart VS Code completely" ;;
  print "2. Open this folder in VS Code" ;;
  print "3. When opening a .ipynb file, select 'Python (Digital Studies 101)' kernel" ;;
  print "4. VS Code should automatically use the virtual environment" ;;
  print (nl +:+ "💡 Manual activation (if needed):") ;;
  (if String.eqb (system amb) "Windows"
   then print ("   " +:+ venv_path +:+ backslash +:+ "Scripts" +:+ backslash +:+ "activate")
   else print ("   source " +:+ venv_path +:+ "/bin/activate")) ;;
  print (nl +:+ "✨ Environment Details:") ;;
  let venv_python := get_venv_python venv_path in
  print ("• Python executable: " +:+ venv_python) ;;
  print "• Packages installed in isolated environment" ;;
  print "• No conflicts with system Python or Homebrew" ;;
  print (nl +:+ "🎉 Setup complete! Your Python environment is ready for Digital Studies 101.").

(** [main], with the two package lists as parameters. *)
Definition main_with (pkgs essential : list string) : M X unit :=
  print "🚀 Digital Studies 101 - Python Environment Setup" ;;
  print (PyStr.repeat "=" 60) ;;
  print "This script creates a virtual environment to avoid conflicts" ;;
  print "with system Python and ensures Jupyter works correctly." ;;
  print (PyStr.repeat "=" 60) ;;
  ok <- check_python_version ;;
  if negb ok then
    print (nl +:+ "❌ Setup aborted due to incompatible Python version.") ;;
    sys_exit 1
  else
    let script_dir := script_dir amb in
    let venv_name := "ds101_env" in
    let venv_path := path_join amb script_dir venv_name in
    print (nl +:+ "🏠 Working directory: " +:+ script_dir) ;;
    print ("📁 Virtual environment will be created at: " +:+ venv_path) ;;
    print (nl +:+ "🔧 Setting up virtual environment...") ;;
    print (PyStr.repeat "-" 40) ;;
    created <- create_virtual_environment venv_path ;;
    if negb created then
      print "❌ Failed to create virtual environment" ;;
      sys_exit 1
    else
      upgraded <- upgrade_pip_in_venv venv_path ;;
      (if negb upgraded then print "⚠️  Pip upgrade failed, continuing anyway..."
       else ret tt) ;;
      print (nl +:+ "📦 Installing packages in virtual environment...") ;;
      print (PyStr.repeat "-" 40) ;;
      print "Installing essential Jupyter packages first..." ;;
      failed_packages <- install_essential venv_path essential [] ;;
      if any_failed essential failed_packages then
        print "❌ Critical Jupyter packages failed to install. Cannot continue." ;;
        sys_exit 1
      else
        failed_packages <- install_remaining venv_path pkgs essential failed_packages ;;
        print (nl +:+ "🔧 Setting up Jupyter kernel...") ;;
        print (PyStr.repeat "-" 40) ;;
        registered <- setup_jupyter_kernel venv_path "ds101" ;;
        if negb registered then
          print "❌ Failed to setup Jupyter kernel" ;;
          sys_exit 1
        else
          print (nl +:+ "⚙️  Configuring VS Code...") ;;
          print (PyStr.repeat "-" 40) ;;
          create_vscode_settings venv_path script_dir ;;
          print (nl +:+ "📚 Setting up NLP resources...") ;;
          print (PyStr.repeat "-" 40) ;;
          check_and_download_nltk_data venv_path ;;
          check_and_download_spacy_model venv_path ;;
          setup_geoparser venv_path ;;
          print_summary failed_packages ;;
          print_epilogue venv_path.

Definition main : M X unit := main_with packages essential_packages.

End Script.
End SetupEnvironment.

(** ** A laboratory host

    A small concrete outside world on which the scripts can be run: the
    modules that import, the commands on the search path, the items whose
    installation command exits with status one ([refused]), and the items
    whose installation command exits with status zero without making
    anything importable ([hollow]). *)

Module Lab.

Record lab := {
  modules : list string;
  on_path : list string;
  refused : list string;
  hollow : list string;
}.

Definition mentions (names argv : list string) : bool :=
  existsb (λ a, bool_decide (a ∈ names)) argv.

Definition returncode_of (argv : list string) (m : machine lab) : Z :=
  if is_probe argv then
    (if mentions (on_path (world m)) argv then 0 else 127)
  else if mentions (refused (world m)) argv then 1 else 0.

Definition installs (argv : list string) : list string :=
  match argv with
  | [_; "-m"; "pip"; "install"; "--upgrade"; package] => [package]
  | _ => []
  end.

Definition after (argv : list string) (m : machine lab) : machine lab :=
  if (returncode_of argv m =? 0) && negb (mentions (hollow (world m)) argv) then
    Machine (fs m)
      {| modules := modules (world m) ++ installs argv;
         on_path := on_path (world m);
         refused := refused (world m);
         hollow := hollow (world m) |}
  else m.

#[global] Instance host : Host lab := {
  which m cmd := bool_decide (cmd ∈ on_path (world m));
  import_module m name :=
    if bool_decide (name ∈ modules (world m)) then None
    else Some (ModuleNotFoundError, "No module named '" +:+ name +:+ "'");
  spawn argv timeout m :=
    (Completed (returncode_of argv m) (if returncode_of argv m =? 0 then "" else "refused"),
     after argv m);
  libcall fn args m :=
    if String.eqb fn "venv.create" then
      (None, Machine (<[hd "" args := Dir]> (fs m)) (world m))
    else (None, m);
  abspath p := p;
  user_data_dir appname appauthor := "/home/student/.local/share/" +:+ appname;
  strip s := s;
  called_process_error_text argv rc := "non-zero exit status " +:+ pretty rc;
}.

Definition linux : ambient :=
  {| version_info := (3%nat, 11%nat);
     version := "3.11.4 (main, Jun  7 2023, 10:13:09) [GCC 12.2.0]";
     executable := "/usr/bin/python3";
     system := "Linux";
     environ := ∅;
     script_dir := "/home/student/course" |}.

Definition old_python : ambient :=
  {| version_info := (3%nat, 7%nat);
     version := "3.7.16 (default, Dec  6 2022, 10:11:12)";
     executable := "/usr/bin/python3";
     system := "Linux";
     environ := ∅;
     script_dir := "/home/student/course" |}.

(** Nothing installed, every installation works. *)
Definition bare : machine lab :=
  Machine ∅ {| modules := []; on_path := []; refused := []; hollow := [] |}.

(** pandas is importable. *)
Definition with_pandas : machine lab :=
  Machine ∅ {| modules := ["pandas"]; on_path := []; refused := []; hollow := [] |}.

(** The installation of pandas reports success and installs nothing. *)
Definition hollow_pandas : machine lab :=
  Machine ∅ {| modules := []; on_path := []; refused := []; hollow := ["pandas"] |}.

(** The package index refuses pandas. *)
Definition no_pandas : machine lab :=
  Machine ∅ {| modules := []; on_path := []; refused := ["pandas"]; hollow := [] |}.

(** The editor is on the search path; one extension cannot be installed. *)
Definition with_editor : machine lab :=
  Machine ∅
    {| modules := []; on_path := ["code"]; refused := ["redhat.vscode-yaml"];
       hollow := [] |}.

(** The package index refuses ipykernel. *)
Definition no_ipykernel : machine lab :=
  Machine ∅ {| modules := []; on_path := []; refused := ["ipykernel"]; hollow := [] |}.

(** The course folder has editor settings already. *)
Definition with_settings : machine lab :=
  Machine
    (<["/home/student/course/.vscode" := Dir]>
       (<["/home/student/course/.vscode/settings.json" :=
            JsonFile (JObj (<["editor.fontSize" := JNum 14]>
                              (<["python.pythonPath" := JStr "/usr/bin/python"]> ∅)))]> ∅))
    {| modules := []; on_path := []; refused := []; hollow := [] |}.

(** The course folder has a virtual environment already, and notes. *)
Definition with_environment : machine lab :=
  Machine
    (<["/home/student/course/ds101_env" := Dir]>
       (<["/home/student/course/ds101_env/bin/python" := Blob 5904]>
          (<["/home/student/course/ds101_env/lib/stale.py" := Blob 120]>
             (<["/home/student/course/notes.txt" := Blob 42]> ∅))))
    {| modules := []; on_path := []; refused := []; hollow := [] |}.

End Lab.

(** ** The module name, as the specification words it

    The package name with everything from the first [>=] or [<] onward
    removed.  This definition follows the wording of the specification, not
    the code; it is compared with [InstallsRequired.derive_import_name]
    below. *)
Fixpoint strip_version_specifier (package_name : string) : string :=
  match package_name with
  | EmptyString => ""
  | String c rest =>
      if String.prefix ">=" package_name || String.prefix "<" package_name then ""
      else String c (strip_version_specifier rest)
  end.

(** The part of [s] before the first occurrence of [sep]. *)
Fixpoint before (sep s : string) : string :=
  match s with
  | EmptyString => ""
  | String c rest => if String.prefix sep s then "" else String c (before sep rest)
  end.

(** ** Vocabulary of the statements *)

Definition spawns (t : list event) : list event := filter is_spawn t.

Definition is_print (e : event) : bool :=
  match e with
  | Print _ => true
  | _ => false
  end.

(** Everything a run did besides printing. *)
Definition interactions (t : list event) : list event :=
  filter (λ e, negb (is_print e)) t.

(** A computation that never acquires anything. *)
Definition quiet {X A} (c : M X A) : Prop :=
  ∀ m, acquisitions (trace (c m)) = [].

(** A computation that always returns normally. *)
Definition total {X A} (c : M X A) : Prop :=
  ∀ m, ∃ a, outcome (c m) = Val a.

(** A computation that raises nothing but instances of the given classes. *)
Definition raises_only {X A} (c : M X A) (classes : list exn_class) : Prop :=
  ∀ m e, outcome (c m) = Exc e → existsb (isinstance e) classes = true.

(** A computation that prints the given line whenever it is run. *)
Definition prints {X A} (c : M X A) (line : string) : Prop :=
  ∀ m, Print line ∈ trace (c m).

(** The line of the summary of installs_required.py that tells which
    packages failed. *)
Definition summary_line (failed_packages : list string) : string :=
  match failed_packages with
  | _ :: _ => "❌ Failed to install: " +:+ PyStr.join ", " failed_packages
  | [] => "✅ All packages installed successfully!"
  end.

(** The class an [except] clause of the scripts expects of a library
    routine, if the routine may raise at all. *)
Definition handled_error (fn : string) : option exn_class :=
  if String.eqb fn "nltk.data.find" then Some LookupError
  else if String.eqb fn "spacy.load" then Some OSError
  else if String.eqb fn "geoparser.Geoparser" then Some Exception
  else if String.eqb fn "venv.create" then Some Exception
  else None.

(** A host on which no exception escapes the scripts: every child process
    can be started and runs to completion, with whatever return code; an
    import that fails raises an [ImportError]; a library routine that fails
    raises what the script expects of it. *)
Record well_behaved {X} `{Host X} : Prop := {
  wb_spawn : ∀ argv timeout m,
    ∃ rc stderr m', spawn argv timeout m = (Completed rc stderr, m');
  wb_import : ∀ m name err,
    import_module m name = Some err → ImportError ∈ mro err.1;
  wb_libcall : ∀ fn args m err m',
    libcall fn args m = (Some err, m') →
    ∃ c, handled_error fn = Some c ∧ c ∈ mro err.1;
}.
Arguments well_behaved X {_}.

(** The command that installs one editor extension. *)
Definition install_command (vscode_cmd : string) (ext : string * string) : event :=
  Spawn [vscode_cmd; "--install-extension"; ext.1] (Some 60%nat) true.

(** The command that installs one package into the virtual environment. *)
Definition venv_install (amb : ambient) (venv_path package_name : string) : event :=
  Spawn (SetupEnvironment.pip_install (SetupEnvironment.get_venv_python amb venv_path)
           package_name) None false.

(** Where [check_and_setup_geoparser] looks for the database. *)
Definition geonames_dir {X} `{Host X} (amb : ambient) : string :=
  path_join amb (user_data_dir "geoparser" "") "geonames".

Definition geonames_db {X} `{Host X} (amb : ambient) : string :=
  path_join amb (geonames_dir amb) "geonames.db".

(** Where [main] of setup_python_environment.py puts the environment. *)
Definition course_env (amb : ambient) : string := path_join amb (script_dir amb) "ds101_env".

(** The settings that [create_vscode_settings] writes. *)
Definition written_keys : list string :=
  ["python.pythonPath"; "python.defaultInterpreterPath"; "jupyter.kernels.filter"].

(** The settings written, given those to set and what the settings file
    held before. *)
Definition merged (new : gmap string json) (before : option node) : gmap string json :=
  match before with
  | Some (JsonFile (JObj existing)) => SetupEnvironment.dict_update existing new
  | _ => new
  end.

(** The machine without the directory tree at [venv_path], if there is
    anything at that path. *)
Definition without_tree {X} (amb : ambient) (venv_path : string) (m : machine X)
    : machine X :=
  if path_exists m venv_path then
    Machine (filter (λ entry, negb (SetupEnvironment.within amb venv_path entry.1)) (fs m))
      (world m)
  else m.

(** The names of the items whose result is a failure. *)
Fixpoint failures {A} (names : list A) (oks : list bool) : list A :=
  match names, oks with
  | name :: names', ok :: oks' =>
      if ok then failures names' oks' else name :: failures names' oks'
  | _, _ => []
  end.

(** Whether a child process ran to completion with return code zero. *)
Definition completed_ok (r : proc_result) : bool :=
  match r with
  | Completed rc _ => rc =? 0
  | Failed _ => false
  end.

(** The verdicts of the commands of the items of a list, in order, each
    command started on the machine that the command before it left. *)
Fixpoint command_results {X} `{Host X} {A} (command : A → list string)
    (timeout : option nat) (items : list A) (m : machine X) : list bool :=
  match items with
  | [] => []
  | item :: rest =>
      let child := spawn (command item) timeout m in
      completed_ok child.1 :: command_results command timeout rest child.2
  end.

(** [sub] occurs somewhere in [s]. *)
Definition occurs (sub s : string) : Prop := ∃ a b, s = a +:+ sub +:+ b.

(** Every command [check_vscode_installed] may return on this platform for
    this user: the two on the search path, then the installation paths of
    the platform. *)
Definition editor_candidates (amb : ambient) : list string :=
  ["code"; "code-insiders"]
  ++ (if String.eqb (system amb) "Windows" then
        VscodeExtensions.possible_paths (default "" (environ amb !! "USERNAME"))
      else if String.eqb (system amb) "Darwin" then [VscodeExtensions.macos_path]
      else []).

(** The version probe of an editor command. *)
Definition version_probe (cmd : string) : event :=
  Spawn [cmd; "--version"] (Some 10%nat) true.

(** The command that downloads one spaCy model for the running interpreter. *)
Definition spacy_download (amb : ambient) (model_name : string) : event :=
  Spawn [executable amb; "-m"; "spacy"; "download"; model_name] None false.

(** The command that downloads the GeoNames database for the running
    interpreter. *)
Definition geonames_download (amb : ambient) : event :=
  Spawn [executable amb; "-m"; "geoparser"; "download"; "geonames"] None false.

(** ** A faulty host

    A second concrete outside world, on which things go wrong: imports that
    raise something else than [ImportError], commands that cannot be
    started or time out, commands that exit with status one, library
    routines that raise.  It never changes the machine. *)

Module Faulty.

Record faults := {
  importable : list string;
  broken : list (string * exn_class);
  found : list string;
  unstartable : list (string * exn_class);
  failing : list string;
  raising : list (string * exn_class);
}.

(** The class listed for the first key of the table that is among [names]. *)
Fixpoint fault_of (table : list (string * exn_class)) (names : list string)
    : option exn_class :=
  match table with
  | [] => None
  | (key, c) :: rest =>
      if bool_decide (key ∈ names) then Some c else fault_of rest names
  end.

Definition host : Host faults :=
  {| which := λ m cmd, bool_decide (cmd ∈ found (world m));
     import_module := λ m name,
       match fault_of (broken (world m)) [name] with
       | Some c => Some (c, "cannot import " +:+ name)
       | None =>
           if bool_decide (name ∈ importable (world m)) then None
           else Some (ModuleNotFoundError, "No module named '" +:+ name +:+ "'")
       end;
     spawn := λ argv timeout m,
       match fault_of (unstartable (world m)) argv with
       | Some c => (Failed (c, "cannot run " +:+ hd "" argv), m)
       | None =>
           (if Lab.mentions (failing (world m)) argv
            then Completed 1 "failed" else Completed 0 "",
            m)
       end;
     libcall := λ fn args m,
       match fault_of (raising (world m)) (fn :: args) with
       | Some c => (Some (c, fn +:+ " failed"), m)
       | None => (None, m)
       end;
     abspath := λ p, p;
     user_data_dir := λ appname appauthor, "/home/student/.local/share/" +:+ appname;
     strip := λ s, s;
     called_process_error_text := λ argv rc, "non-zero exit status " +:+ pretty rc |}.

Definition calm : faults :=
  {| importable := []; broken := []; found := []; unstartable := []; failing := [];
     raising := [] |}.

(** The import of the empty module name raises [ValueError]. *)
Definition empty_module_name : machine faults :=
  Machine ∅
    {| importable := []; broken := [("", ValueError)]; found := []; unstartable := [];
       failing := []; raising := [] |}.

(** NLTK is installed, none of its data is. *)
Definition no_punkt : machine faults :=
  Machine ∅
    {| importable := ["nltk"]; broken := []; found := []; unstartable := [];
       failing := []; raising := [("nltk.data.find", LookupError)] |}.

(** NLTK is installed, none of its data is, and the download cannot write. *)
Definition no_network : machine faults :=
  Machine ∅
    {| importable := ["nltk"]; broken := []; found := []; unstartable := [];
       failing := [];
       raising := [("nltk.data.find", LookupError); ("nltk.download", OSError)] |}.

(** The editor is on the search path and may not be executed. *)
Definition locked_editor : machine faults :=
  Machine ∅
    {| importable := []; broken := []; found := ["code"];
       unstartable := [("code", PermissionError)]; failing := []; raising := [] |}.

(** The interpreter of the environment is missing. *)
Definition no_interpreter : machine faults :=
  Machine ∅
    {| importable := []; broken := []; found := [];
       unstartable := [("/home/student/course/ds101_env/bin/python", FileNotFoundError)];
       failing := []; raising := [] |}.

(** An environment exists and a new one cannot be created. *)
Definition read_only_course : machine faults :=
  Machine
    (<["/home/student/course/ds101_env" := Dir]>
       (<["/home/student/course/ds101_env/lib/stale.py" := Blob 120]> ∅))
    {| importable := []; broken := []; found := []; unstartable := []; failing := [];
       raising := [("venv.create", PermissionError)] |}.

End Faulty.

(** ** Further machines of the laboratory host *)

Module Cases.

(** geoparser and appdirs are importable, no database is on the disk. *)
Definition with_geoparser : machine Lab.lab :=
  Machine ∅
    {| Lab.modules := ["geoparser"; "appdirs"]; Lab.on_path := []; Lab.refused := [];
       Lab.hollow := [] |}.

(** geoparser is importable, appdirs is not. *)
Definition geoparser_only : machine Lab.lab :=
  Machine ∅
    {| Lab.modules := ["geoparser"]; Lab.on_path := []; Lab.refused := [];
       Lab.hollow := [] |}.

(** The settings file of the course folder holds no JSON. *)
Definition broken_settings : machine Lab.lab :=
  Machine
    (<["/home/student/course/.vscode" := Dir]>
       (<["/home/student/course/.vscode/settings.json" := Blob 17]> ∅))
    {| Lab.modules := []; Lab.on_path := []; Lab.refused := []; Lab.hollow := [] |}.

(** A regular file has the name of the settings directory. *)
Definition vscode_is_a_file : machine Lab.lab :=
  Machine (<["/home/student/course/.vscode" := Blob 3]> ∅)
    {| Lab.modules := []; Lab.on_path := []; Lab.refused := []; Lab.hollow := [] |}.

(** A regular file has the name of the environment. *)
Definition env_is_a_file : machine Lab.lab :=
  Machine (<["/home/student/course/ds101_env" := Blob 9]> ∅)
    {| Lab.modules := []; Lab.on_path := []; Lab.refused := []; Lab.hollow := [] |}.

End Cases.

(** * Properties *)

(** ** Strings *)

Lemma append_cons (x : Ascii.ascii) (a b : string) :
  String x a +:+ b = String x (a +:+ b).
Proof. reflexivity. Qed.

Lemma append_snoc (a : string) (c : Ascii.ascii) (b : string) :
  (a +:+ String c "") +:+ b = a +:+ String c b.
Proof.
  induction a as [|x a IH]; [done |]. by rewrite !append_cons, IH.
Qed.

Lemma append_empty_r (a : string) : a +:+ "" = a.
Proof.
  induction a as [|x a IH]; [done |]. by rewrite append_cons, IH.
Qed.

Lemma first_split_from (sep piece s : string) :
  PyStr.first (PyStr.split_from sep O piece s) = piece +:+ before sep s.
Proof.
  revert piece. induction s as [|c s IH]; intros piece.
  - simpl. by rewrite append_empty_r.
  - cbn [PyStr.split_from before]. destruct (String.prefix sep (String c s)).
    + simpl. by rewrite append_empty_r.
    + rewrite IH. apply append_snoc.
Qed.

Lemma first_split (sep s : string) : PyStr.first (PyStr.split sep s) = before sep s.
Proof. unfold PyStr.split. by rewrite first_split_from. Qed.

Lemma prefix_empty (s : string) : String.prefix "" s = true.
Proof. by destruct s. Qed.

(** Whether a one-character separator starts a string depends on its first
    character only. *)
Lemma prefix_char (a c : Ascii.ascii) (s t : string) :
  String.prefix (String a "") (String c s) = String.prefix (String a "") (String c t).
Proof.
  change (String.prefix (String a "") (String c s))
    with (if Ascii.ascii_dec a c then String.prefix "" s else false).
  change (String.prefix (String a "") (String c t))
    with (if Ascii.ascii_dec a c then String.prefix "" t else false).
  by rewrite !prefix_empty.
Qed.

Lemma before_before (s : string) : before "<" (before ">=" s) = strip_version_specifier s.
Proof.
  induction s as [|c s IH]; [done |].
  cbn [before strip_version_specifier].
  destruct (String.prefix ">=" (String c s)) eqn:Hge; [done |].
  cbn [before orb].
  rewrite (prefix_char _ c (before ">=" s) s).
  destruct (String.prefix "<" (String c s)); [done |]. by rewrite IH.
Qed.

Lemma derive_import_name_strips (package_name : string) :
  InstallsRequired.derive_import_name package_name = strip_version_specifier package_name.
Proof.
  unfold InstallsRequired.derive_import_name. rewrite !first_split. apply before_before.
Qed.

(** ** The monad *)

Section Monad.
Context {X : Type} `{Host X}.

Lemma outcome_bind {A B} (c : M X A) (k : A → M X B) (m : machine X) :
  outcome (bind c k m)
  = match outcome (c m) with
    | Val a => outcome (k a (final (c m)))
    | Exc e => Exc e
    end.
Proof.
  unfold bind, outcome, final. destruct (c m) as [[[a|e] m1] t1]; simpl; [|done].
  by destruct (k a m1) as [[r m2] t2].
Qed.

Lemma final_bind {A B} (c : M X A) (k : A → M X B) (m : machine X) :
  final (bind c k m)
  = match outcome (c m) with
    | Val a => final (k a (final (c m)))
    | Exc e => final (c m)
    end.
Proof.
  unfold bind, outcome, final. destruct (c m) as [[[a|e] m1] t1]; simpl; [|done].
  by destruct (k a m1) as [[r m2] t2].
Qed.

Lemma trace_bind {A B} (c : M X A) (k : A → M X B) (m : machine X) :
  trace (bind c k m)
  = trace (c m) ++ match outcome (c m) with
                   | Val a => trace (k a (final (c m)))
                   | Exc e => []
                   end.
Proof.
  unfold bind, outcome, final, trace. destruct (c m) as [[[a|e] m1] t1]; simpl.
  - by destruct (k a m1) as [[r m2] t2].
  - by rewrite app_nil_r.
Qed.

(** A bind that returns: both parts returned, and the trace is theirs. *)
Lemma bind_val {A B} (c : M X A) (k : A → M X B) (m : machine X) (b : B) :
  outcome (bind c k m) = Val b →
  ∃ a, outcome (c m) = Val a
       ∧ outcome (k a (final (c m))) = Val b
       ∧ trace (bind c k m) = trace (c m) ++ trace (k a (final (c m))).
Proof.
  rewrite outcome_bind, trace_bind. destruct (outcome (c m)) as [a|e]; [|done]. eauto.
Qed.

(** A segment of a trace is a segment of any trace that ends with it. *)
Lemma segment_later (t0 t segment : list event) (P : list event → Prop) :
  (∃ before after, t = before ++ segment ++ after ∧ P after) →
  ∃ before after, t0 ++ t = before ++ segment ++ after ∧ P after.
Proof.
  intros (before & after & -> & Hafter). exists (t0 ++ before), after.
  by rewrite <- app_assoc.
Qed.

Lemma outcome_try {A} (c : M X A) clauses (m : machine X) :
  outcome (try c clauses m)
  = match outcome (c m) with
    | Val a => Val a
    | Exc e =>
        match select_handler e clauses with
        | Some h => outcome (h (final (c m)))
        | None => Exc e
        end
    end.
Proof.
  unfold try, outcome, final. destruct (c m) as [[[a|e] m1] t1]; simpl; [done |].
  destruct (select_handler e clauses) as [h|]; [|done].
  by destruct (h m1) as [[r m2] t2].
Qed.

Lemma final_try {A} (c : M X A) clauses (m : machine X) :
  final (try c clauses m)
  = match outcome (c m) with
    | Val a => final (c m)
    | Exc e =>
        match select_handler e clauses with
        | Some h => final (h (final (c m)))
        | None => final (c m)
        end
    end.
Proof.
  unfold try, outcome, final. destruct (c m) as [[[a|e] m1] t1]; simpl; [done |].
  destruct (select_handler e clauses) as [h|]; [|done].
  by destruct (h m1) as [[r m2] t2].
Qed.

Lemma trace_try {A} (c : M X A) clauses (m : machine X) :
  trace (try c clauses m)
  = trace (c m) ++ match outcome (c m) with
                   | Val a => []
                   | Exc e =>
                       match select_handler e clauses with
                       | Some h => trace (h (final (c m)))
                       | None => []
                       end
                   end.
Proof.
  unfold try, outcome, final, trace. destruct (c m) as [[[a|e] m1] t1]; simpl.
  - by rewrite app_nil_r.
  - destruct (select_handler e clauses) as [h|]; [|by rewrite app_nil_r].
    by destruct (h m1) as [[r m2] t2].
Qed.

(** Every handler that [select_handler] can return satisfies what all the
    handlers of the clauses satisfy. *)
Lemma select_handler_Forall {A} (P : M X A → Prop) (e : exn) clauses h :
  Forall (λ clause, ∀ e', P (clause.2 e')) clauses →
  select_handler e clauses = Some h → P h.
Proof.
  induction 1 as [|[classes h0] rest Hh _ IH]; simpl; [done |].
  destruct (existsb (isinstance e) classes); [|done].
  intros [= <-]. apply Hh.
Qed.

Lemma outcome_ret {A} (a : A) (m : machine X) : outcome (ret a m) = Val a.
Proof. done. Qed.

Lemma final_ret {A} (a : A) (m : machine X) : final (ret a m) = m.
Proof. done. Qed.

Lemma trace_ret {A} (a : A) (m : machine X) : trace (ret a m) = [].
Proof. done. Qed.

Lemma outcome_print (line : string) (m : machine X) : outcome (print line m) = Val tt.
Proof. done. Qed.

Lemma final_print (line : string) (m : machine X) : final (print line m) = m.
Proof. done. Qed.

Lemma trace_print (line : string) (m : machine X) : trace (print line m) = [Print line].
Proof. done. Qed.

Lemma outcome_sys_exit {A} (code : Z) (m : machine X) :
  outcome (sys_exit (A:=A) code m) = Exc (Exit code).
Proof. done. Qed.

Lemma final_sys_exit {A} (code : Z) (m : machine X) : final (sys_exit (A:=A) code m) = m.
Proof. done. Qed.

Lemma trace_sys_exit {A} (code : Z) (m : machine X) : trace (sys_exit (A:=A) code m) = [].
Proof. done. Qed.

(** *** Computations that acquire nothing *)

Lemma quiet_ret {A} (a : A) : quiet (ret (X:=X) a).
Proof. by intros m. Qed.

Lemma quiet_raise {A} (e : exn) : quiet (raise (X:=X) (A:=A) e).
Proof. by intros m. Qed.

Lemma quiet_print (line : string) : quiet (print (X:=X) line).
Proof. by intros m. Qed.

Lemma quiet_get : quiet (get (X:=X)).
Proof. by intros m. Qed.

Lemma quiet_bind {A B} (c : M X A) (k : A → M X B) :
  quiet c → (∀ a, quiet (k a)) → quiet (bind c k).
Proof.
  intros Hc Hk m. rewrite trace_bind. unfold acquisitions in *.
  rewrite filter_app, Hc. destruct (outcome (c m)); [apply Hk | done].
Qed.

Lemma quiet_try {A} (c : M X A) clauses :
  quiet c → Forall (λ clause, ∀ e, quiet (clause.2 e)) clauses → quiet (try c clauses).
Proof.
  intros Hc Hh m. rewrite trace_try. unfold acquisitions in *.
  rewrite filter_app, Hc. destruct (outcome (c m)) as [a|e]; [done |].
  destruct (select_handler e clauses) as [h|] eqn:Hsel; [|done].
  by apply (select_handler_Forall quiet e clauses h Hh Hsel).
Qed.

Lemma quiet_for_each {A S} (l : list A) (s : S) (body : A → S → M X S) :
  (∀ a s', quiet (body a s')) → quiet (for_each l s body).
Proof.
  intros Hbody. revert s. induction l as [|a l IH]; intros s; simpl.
  - apply quiet_ret.
  - apply quiet_bind; [apply Hbody | intros s'; apply IH].
Qed.

Lemma quiet_for_return {A B} (l : list A) (body : A → M X (option B)) :
  (∀ a, quiet (body a)) → quiet (for_return l body).
Proof.
  intros Hbody. induction l as [|a l IH]; simpl.
  - apply quiet_ret.
  - apply quiet_bind; [apply Hbody |]. intros [b|]; [apply quiet_ret | apply IH].
Qed.

Lemma quiet_import (name : string) : quiet (import name).
Proof. intros m. unfold import. by destruct (import_module m name). Qed.

(** A version probe is no acquisition. *)
Lemma quiet_probe (cmd : string) (timeout : option nat) (capture : bool) :
  quiet (subprocess_run [cmd; "--version"] timeout capture).
Proof.
  intros m. unfold subprocess_run.
  by destruct (spawn [cmd; "--version"] timeout m) as [[rc err|err] m'].
Qed.

(** *** Computations that return *)

Lemma total_ret {A} (a : A) : total (ret (X:=X) a).
Proof. intros m. by exists a. Qed.

Lemma total_print (line : string) : total (print (X:=X) line).
Proof. intros m. by exists tt. Qed.

Lemma total_get : total (get (X:=X)).
Proof. intros m. by exists m. Qed.

Lemma total_bind {A B} (c : M X A) (k : A → M X B) :
  total c → (∀ a, total (k a)) → total (bind c k).
Proof.
  intros Hc Hk m. rewrite outcome_bind. destruct (Hc m) as [a ->]. apply Hk.
Qed.

Lemma total_for_each {A S} (l : list A) (s : S) (body : A → S → M X S) :
  (∀ a s', total (body a s')) → total (for_each l s body).
Proof.
  intros Hbody. revert s. induction l as [|a l IH]; intros s; simpl.
  - apply total_ret.
  - apply total_bind; [apply Hbody | intros s'; apply IH].
Qed.

Lemma total_bind_post {A B} (P : A → Prop) (c : M X A) (k : A → M X B) :
  (∀ m, ∃ a, outcome (c m) = Val a ∧ P a) → (∀ a, P a → total (k a)) →
  total (bind c k).
Proof.
  intros Hc Hk m. rewrite outcome_bind. destruct (Hc m) as (a & -> & Ha).
  by apply Hk.
Qed.

(** *** What a computation prints *)

Lemma prints_here (line : string) : prints (print (X:=X) line) line.
Proof. intros m. apply list_elem_of_here. Qed.

Lemma prints_bind_l {A B} (c : M X A) (k : A → M X B) (line : string) :
  prints c line → prints (bind c k) line.
Proof. intros Hc m. rewrite trace_bind. apply elem_of_app. left. apply Hc. Qed.

Lemma prints_bind_r {A B} (c : M X A) (k : A → M X B) (line : string) :
  total c → (∀ a, prints (k a) line) → prints (bind c k) line.
Proof.
  intros Hc Hk m. rewrite trace_bind. apply elem_of_app. right.
  destruct (Hc m) as [a ->]. apply Hk.
Qed.

(** *** What a computation may raise *)

Lemma raises_only_of_total {A} (c : M X A) (classes : list exn_class) :
  total c → raises_only c classes.
Proof. intros Hc m e Hout. destruct (Hc m) as [a Ha]. congruence. Qed.

Lemma raises_only_bind {A B} (c : M X A) (k : A → M X B) (classes : list exn_class) :
  raises_only c classes → (∀ a, raises_only (k a) classes) →
  raises_only (bind c k) classes.
Proof.
  intros Hc Hk m e. rewrite outcome_bind.
  destruct (outcome (c m)) as [a|e'] eqn:Hout.
  - apply Hk.
  - intros [= ->]. by apply (Hc m).
Qed.

(** A [try] whose clause covers what the body may raise returns, if the
    handler does. *)
Lemma total_try {A} (c : M X A) (classes : list exn_class) (h : exn → M X A) :
  raises_only c classes → (∀ e, total (h e)) → total (try c [(classes, h)]).
Proof.
  intros Hc Hh m. rewrite outcome_try.
  destruct (outcome (c m)) as [a|e] eqn:Hout; [by exists a |].
  simpl. rewrite (Hc m e Hout). apply Hh.
Qed.

Section WellBehaved.
Hypothesis Hwb : well_behaved X.

Lemma raises_only_import (name : string) : raises_only (import name) [ImportError].
Proof.
  intros m e. unfold import, outcome.
  destruct (import_module m name) as [err|] eqn:Himp; simpl; [|done].
  intros [= <-]. rewrite orb_false_r. apply bool_decide_eq_true.
  by apply (wb_import Hwb m name).
Qed.

Lemma subprocess_run_total argv timeout capture :
  total (subprocess_run argv timeout capture).
Proof.
  intros m. unfold subprocess_run, outcome.
  destruct (wb_spawn Hwb argv timeout m) as (rc & errors & m1 & ->). simpl. eauto.
Qed.

Lemma raises_only_check_call (argv : list string) :
  raises_only (check_call argv) [CalledProcessError].
Proof.
  apply raises_only_bind.
  - apply raises_only_of_total, subprocess_run_total.
  - intros r m e. destruct (returncode r =? 0); [done |].
    unfold raise, outcome. simpl. by intros [= <-].
Qed.

Lemma raises_only_call (fn : string) (args : list string) (c : exn_class) :
  handled_error fn = Some c → raises_only (call fn args) [c].
Proof.
  intros Hfn m e. unfold call, outcome.
  destruct (libcall fn args m) as [[err|] m1] eqn:Hcall; simpl; [|done].
  intros [= <-]. rewrite orb_false_r. apply bool_decide_eq_true.
  destruct (wb_libcall Hwb fn args m err m1 Hcall) as (c' & Hc' & Hmro). congruence.
Qed.

Lemma total_call (fn : string) (args : list string) :
  handled_error fn = None → total (call fn args).
Proof.
  intros Hfn m. unfold call, outcome.
  destruct (libcall fn args m) as [[err|] m1] eqn:Hcall; simpl; [|by exists tt].
  destruct (wb_libcall Hwb fn args m err m1 Hcall) as (c' & Hc' & Hmro). congruence.
Qed.

End WellBehaved.

End Monad.

Create HintDb quiet.
Create HintDb total.

#[global] Hint Resolve quiet_ret quiet_raise quiet_print quiet_get quiet_import
  quiet_probe : quiet.
#[global] Hint Resolve total_ret total_print total_get : total.

(** Decomposition of a goal along the structure of the computation. *)
Ltac quiet_step :=
  match goal with
  | |- quiet (bind _ _) => apply quiet_bind; [| intros ?]
  | |- quiet (try _ _) => apply quiet_try; [| repeat constructor; intros ?; simpl]
  | |- quiet (for_each _ _ _) => apply quiet_for_each; intros ? ?
  | |- quiet (for_return _ _) => apply quiet_for_return; intros ?
  | |- quiet (if ?b then _ else _) => destruct b
  | |- quiet (match ?x with _ => _ end) => destruct x
  | |- quiet _ => solve [auto with quiet]
  end.

Create Rewrite HintDb run.

#[global] Hint Rewrite @outcome_bind @final_bind @trace_bind
  @outcome_ret @final_ret @trace_ret @outcome_print @final_print @trace_print
  @outcome_sys_exit @final_sys_exit @trace_sys_exit : run.

(** Symbolic execution of a script along its binds, as far as the results
    of the steps are known. *)
Ltac run := repeat (progress (autorewrite with run; cbv beta iota)).

(** The projections of a run, pushed through the binds and handlers. *)
Ltac project :=
  repeat (rewrite outcome_bind || rewrite final_bind || rewrite trace_bind
          || rewrite outcome_try || rewrite final_try || rewrite trace_try).

Ltac total_step :=
  match goal with
  | |- total (bind _ _) => apply total_bind; [| intros ?]
  | |- total (for_each _ _ _) => apply total_for_each; intros ? ?
  | |- total (if ?b then _ else _) => destruct b
  | |- total (match ?x with _ => _ end) => destruct x
  | |- total _ => solve [auto with total]
  end.

(** The same on a well-behaved host [Hwb], where the handlers of the
    scripts cover what their bodies raise. *)
Ltac returns Hwb :=
  repeat match goal with
  | |- total (bind _ _) => apply total_bind; [| intros ?]
  | |- total (for_each _ _ _) => apply total_for_each; intros ? ?
  | |- total (try _ [(_, _)]) => apply total_try; [| intros ?]
  | |- total (call _ _) => apply (total_call Hwb); reflexivity
  | |- total (subprocess_run _ _ _) => apply (subprocess_run_total Hwb)
  | |- total (if ?b then _ else _) => destruct b
  | |- total (match ?x with _ => _ end) => destruct x
  | |- total (ret _) => apply total_ret
  | |- total (print _) => apply total_print
  | |- total get => apply total_get
  | |- raises_only (bind _ _) _ => apply raises_only_bind; [| intros ?]
  | |- raises_only (if ?b then _ else _) _ => destruct b
  | |- raises_only (import _) [ImportError] => apply (raises_only_import Hwb)
  | |- raises_only (check_call _) [CalledProcessError] =>
      apply (raises_only_check_call Hwb)
  | |- raises_only (call _ _) _ => apply (raises_only_call Hwb); reflexivity
  | |- raises_only _ _ => apply raises_only_of_total
  end.

(** Unfolding of the primitive computations at a machine. *)
Ltac exec :=
  repeat progress
    (unfold bind, try, ret, raise, print, get, import, call, check_call, subprocess_run,
       sys_exit, outcome, final, trace; simpl).

(** The run of a bind that returned, taken apart: the first part returned
    [a] ([Ha]), the rest returned what the whole did ([H]). *)
Ltac invert_bind H a Ha :=
  let Hk := fresh "Hk" in
  destruct (bind_val _ _ _ _ H) as (a & Ha & Hk & _); clear H; rename Hk into H;
  cbv beta in H.

(** The same, the trace of the bind in the goal taken apart as well. *)
Ltac invert_run H a Ha :=
  let Hk := fresh "Hk" in
  destruct (bind_val _ _ _ _ H) as (a & Ha & Hk & ->); clear H; rename Hk into H;
  cbv beta in H |- *.

Ltac skip_run H :=
  let u := fresh "u" in
  let Hu := fresh "Hu" in
  invert_run H u Hu; clear Hu; clear u.

Ltac skip_print H :=
  let u := fresh "u" in
  let Hu := fresh "Hu" in
  invert_bind H u Hu; clear Hu; clear u.

(** ** One item at a time *)

Section Items.
Context {X : Type} `{Host X} (amb : ambient).

(** *** Packages of installs_required.py *)

Lemma package_already_installed (package_name : string) (import_name : option string)
    (m : machine X) :
  import_module m (default (InstallsRequired.derive_import_name package_name) import_name)
    = None →
  InstallsRequired.check_and_install_package amb package_name import_name m
  = (Val true, m,
     [Import (default (InstallsRequired.derive_import_name package_name) import_name);
      Print ("✅ " +:+ package_name +:+ " already installed")]).
Proof.
  intros Himp. unfold InstallsRequired.check_and_install_package.
  destruct import_name as [name|]; simpl in Himp; exec; by rewrite Himp.
Qed.

Lemma package_missing (package_name : string) (m m1 : machine X) (err : error)
    (rc : Z) (stderr : string) :
  import_module m (InstallsRequired.derive_import_name package_name) = Some err →
  ImportError ∈ mro err.1 →
  spawn (InstallsRequired.pip_install amb package_name) None m = (Completed rc stderr, m1) →
  InstallsRequired.check_and_install_package amb package_name None m
  = (Val (rc =? 0), m1,
     [Import (InstallsRequired.derive_import_name package_name);
      Print ("📦 Installing " +:+ package_name +:+ "...");
      Spawn (InstallsRequired.pip_install amb package_name) None false;
      Print (if rc =? 0
             then "✅ " +:+ package_name +:+ " installed successfully"
             else "❌ Failed to install " +:+ package_name)]).
Proof.
  intros Himp Hcls Hrun.
  unfold InstallsRequired.check_and_install_package, InstallsRequired.pip_install in *.
  exec. rewrite Himp. simpl. rewrite (bool_decide_true _ Hcls). simpl.
  rewrite Hrun. simpl. by destruct (rc =? 0).
Qed.

Lemma package_missing_spawns (package_name : string) (m : machine X) (err : error) :
  import_module m (InstallsRequired.derive_import_name package_name) = Some err →
  ImportError ∈ mro err.1 →
  spawns (trace (InstallsRequired.check_and_install_package amb package_name None m))
  = [Spawn (InstallsRequired.pip_install amb package_name) None false].
Proof.
  intros Himp Hcls.
  destruct (spawn (InstallsRequired.pip_install amb package_name) None m)
    as [[rc stderr|[c text]] m1] eqn:Hrun.
  - by rewrite (package_missing _ _ _ _ _ _ Himp Hcls Hrun).
  - unfold InstallsRequired.check_and_install_package, InstallsRequired.pip_install in *.
    exec. rewrite Himp. simpl. rewrite (bool_decide_true _ Hcls). simpl.
    rewrite Hrun. simpl. by destruct (bool_decide (CalledProcessError ∈ mro c)).
Qed.

(** *** Extensions of install_vscode_extensions.py *)

Lemma install_extension_success (vscode_cmd extension_id extension_name : string)
    (m m1 : machine X) (err : string) :
  spawn [vscode_cmd; "--install-extension"; extension_id] (Some 60%nat) m
    = (Completed 0 err, m1) →
  VscodeExtensions.install_extension vscode_cmd extension_id extension_name m
  = (Val true, m1,
     [Print ("📦 Installing " +:+ extension_name +:+ "...");
      Spawn [vscode_cmd; "--install-extension"; extension_id] (Some 60%nat) true;
      Print ("✅ " +:+ extension_name +:+ " installed successfully")]).
Proof.
  intros Hrun. unfold VscodeExtensions.install_extension. exec. by rewrite Hrun.
Qed.

(** Whatever happens to the command, [install_extension] returns a
    boolean, having started exactly that one command. *)
Lemma install_extension_total (vscode_cmd extension_id extension_name : string)
    (m : machine X) :
  ∃ ok : bool,
    outcome (VscodeExtensions.install_extension vscode_cmd extension_id extension_name m)
      = Val ok
    ∧ spawns (trace (VscodeExtensions.install_extension vscode_cmd extension_id
                       extension_name m))
      = [install_command vscode_cmd (extension_id, extension_name)]
    ∧ acquisitions (trace (VscodeExtensions.install_extension vscode_cmd extension_id
                             extension_name m))
      = [install_command vscode_cmd (extension_id, extension_name)].
Proof.
  unfold VscodeExtensions.install_extension, install_command. exec.
  destruct (spawn _ (Some 60%nat) m) as [[rc err|[c text]] m1]; simpl.
  - destruct (rc =? 0); simpl; [by exists true |].
    exists false. by destruct (PyStr.truthy err).
  - exists false. destruct c; done.
Qed.

(** The boolean that [install_extension] returns is the verdict of its
    command, and the machine it leaves is the one the command left. *)
Lemma install_extension_verdict (vscode_cmd extension_id extension_name : string)
    (m : machine X) :
  let child := spawn [vscode_cmd; "--install-extension"; extension_id] (Some 60%nat) m in
  outcome (VscodeExtensions.install_extension vscode_cmd extension_id extension_name m)
    = Val (completed_ok child.1)
  ∧ final (VscodeExtensions.install_extension vscode_cmd extension_id extension_name m)
    = child.2.
Proof.
  unfold VscodeExtensions.install_extension. exec.
  destruct (spawn _ (Some 60%nat) m) as [[rc err|[c text]] m1]; simpl.
  - destruct (rc =? 0); simpl; [done |]. by destruct (PyStr.truthy err).
  - by destruct c.
Qed.

(** *** Data and models of installs_required.py *)

Lemma nltk_data_available (package path : string) (m m1 : machine X) :
  libcall "nltk.data.find" [path] m = (None, m1) →
  InstallsRequired.ensure_nltk_data package path m
  = (Val tt, m1,
     [Call "nltk.data.find" [path];
      Print ("✅ NLTK " +:+ package +:+ " already available")]).
Proof.
  intros Hfind. unfold InstallsRequired.ensure_nltk_data. exec. by rewrite Hfind.
Qed.

Lemma spacy_model_available (model_name : string) (m m1 : machine X) :
  libcall "spacy.load" [model_name] m = (None, m1) →
  InstallsRequired.ensure_spacy_model amb model_name m
  = (Val tt, m1,
     [Call "spacy.load" [model_name];
      Print ("✅ spaCy model " +:+ model_name +:+ " already available")]).
Proof.
  intros Hload. unfold InstallsRequired.ensure_spacy_model. exec. by rewrite Hload.
Qed.

Lemma geoparser_ready (m m1 : machine X) :
  import_module m "geoparser" = None →
  import_module m "appdirs" = None →
  path_exists m (geonames_db amb) = true →
  nonempty m (geonames_db amb) = true →
  libcall "geoparser.Geoparser" [] m = (None, m1) →
  InstallsRequired.check_and_setup_geoparser amb m
  = (Val (Some true), m1,
     [Import "geoparser";
      Print "🔍 Checking geoparser installation...";
      Import "appdirs";
      Print ("📁 Checking for geoparser data at: " +:+ geonames_dir amb);
      Print ("�️  Looking for database: " +:+ geonames_db amb);
      Print "✅ GeoNames database already exists";
      Call "geoparser.Geoparser" [];
      Print "✅ Geoparser instantiated successfully - data is working"]).
Proof.
  unfold geonames_db, geonames_dir. intros Hgeo Happ Hex Hsize Hinit.
  unfold InstallsRequired.check_and_setup_geoparser. exec.
  rewrite Hgeo. simpl. rewrite Happ. simpl. rewrite Hex, Hsize. simpl.
  by rewrite Hinit.
Qed.

(** With [appdirs] importable and no database on disk, the function falls
    off its end and returns nothing, and no download is started: the
    download sits in the handler of the failed import of [appdirs]. *)
Lemma geoparser_database_missing (m : machine X) :
  import_module m "geoparser" = None →
  import_module m "appdirs" = None →
  path_exists m (geonames_db amb) = false →
  outcome (InstallsRequired.check_and_setup_geoparser amb m) = Val None
  ∧ final (InstallsRequired.check_and_setup_geoparser amb m) = m
  ∧ spawns (trace (InstallsRequired.check_and_setup_geoparser amb m)) = [].
Proof.
  unfold geonames_db, geonames_dir. intros Hgeo Happ Hdb.
  unfold InstallsRequired.check_and_setup_geoparser. exec.
  rewrite Hgeo. simpl. rewrite Happ. simpl. rewrite Hdb. simpl.
  by destruct (path_exists m (path_join amb (user_data_dir "geoparser" "") "geonames")).
Qed.

(** *** The specification on single items *)

(** C6.  An item whose detection reports it present is left alone: a
    package whose import succeeds, NLTK data that [nltk.data.find] finds, a
    spaCy model that loads and a GeoNames database that exists, is not
    empty and with which the geoparser starts, are each reported as already
    there, and no acquisition is made for them.  (The extensions of the
    editor have no detection step at all.) *)
Theorem C6_satisfied_items_are_left_alone (m : machine X) :
  (∀ package_name import_name,
     import_module m (default (InstallsRequired.derive_import_name package_name) import_name)
       = None →
     let r := InstallsRequired.check_and_install_package amb package_name import_name m in
     outcome r = Val true ∧ final r = m ∧ acquisitions (trace r) = []
     ∧ Print ("✅ " +:+ package_name +:+ " already installed") ∈ trace r)
  ∧ (∀ package path m1,
       libcall "nltk.data.find" [path] m = (None, m1) →
       let r := InstallsRequired.ensure_nltk_data package path m in
       outcome r = Val tt ∧ final r = m1 ∧ acquisitions (trace r) = []
       ∧ Print ("✅ NLTK " +:+ package +:+ " already available") ∈ trace r)
  ∧ (∀ model_name m1,
       libcall "spacy.load" [model_name] m = (None, m1) →
       let r := InstallsRequired.ensure_spacy_model amb model_name m in
       outcome r = Val tt ∧ final r = m1 ∧ acquisitions (trace r) = []
       ∧ Print ("✅ spaCy model " +:+ model_name +:+ " already available") ∈ trace r)
  ∧ (∀ m1,
       import_module m "geoparser" = None →
       import_module m "appdirs" = None →
       path_exists m (geonames_db amb) = true →
       nonempty m (geonames_db amb) = true →
       libcall "geoparser.Geoparser" [] m = (None, m1) →
       let r := InstallsRequired.check_and_setup_geoparser amb m in
       outcome r = Val (Some true) ∧ final r = m1 ∧ acquisitions (trace r) = []
       ∧ Print "✅ GeoNames database already exists" ∈ trace r).
Proof.
  split; [|split; [|split]]; intros; subst r.
  - rewrite package_already_installed by done.
    repeat split; try done. simpl. set_solver.
  - erewrite nltk_data_available by done.
    repeat split; try done. simpl. set_solver.
  - erewrite spacy_model_available by done.
    repeat split; try done. simpl. set_solver.
  - erewrite geoparser_ready by done.
    repeat split; try done. simpl. set_solver.
Qed.

Lemma setup_geoparser_spawns (venv_path : string) (m : machine X) :
  spawns (trace (SetupEnvironment.setup_geoparser amb venv_path m))
  = [Spawn [SetupEnvironment.get_venv_python amb venv_path;
            "-m"; "geoparser"; "download"; "geonames"] None false].
Proof.
  unfold SetupEnvironment.setup_geoparser. exec.
  destruct (spawn _ None m) as [[rc stderr|[c text]] m1]; simpl.
  - by destruct (rc =? 0).
  - by destruct (bool_decide (CalledProcessError ∈ mro c)).
Qed.

(** C2, as the scripts have it.  When the acquisition command exits with
    status zero the item is recorded as a success at once: the trace ends
    with the command and the success line, detection is not run again. *)
Theorem C2_zero_exit_status_is_trusted (m m1 : machine X) :
  (∀ package_name err stderr,
     import_module m (InstallsRequired.derive_import_name package_name) = Some err →
     ImportError ∈ mro err.1 →
     spawn (InstallsRequired.pip_install amb package_name) None m
       = (Completed 0 stderr, m1) →
     InstallsRequired.check_and_install_package amb package_name None m
     = (Val true, m1,
        [Import (InstallsRequired.derive_import_name package_name);
         Print ("📦 Installing " +:+ package_name +:+ "...");
         Spawn (InstallsRequired.pip_install amb package_name) None false;
         Print ("✅ " +:+ package_name +:+ " installed successfully")]))
  ∧ (∀ vscode_cmd extension_id extension_name stderr,
       spawn [vscode_cmd; "--install-extension"; extension_id] (Some 60%nat) m
         = (Completed 0 stderr, m1) →
       VscodeExtensions.install_extension vscode_cmd extension_id extension_name m
       = (Val true, m1,
          [Print ("📦 Installing " +:+ extension_name +:+ "...");
           Spawn [vscode_cmd; "--install-extension"; extension_id] (Some 60%nat) true;
           Print ("✅ " +:+ extension_name +:+ " installed successfully")])).
Proof.
  split.
  - intros package_name err stderr Himp Hcls Hrun.
    by rewrite (package_missing _ _ _ _ _ _ Himp Hcls Hrun).
  - intros vscode_cmd extension_id extension_name errors Hrun.
    by apply install_extension_success with errors.
Qed.

(** C5, as the scripts have it.  A package whose import raises
    [ImportError] gets its installation command started, exactly once, with
    no timeout and nothing captured; the return code alone decides the
    result.  The download of the GeoNames database into the virtual
    environment is started the same way.  Only the installation of an
    editor extension runs under a timeout, of sixty seconds, with its
    standard error captured. *)
Theorem C5_acquisition_is_started_without_timeout (m : machine X) :
  (∀ package_name err,
     import_module m (InstallsRequired.derive_import_name package_name) = Some err →
     ImportError ∈ mro err.1 →
     let r := InstallsRequired.check_and_install_package amb package_name None m in
     spawns (trace r) = [Spawn (InstallsRequired.pip_install amb package_name) None false]
     ∧ ∀ rc stderr m1,
         spawn (InstallsRequired.pip_install amb package_name) None m
           = (Completed rc stderr, m1) →
         outcome r = Val (rc =? 0) ∧ final r = m1)
  ∧ (∀ venv_path,
       spawns (trace (SetupEnvironment.setup_geoparser amb venv_path m))
       = [Spawn [SetupEnvironment.get_venv_python amb venv_path;
                 "-m"; "geoparser"; "download"; "geonames"] None false])
  ∧ (∀ vscode_cmd extension_id extension_name,
       spawns (trace (VscodeExtensions.install_extension vscode_cmd extension_id
                        extension_name m))
       = [Spawn [vscode_cmd; "--install-extension"; extension_id] (Some 60%nat) true]).
Proof.
  split; [|split].
  - intros package_name err Himp Hcls r. subst r. split.
    + by apply package_missing_spawns with err.
    + intros rc stderr m1 Hrun.
      by rewrite (package_missing _ _ _ _ _ _ Himp Hcls Hrun).
  - intros venv_path. apply setup_geoparser_spawns.
  - intros vscode_cmd extension_id extension_name.
    by destruct (install_extension_total vscode_cmd extension_id extension_name m)
      as (ok & _ & Hspawns & _).
Qed.

(** C9.  Without an explicit import name, the module that
    [check_and_install_package] tries to import is the package name cut at
    the first [>=] or [<], and that is the only import it attempts. *)
Theorem C9_import_name_is_the_stripped_package_name (package_name : string)
    (m : machine X) :
  InstallsRequired.derive_import_name package_name = strip_version_specifier package_name
  ∧ filter is_import
      (trace (InstallsRequired.check_and_install_package amb package_name None m))
    = [Import (strip_version_specifier package_name)].
Proof.
  split; [apply derive_import_name_strips |].
  rewrite <- derive_import_name_strips.
  unfold InstallsRequired.check_and_install_package. exec.
  destruct (import_module m _) as [[c text]|]; simpl; [|done].
  destruct (bool_decide (ImportError ∈ mro c)); simpl; [|done].
  destruct (spawn _ None m) as [[rc stderr|[c' text']] m1]; simpl.
  - by destruct (rc =? 0).
  - by destruct (bool_decide (CalledProcessError ∈ mro c')).
Qed.

End Items.

(** ** The loops over the items *)

Section Loops.
Context {X : Type} `{Host X} (amb : ambient).

Lemma spawns_app (t1 t2 : list event) : spawns (t1 ++ t2) = spawns t1 ++ spawns t2.
Proof. apply filter_app. Qed.

Lemma acquisitions_app (t1 t2 : list event) :
  acquisitions (t1 ++ t2) = acquisitions t1 ++ acquisitions t2.
Proof. apply filter_app. Qed.

(** *** Extensions *)

Lemma install_all_from (vscode_cmd : string) (exts : list (string * string))
    (failed : list string) (m : machine X) :
  let r :=
    for_each exts failed
      (λ ext failed_extensions,
         ok <- VscodeExtensions.install_extension vscode_cmd ext.1 ext.2 ;;
         ret (if ok then failed_extensions else failed_extensions ++ [ext.2])) m in
  ∃ oks : list bool,
    length oks = length exts
    ∧ outcome r = Val (failed ++ failures (map snd exts) oks)
    ∧ spawns (trace r) = map (install_command vscode_cmd) exts
    ∧ acquisitions (trace r) = map (install_command vscode_cmd) exts.
Proof.
  revert failed m. induction exts as [|[extension_id extension_name] exts IH];
    intros failed m.
  - exists []. by rewrite app_nil_r.
  - cbn [for_each]. cbv zeta. project.
    destruct (install_extension_total vscode_cmd extension_id extension_name m)
      as (ok & Hok & Hspawns & Hacqs).
    cbn [fst snd]. rewrite Hok. cbn [outcome final trace ret fst snd].
    destruct (IH (if ok then failed else failed ++ [extension_name])
                (final (VscodeExtensions.install_extension vscode_cmd extension_id
                          extension_name m)))
      as (oks & Hlen & Hout & Htrace & Hacq).
    exists (ok :: oks). split; [simpl; by rewrite Hlen |].
    cbv zeta in Hout, Htrace, Hacq. split; [|split].
    + rewrite Hout. destruct ok; simpl; [done | by rewrite <- app_assoc].
    + by rewrite !spawns_app, Hspawns, Htrace.
    + by rewrite !acquisitions_app, Hacqs, Hacq.
Qed.

(** *** Packages of installs_required.py *)

(** With every package importable, the loop installs nothing, reports no
    failure and leaves the machine as it found it. *)
Lemma install_packages_satisfied (packages essential failed : list string)
    (m : machine X) :
  (∀ package, package ∈ packages →
     import_module m (InstallsRequired.derive_import_name package) = None) →
  let r :=
    for_each packages failed
      (λ package failed_packages,
         if negb (bool_decide (package ∈ essential)) then
           ok <- InstallsRequired.check_and_install_package amb package None ;;
           ret (if ok then failed_packages else failed_packages ++ [package])
         else ret failed_packages) m in
  outcome r = Val failed ∧ final r = m ∧ acquisitions (trace r) = [].
Proof.
  induction packages as [|package packages IH]; intros Hsat; [done |].
  cbn [for_each]. cbv zeta.
  rewrite outcome_bind, final_bind, trace_bind.
  assert (import_module m (InstallsRequired.derive_import_name package) = None) as Himp
    by (apply Hsat, elem_of_cons; by left).
  assert (∀ p, p ∈ packages →
            import_module m (InstallsRequired.derive_import_name p) = None) as Hrest
    by (intros p Hp; apply Hsat, elem_of_cons; by right).
  destruct (IH Hrest) as (Hout & Hfin & Hacq). cbv zeta in Hout, Hfin, Hacq.
  destruct (negb (bool_decide (package ∈ essential))).
  - rewrite outcome_bind, final_bind, trace_bind.
    rewrite (package_already_installed amb package None m Himp).
    cbn [outcome final trace ret fst snd]. rewrite Hout, Hfin.
    split; [done | split; [done |]].
    by rewrite acquisitions_app, Hacq.
  - cbn [outcome final trace ret fst snd]. by rewrite Hout, Hfin.
Qed.

Lemma install_essential_satisfied (essential : list string) (m : machine X) :
  (∀ package, package ∈ essential →
     import_module m (InstallsRequired.derive_import_name package) = None) →
  let r := InstallsRequired.install_essential amb essential m in
  outcome r = Val tt ∧ final r = m ∧ acquisitions (trace r) = [].
Proof.
  unfold InstallsRequired.install_essential.
  induction essential as [|package essential IH]; intros Hsat; [done |].
  cbn [for_each]. cbv zeta. project.
  assert (import_module m (InstallsRequired.derive_import_name package) = None) as Himp
    by (apply Hsat, elem_of_cons; by left).
  assert (∀ p, p ∈ essential →
            import_module m (InstallsRequired.derive_import_name p) = None) as Hrest
    by (intros p Hp; apply Hsat, elem_of_cons; by right).
  destruct (IH Hrest) as (Hout & Hfin & Hacq). cbv zeta in Hout, Hfin, Hacq.
  rewrite (package_already_installed amb package None m Himp).
  cbn [outcome final trace ret fst snd]. rewrite Hout, Hfin.
  split; [done | split; [done |]].
  by rewrite acquisitions_app, Hacq.
Qed.

(** *** Packages of setup_python_environment.py *)

Lemma install_package_in_venv_total (venv_path package_name : string) (m : machine X) :
  well_behaved X →
  ∃ ok : bool,
    outcome (SetupEnvironment.install_package_in_venv amb venv_path package_name m) = Val ok
    ∧ spawns (trace (SetupEnvironment.install_package_in_venv amb venv_path package_name m))
      = [venv_install amb venv_path package_name].
Proof.
  intros Hwb.
  unfold SetupEnvironment.install_package_in_venv, venv_install,
    SetupEnvironment.pip_install.
  exec.
  destruct (wb_spawn Hwb
              [SetupEnvironment.get_venv_python amb venv_path;
               "-m"; "pip"; "install"; "--upgrade"; package_name] None m)
    as (rc & errors & m1 & Hrun).
  rewrite Hrun. simpl. destruct (rc =? 0); simpl; [by exists true | by exists false].
Qed.

Lemma install_essential_from (venv_path : string) (essential failed : list string)
    (m : machine X) :
  well_behaved X →
  let r := SetupEnvironment.install_essential amb venv_path essential failed m in
  ∃ oks : list bool,
    length oks = length essential
    ∧ outcome r = Val (failed ++ failures essential oks)
    ∧ spawns (trace r) = map (venv_install amb venv_path) essential.
Proof.
  intros Hwb. unfold SetupEnvironment.install_essential.
  revert failed m. induction essential as [|package essential IH]; intros failed m.
  - exists []. by rewrite app_nil_r.
  - cbn [for_each]. cbv zeta. project.
    destruct (install_package_in_venv_total venv_path package m Hwb)
      as (ok & Hok & Hspawns).
    rewrite Hok.
    destruct (IH (if ok then failed else failed ++ [package])
                (final (SetupEnvironment.install_package_in_venv amb venv_path package m)))
      as (oks & Hlen & Hout & Htrace).
    cbv zeta in Hout, Htrace.
    exists (ok :: oks). split; [simpl; by rewrite Hlen |].
    destruct ok; cbn [negb outcome final trace ret print fst snd]; project;
      cbn [outcome final trace ret print fst snd].
    + rewrite Hout. split; [done |].
      by rewrite !spawns_app, Hspawns, Htrace.
    + rewrite Hout. split; [simpl; by rewrite <- app_assoc |].
      by rewrite !spawns_app, Hspawns, Htrace.
Qed.

Lemma install_remaining_from (venv_path : string) (pkgs essential failed : list string)
    (m : machine X) :
  well_behaved X →
  let r := SetupEnvironment.install_remaining amb venv_path pkgs essential failed m in
  let remaining := filter (λ package, package ∉ essential) pkgs in
  ∃ oks : list bool,
    length oks = length remaining
    ∧ outcome r = Val (failed ++ failures remaining oks)
    ∧ spawns (trace r) = map (venv_install amb venv_path) remaining.
Proof.
  intros Hwb. unfold SetupEnvironment.install_remaining.
  revert failed m. induction pkgs as [|package pkgs IH]; intros failed m.
  - exists []. by rewrite app_nil_r.
  - cbn [for_each]. cbv zeta. project.
    destruct (decide (package ∈ essential)) as [Hin|Hout'].
    + rewrite (bool_decide_true _ Hin). cbn [negb outcome final trace ret fst snd].
      rewrite filter_cons_False by (by intros ?).
      destruct (IH failed m) as (oks & Hlen & Hout & Htrace).
      exists oks. by cbv zeta in Hout, Htrace.
    + rewrite (bool_decide_false _ Hout'). cbn [negb]. project.
      rewrite filter_cons_True by done.
      destruct (install_package_in_venv_total venv_path package m Hwb)
        as (ok & Hok & Hspawns).
      rewrite Hok. cbn [outcome final trace ret fst snd].
      destruct (IH (if ok then failed else failed ++ [package])
                  (final (SetupEnvironment.install_package_in_venv amb venv_path
                            package m)))
        as (oks & Hlen & Hout & Htrace).
      cbv zeta in Hout, Htrace.
      exists (ok :: oks). split; [simpl; by rewrite Hlen |]. split.
      * rewrite Hout. destruct ok; simpl; [done | by rewrite <- app_assoc].
      * by rewrite !spawns_app, Hspawns, Htrace.
Qed.

(** *** The failures collected are those of the commands *)

Lemma command_results_length {A} (command : A → list string) (timeout : option nat)
    (items : list A) (m : machine X) :
  length (command_results command timeout items m) = length items.
Proof.
  revert m. induction items as [|item items IH]; intros m; [done |].
  simpl. by rewrite IH.
Qed.

Lemma install_all_results (vscode_cmd : string) (exts : list (string * string))
    (failed : list string) (m : machine X) :
  outcome
    (for_each exts failed
       (λ ext failed_extensions,
          ok <- VscodeExtensions.install_extension vscode_cmd ext.1 ext.2 ;;
          ret (if ok then failed_extensions else failed_extensions ++ [ext.2])) m)
  = Val (failed
         ++ failures (map snd exts)
              (command_results
                 (λ ext : string * string, [vscode_cmd; "--install-extension"; ext.1])
                 (Some 60%nat) exts m)).
Proof.
  revert failed m. induction exts as [|[extension_id extension_name] exts IH];
    intros failed m.
  - by rewrite app_nil_r.
  - cbn [for_each command_results map failures]. project.
    destruct (install_extension_verdict vscode_cmd extension_id extension_name m)
      as [Hok Hfin].
    cbv zeta in Hok, Hfin. cbn [fst snd]. rewrite Hok.
    cbn [outcome final trace ret fst snd]. rewrite Hfin, IH.
    destruct (completed_ok _); [done | by rewrite <- app_assoc].
Qed.

Lemma install_package_in_venv_verdict (venv_path package_name : string) (m : machine X) :
  well_behaved X →
  let child :=
    spawn (SetupEnvironment.pip_install (SetupEnvironment.get_venv_python amb venv_path)
             package_name) None m in
  outcome (SetupEnvironment.install_package_in_venv amb venv_path package_name m)
    = Val (completed_ok child.1)
  ∧ final (SetupEnvironment.install_package_in_venv amb venv_path package_name m)
    = child.2.
Proof.
  intros Hwb. unfold SetupEnvironment.install_package_in_venv,
    SetupEnvironment.pip_install.
  exec.
  destruct (wb_spawn Hwb
              [SetupEnvironment.get_venv_python amb venv_path;
               "-m"; "pip"; "install"; "--upgrade"; package_name] None m)
    as (rc & errors & m1 & Hrun).
  rewrite Hrun. simpl. by destruct (rc =? 0).
Qed.

Lemma install_essential_results (venv_path : string) (essential failed : list string)
    (m : machine X) :
  well_behaved X →
  outcome (SetupEnvironment.install_essential amb venv_path essential failed m)
  = Val (failed
         ++ failures essential
              (command_results
                 (SetupEnvironment.pip_install
                    (SetupEnvironment.get_venv_python amb venv_path))
                 None essential m)).
Proof.
  intros Hwb. unfold SetupEnvironment.install_essential.
  revert failed m. induction essential as [|package essential IH]; intros failed m.
  - by rewrite app_nil_r.
  - cbn [for_each command_results failures]. project.
    destruct (install_package_in_venv_verdict venv_path package m Hwb) as [Hok Hfin].
    cbv zeta in Hok, Hfin. rewrite Hok.
    destruct (completed_ok _);
      cbn [negb outcome final trace ret print fst snd]; project;
      cbn [outcome final trace ret print fst snd]; rewrite Hfin, IH;
      [done | by rewrite <- app_assoc].
Qed.

Lemma install_remaining_results (venv_path : string)
    (pkgs essential failed : list string) (m : machine X) :
  well_behaved X →
  outcome (SetupEnvironment.install_remaining amb venv_path pkgs essential failed m)
  = Val (failed
         ++ failures (filter (λ package, package ∉ essential) pkgs)
              (command_results
                 (SetupEnvironment.pip_install
                    (SetupEnvironment.get_venv_python amb venv_path))
                 None (filter (λ package, package ∉ essential) pkgs) m)).
Proof.
  intros Hwb. unfold SetupEnvironment.install_remaining.
  revert failed m. induction pkgs as [|package pkgs IH]; intros failed m.
  - by rewrite app_nil_r.
  - cbn [for_each]. project.
    destruct (decide (package ∈ essential)) as [Hin|Hout'].
    + rewrite (bool_decide_true _ Hin). cbn [negb outcome final trace ret fst snd].
      rewrite filter_cons_False by (by intros ?). apply IH.
    + rewrite (bool_decide_false _ Hout'). cbn [negb]. project.
      rewrite filter_cons_True by done. cbn [command_results failures].
      destruct (install_package_in_venv_verdict venv_path package m Hwb) as [Hok Hfin].
      cbv zeta in Hok, Hfin. rewrite Hok. cbn [outcome final trace ret fst snd].
      rewrite Hfin, IH.
      destruct (completed_ok _); [done | by rewrite <- app_assoc].
Qed.

End Loops.

(** ** The scripts as a whole *)

Section Scripts.
Context {X : Type} `{Host X} (amb : ambient).

(** *** install_vscode_extensions.py *)

Lemma check_vscode_installed_quiet : quiet (VscodeExtensions.check_vscode_installed amb).
Proof.
  unfold VscodeExtensions.check_vscode_installed, VscodeExtensions.probe_command,
    VscodeExtensions.probe_path.
  repeat quiet_step.
Qed.

Lemma vscode_summary_runs (failed_extensions : list string) (m : machine X) :
  outcome (VscodeExtensions.print_summary failed_extensions m) = Val tt
  ∧ acquisitions (trace (VscodeExtensions.print_summary failed_extensions m)) = [].
Proof.
  split.
  - assert (total (VscodeExtensions.print_summary (X:=X) failed_extensions)) as Htotal
      by (unfold VscodeExtensions.print_summary; repeat total_step).
    by destruct (Htotal m) as [[] ->].
  - revert m. change (quiet (VscodeExtensions.print_summary (X:=X) failed_extensions)).
    unfold VscodeExtensions.print_summary. repeat quiet_step.
Qed.

Lemma vscode_epilogue_runs (m : machine X) :
  outcome (VscodeExtensions.print_epilogue m) = Val tt
  ∧ acquisitions (trace (VscodeExtensions.print_epilogue m)) = [].
Proof. done. Qed.

(** Without an editor the script stops before the first installation. *)
Lemma vscode_main_without_editor (exts : list (string * string)) (m : machine X) :
  outcome (VscodeExtensions.check_vscode_installed amb m) = Val None →
  outcome (VscodeExtensions.main_with amb exts m) = Exc (Exit 1)
  ∧ acquisitions (trace (VscodeExtensions.main_with amb exts m)) = [].
Proof.
  intros Hcheck. unfold VscodeExtensions.main_with. run. rewrite Hcheck. run.
  split; [done |].
  rewrite !acquisitions_app, (check_vscode_installed_quiet m). done.
Qed.

(** With an editor every extension of the list gets its command, in order,
    and the script runs to its end. *)
Lemma vscode_main_with_editor (exts : list (string * string)) (m : machine X)
    (vscode_cmd : string) :
  outcome (VscodeExtensions.check_vscode_installed amb m) = Val (Some vscode_cmd) →
  PyStr.truthy vscode_cmd = true →
  outcome (VscodeExtensions.main_with amb exts m) = Val tt
  ∧ acquisitions (trace (VscodeExtensions.main_with amb exts m))
    = map (install_command vscode_cmd) exts.
Proof.
  intros Hcheck Hcmd. unfold VscodeExtensions.main_with. run. rewrite Hcheck. run.
  rewrite Hcmd. cbn [negb]. run.
  unfold VscodeExtensions.install_all.
  destruct (install_all_from vscode_cmd exts []
              (final (VscodeExtensions.check_vscode_installed amb m)))
    as (oks & _ & Hout & _ & Hacq).
  cbv zeta in Hout, Hacq. rewrite Hout. run.
  set (m1 := final (for_each exts [] _ _)).
  destruct (vscode_summary_runs ([] ++ failures (map snd exts) oks) m1) as [Hsum Hsumq].
  rewrite Hsum. run.
  destruct (vscode_epilogue_runs
              (final (VscodeExtensions.print_summary ([] ++ failures (map snd exts) oks) m1)))
    as [Hepi Hepiq].
  rewrite Hepi. split; [done |].
  rewrite !acquisitions_app, (check_vscode_installed_quiet m), Hacq, Hsumq, Hepiq.
  simpl. by rewrite app_nil_r.
Qed.

(** *** installs_required.py *)

Lemma ir_check_python_version (m : machine X) :
  outcome (InstallsRequired.check_python_version amb m)
    = Val (negb (version_lt (version_info amb) InstallsRequired.min_version))
  ∧ final (InstallsRequired.check_python_version amb m) = m
  ∧ interactions (trace (InstallsRequired.check_python_version amb m)) = [].
Proof.
  unfold InstallsRequired.check_python_version. exec.
  by destruct (version_lt (version_info amb) InstallsRequired.min_version).
Qed.

(** With too old an interpreter the script stops at once. *)
Lemma ir_main_old_interpreter (packages essential : list string) (m : machine X) :
  version_lt (version_info amb) InstallsRequired.min_version = true →
  outcome (InstallsRequired.main_with amb packages essential m) = Exc (Exit 1)
  ∧ interactions (trace (InstallsRequired.main_with amb packages essential m)) = [].
Proof.
  intros Hold. destruct (ir_check_python_version m) as (Hout & Hfin & Htrace).
  unfold InstallsRequired.main_with. run. rewrite Hout, Hold. cbn [negb]. run.
  split; [done |]. unfold interactions in *. rewrite !filter_app, Htrace. done.
Qed.

Section WellBehaved.
Hypothesis Hwb : well_behaved X.

Lemma ir_upgrade_pip_total : total (InstallsRequired.upgrade_pip amb).
Proof. unfold InstallsRequired.upgrade_pip. returns Hwb. Qed.

Lemma ir_package_total (package_name : string) (import_name : option string) :
  total (InstallsRequired.check_and_install_package amb package_name import_name).
Proof. unfold InstallsRequired.check_and_install_package. returns Hwb. Qed.

Lemma ir_nltk_total : total (InstallsRequired.check_and_download_nltk_data (X:=X)).
Proof.
  unfold InstallsRequired.check_and_download_nltk_data, InstallsRequired.ensure_nltk_data.
  returns Hwb.
Qed.

Lemma ir_spacy_total : total (InstallsRequired.check_and_download_spacy_model amb).
Proof.
  unfold InstallsRequired.check_and_download_spacy_model,
    InstallsRequired.ensure_spacy_model.
  returns Hwb.
Qed.

Lemma ir_geoparser_total : total (InstallsRequired.check_and_setup_geoparser amb).
Proof. unfold InstallsRequired.check_and_setup_geoparser. returns Hwb. Qed.

Lemma ir_install_essential_total (essential : list string) :
  total (InstallsRequired.install_essential amb essential).
Proof.
  unfold InstallsRequired.install_essential.
  apply total_for_each. intros package []. apply total_bind; [|intros ?; apply total_ret].
  apply ir_package_total.
Qed.

Lemma ir_install_packages_total (packages essential : list string) :
  total (InstallsRequired.install_packages amb packages essential).
Proof.
  unfold InstallsRequired.install_packages.
  apply total_for_each. intros package failed.
  destruct (negb (bool_decide (package ∈ essential))); [|apply total_ret].
  apply total_bind; [apply ir_package_total | intros ?; apply total_ret].
Qed.

Lemma ir_print_summary_total (failed_packages : list string) :
  total (InstallsRequired.print_summary (X:=X) failed_packages).
Proof. unfold InstallsRequired.print_summary. repeat total_step. Qed.

Lemma ir_print_epilogue_total : total (InstallsRequired.print_epilogue (X:=X)).
Proof. unfold InstallsRequired.print_epilogue. repeat total_step. Qed.

Lemma ir_print_summary_prints (failed_packages : list string) :
  prints (InstallsRequired.print_summary (X:=X) failed_packages)
    (summary_line failed_packages).
Proof.
  unfold InstallsRequired.print_summary, summary_line.
  apply prints_bind_r; [apply total_print | intros _].
  apply prints_bind_r; [apply total_print | intros _].
  destruct failed_packages.
  - apply prints_here.
  - apply prints_bind_l, prints_here.
Qed.

Local Hint Resolve ir_upgrade_pip_total ir_package_total ir_nltk_total ir_spacy_total
  ir_geoparser_total ir_install_essential_total ir_install_packages_total
  ir_print_summary_total ir_print_epilogue_total : total.

(** With a recent enough interpreter the script runs to its end, whatever
    the installations return. *)
Lemma ir_main_total (packages essential : list string) :
  version_lt (version_info amb) InstallsRequired.min_version = false →
  total (InstallsRequired.main_with amb packages essential).
Proof.
  intros Hnew. unfold InstallsRequired.main_with.
  apply total_bind; [apply total_print | intros _].
  apply total_bind; [apply total_print | intros _].
  apply (total_bind_post (λ ok, ok = true)).
  - intros m. destruct (ir_check_python_version m) as (Hout & _).
    exists true. by rewrite Hout, Hnew.
  - intros ok ->. cbn [negb]. repeat total_step.
Qed.

(** The summary is that of this run: the loop over the packages runs on
    the machine that the upgrade of pip and the essential packages left,
    its trace is a segment of the trace of the script, and the line naming
    what it returned is printed after it. *)
Lemma ir_main_summary (packages essential : list string) (m : machine X) :
  let m1 :=
    final (InstallsRequired.install_essential amb essential
             (final (InstallsRequired.upgrade_pip amb m))) in
  version_lt (version_info amb) InstallsRequired.min_version = false →
  ∃ failed_packages,
    outcome (InstallsRequired.install_packages amb packages essential m1)
      = Val failed_packages
    ∧ ∃ before after,
        trace (InstallsRequired.main_with amb packages essential m)
        = before ++ trace (InstallsRequired.install_packages amb packages essential m1)
          ++ after
        ∧ Print (summary_line failed_packages) ∈ after.
Proof.
  intros m1 Hnew.
  destruct (ir_install_packages_total packages essential m1) as [failed Hfailed].
  exists failed. split; [done |].
  destruct (ir_main_total packages essential Hnew m) as [[] Hmain].
  destruct (ir_check_python_version m) as (Hout & Hfin & _).
  unfold InstallsRequired.main_with in Hmain |- *.
  do 2 (skip_run Hmain; apply segment_later).
  invert_run Hmain ok Hok. apply segment_later.
  rewrite !final_print in Hok. rewrite Hout, Hnew in Hok. injection Hok as <-.
  cbn [negb] in Hmain |- *.
  do 2 (skip_run Hmain; apply segment_later).
  invert_run Hmain upgraded Hupgraded. apply segment_later.
  do 4 (skip_run Hmain; apply segment_later).
  invert_run Hmain failed' Hfailed'.
  repeat (rewrite final_print in Hfailed' || rewrite Hfin in Hfailed').
  repeat (rewrite final_print in Hmain || rewrite Hfin in Hmain).
  repeat (rewrite final_print || rewrite Hfin).
  fold m1 in Hfailed', Hmain |- *.
  rewrite Hfailed in Hfailed'. injection Hfailed' as <-.
  eexists [], _. split; [reflexivity |].
  do 5 (skip_run Hmain; apply elem_of_app; right).
  skip_run Hmain. apply elem_of_app. left. apply ir_print_summary_prints.
Qed.

End WellBehaved.

(** *** setup_python_environment.py *)

Lemma se_check_python_version (m : machine X) :
  outcome (SetupEnvironment.check_python_version amb m)
    = Val (negb (version_lt (version_info amb) SetupEnvironment.min_version))
  ∧ final (SetupEnvironment.check_python_version amb m) = m
  ∧ interactions (trace (SetupEnvironment.check_python_version amb m)) = [].
Proof.
  unfold SetupEnvironment.check_python_version. exec.
  by destruct (version_lt (version_info amb) SetupEnvironment.min_version).
Qed.

Lemma se_main_old_interpreter (pkgs essential : list string) (m : machine X) :
  version_lt (version_info amb) SetupEnvironment.min_version = true →
  outcome (SetupEnvironment.main_with amb pkgs essential m) = Exc (Exit 1)
  ∧ interactions (trace (SetupEnvironment.main_with amb pkgs essential m)) = [].
Proof.
  intros Hold. destruct (se_check_python_version m) as (Hout & Hfin & Htrace).
  unfold SetupEnvironment.main_with. run. rewrite Hout, Hold. cbn [negb]. run.
  split; [done |]. unfold interactions in *. rewrite !filter_app, Htrace. done.
Qed.

Lemma create_virtual_environment_spawns (venv_path : string) (m : machine X) :
  spawns (trace (SetupEnvironment.create_virtual_environment amb venv_path m)) = [].
Proof.
  unfold SetupEnvironment.create_virtual_environment, SetupEnvironment.rmtree, path_exists.
  exec.
  destruct (fs m !! venv_path) as [[| |]|] eqn:Hroot; simpl; rewrite ?Hroot; simpl;
    try done.
  - destruct (libcall "venv.create" [venv_path] _) as [[[c text]|] m1]; simpl; [|done].
    by destruct c.
  - destruct (libcall "venv.create" [venv_path] m) as [[[c text]|] m1]; simpl; [|done].
    by destruct c.
Qed.

(** When an essential package fails, the script stops with exit status one
    after the loop over the essential packages: the commands of the run are
    the upgrade of pip and the installations of the essential packages. *)
Lemma se_main_essential_failure (pkgs essential failed : list string) (upgraded : bool)
    (m : machine X) :
  let m1 := final (SetupEnvironment.create_virtual_environment amb (course_env amb) m) in
  let m2 := final (SetupEnvironment.upgrade_pip_in_venv amb (course_env amb) m1) in
  version_lt (version_info amb) SetupEnvironment.min_version = false →
  outcome (SetupEnvironment.create_virtual_environment amb (course_env amb) m) = Val true →
  outcome (SetupEnvironment.upgrade_pip_in_venv amb (course_env amb) m1) = Val upgraded →
  outcome (SetupEnvironment.install_essential amb (course_env amb) essential [] m2)
    = Val failed →
  SetupEnvironment.any_failed essential failed = true →
  outcome (SetupEnvironment.main_with amb pkgs essential m) = Exc (Exit 1)
  ∧ spawns (trace (SetupEnvironment.main_with amb pkgs essential m))
    = spawns (trace (SetupEnvironment.upgrade_pip_in_venv amb (course_env amb) m1))
      ++ spawns (trace (SetupEnvironment.install_essential amb (course_env amb)
                          essential [] m2)).
Proof.
  intros m1 m2 Hnew Hcreated Hupgraded Hessential Hfailed.
  destruct (se_check_python_version m) as (Hout & Hfin & Htrace).
  unfold SetupEnvironment.main_with. fold (course_env amb). run.
  rewrite Hout, Hfin, Hnew. cbn [negb]. run.
  rewrite Hcreated. cbn [negb]. run. fold m1.
  rewrite Hupgraded. run.
  assert (final ((if negb upgraded
                  then print "⚠️  Pip upgrade failed, continuing anyway..."
                  else ret ()) m2) = m2) as Hm2 by (by destruct upgraded).
  assert (outcome ((if negb upgraded
                    then print "⚠️  Pip upgrade failed, continuing anyway..."
                    else ret ()) m2) = Val tt) as Hskip by (by destruct upgraded).
  fold m2. rewrite Hskip. run. rewrite Hm2, Hessential. run. rewrite Hfailed. run.
  split; [done |].
  rewrite !spawns_app, create_virtual_environment_spawns.
  assert (spawns (trace (SetupEnvironment.check_python_version amb m)) = []) as ->.
  { unfold SetupEnvironment.check_python_version. exec.
    by destruct (version_lt (version_info amb) SetupEnvironment.min_version). }
  assert (spawns (trace ((if negb upgraded
                          then print "⚠️  Pip upgrade failed, continuing anyway..."
                          else ret ()) m2)) = []) as -> by (by destruct upgraded).
  simpl. by rewrite !app_nil_r.
Qed.

(** *** The specification on whole runs *)

(** C7.  When a prerequisite check fails, the editor is not found or the
    interpreter is older than 3.8, the run ends with exit status one and
    has acquired nothing: without an editor the script has done nothing but
    print and probe for the editor, with an old interpreter nothing but
    print. *)
Theorem C7_failed_prerequisite_stops_the_run (m : machine X) :
  (∀ exts,
     outcome (VscodeExtensions.check_vscode_installed amb m) = Val None →
     exit_status (outcome (VscodeExtensions.main_with amb exts m)) = 1
     ∧ acquisitions (trace (VscodeExtensions.main_with amb exts m)) = [])
  ∧ (∀ packages essential,
       version_lt (version_info amb) InstallsRequired.min_version = true →
       exit_status (outcome (InstallsRequired.main_with amb packages essential m)) = 1
       ∧ interactions (trace (InstallsRequired.main_with amb packages essential m)) = [])
  ∧ (∀ pkgs essential,
       version_lt (version_info amb) SetupEnvironment.min_version = true →
       exit_status (outcome (SetupEnvironment.main_with amb pkgs essential m)) = 1
       ∧ interactions (trace (SetupEnvironment.main_with amb pkgs essential m)) = []).
Proof.
  split; [|split].
  - intros exts Hcheck.
    destruct (vscode_main_without_editor exts m Hcheck) as [-> Hquiet]. done.
  - intros packages essential Hold.
    destruct (ir_main_old_interpreter packages essential m Hold) as [-> Hquiet]. done.
  - intros pkgs essential Hold.
    destruct (se_main_old_interpreter pkgs essential m Hold) as [-> Hquiet]. done.
Qed.

(** C3, as the scripts have it.  In both scripts an exit status of zero
    means that the interpreter passed the version check.  In
    installs_required.py the converse holds on a well-behaved host: with a
    recent enough interpreter the exit status is zero whatever the
    installation commands return, and the summary names the packages that
    failed in this run: the loop over the packages runs on the machine that
    the upgrade of pip and the essential packages left, its trace is a
    segment of the trace of the script, and the line naming the packages it
    returned is printed after it.  In setup_python_environment.py the
    converse does not hold: once
    the interpreter has passed the check and the environment is created, the
    failure of an essential package makes the exit status one. *)
Theorem C3_exit_status_and_version_check :
  (∀ packages essential m,
     exit_status (outcome (InstallsRequired.main_with amb packages essential m)) = 0 →
     version_lt (version_info amb) InstallsRequired.min_version = false)
  ∧ (∀ pkgs essential m,
       exit_status (outcome (SetupEnvironment.main_with amb pkgs essential m)) = 0 →
       version_lt (version_info amb) SetupEnvironment.min_version = false)
  ∧ (well_behaved X →
     ∀ packages essential m,
       let m1 :=
         final (InstallsRequired.install_essential amb essential
                  (final (InstallsRequired.upgrade_pip amb m))) in
       version_lt (version_info amb) InstallsRequired.min_version = false →
       exit_status (outcome (InstallsRequired.main_with amb packages essential m)) = 0
       ∧ ∃ failed_packages,
           outcome (InstallsRequired.install_packages amb packages essential m1)
             = Val failed_packages
           ∧ ∃ before after,
               trace (InstallsRequired.main_with amb packages essential m)
               = before
                 ++ trace (InstallsRequired.install_packages amb packages essential m1)
                 ++ after
               ∧ Print (summary_line failed_packages) ∈ after)
  ∧ (∀ pkgs essential failed upgraded m,
       let m1 :=
         final (SetupEnvironment.create_virtual_environment amb (course_env amb) m) in
       let m2 := final (SetupEnvironment.upgrade_pip_in_venv amb (course_env amb) m1) in
       version_lt (version_info amb) SetupEnvironment.min_version = false →
       outcome (SetupEnvironment.create_virtual_environment amb (course_env amb) m)
         = Val true →
       outcome (SetupEnvironment.upgrade_pip_in_venv amb (course_env amb) m1)
         = Val upgraded →
       outcome (SetupEnvironment.install_essential amb (course_env amb) essential [] m2)
         = Val failed →
       SetupEnvironment.any_failed essential failed = true →
       exit_status (outcome (SetupEnvironment.main_with amb pkgs essential m)) = 1).
Proof.
  split; [|split; [|split]].
  - intros packages essential m Hzero.
    destruct (version_lt (version_info amb) InstallsRequired.min_version) eqn:Hold;
      [|done].
    destruct (ir_main_old_interpreter packages essential m Hold) as [Hout _].
    by rewrite Hout in Hzero.
  - intros pkgs essential m Hzero.
    destruct (version_lt (version_info amb) SetupEnvironment.min_version) eqn:Hold;
      [|done].
    destruct (se_main_old_interpreter pkgs essential m Hold) as [Hout _].
    by rewrite Hout in Hzero.
  - intros Hwb packages essential m m1 Hnew. split.
    + by destruct (ir_main_total Hwb packages essential Hnew m) as [[] ->].
    + apply (ir_main_summary Hwb packages essential m Hnew).
  - intros pkgs essential failed upgraded m m1 m2 Hnew Hcreated Hupgraded Hessential
      Hfailed.
    destruct (se_main_essential_failure pkgs essential failed upgraded m
                Hnew Hcreated Hupgraded Hessential Hfailed) as [-> _].
    done.
Qed.

End Scripts.

(** ** The specification on the loops *)

Section Runs.
Context {X : Type} `{Host X} (amb : ambient).

(** C1, as the scripts have it.  The loop over the extensions starts
    exactly one installation command per extension, in the order of the
    list, whatever becomes of each, and returns the names of the extensions
    whose command did not run to completion with return code zero, in order
    and no other name; once the editor is found, the whole script runs to
    its end with exactly these acquisitions.  On a well-behaved host the two
    loops of setup_python_environment.py do the same for the essential
    packages and for the remaining ones.  Between these two loops the run
    may end: when an essential package has failed, the script stops with
    exit status one and has started no command but the upgrade of pip and
    the installations of the essential packages. *)
Theorem C1_every_item_of_a_loop_is_processed :
  (∀ vscode_cmd exts m,
     let results :=
       command_results
         (λ ext : string * string, [vscode_cmd; "--install-extension"; ext.1])
         (Some 60%nat) exts m in
     length results = length exts
     ∧ outcome (VscodeExtensions.install_all vscode_cmd exts m)
       = Val (failures (map snd exts) results)
     ∧ spawns (trace (VscodeExtensions.install_all vscode_cmd exts m))
       = map (install_command vscode_cmd) exts)
  ∧ (∀ vscode_cmd exts m,
       outcome (VscodeExtensions.check_vscode_installed amb m) = Val (Some vscode_cmd) →
       PyStr.truthy vscode_cmd = true →
       outcome (VscodeExtensions.main_with amb exts m) = Val tt
       ∧ acquisitions (trace (VscodeExtensions.main_with amb exts m))
         = map (install_command vscode_cmd) exts)
  ∧ (well_behaved X →
     ∀ venv_path pkgs essential failed m,
       let install :=
         SetupEnvironment.pip_install (SetupEnvironment.get_venv_python amb venv_path) in
       let remaining := filter (λ package, package ∉ essential) pkgs in
       (outcome (SetupEnvironment.install_essential amb venv_path essential failed m)
        = Val (failed ++ failures essential (command_results install None essential m))
        ∧ spawns (trace (SetupEnvironment.install_essential amb venv_path essential
                           failed m))
          = map (venv_install amb venv_path) essential)
       ∧ (outcome (SetupEnvironment.install_remaining amb venv_path pkgs essential
                     failed m)
          = Val (failed ++ failures remaining (command_results install None remaining m))
          ∧ spawns (trace (SetupEnvironment.install_remaining amb venv_path pkgs
                             essential failed m))
            = map (venv_install amb venv_path) remaining))
  ∧ (∀ pkgs essential failed upgraded m,
       let m1 :=
         final (SetupEnvironment.create_virtual_environment amb (course_env amb) m) in
       let m2 := final (SetupEnvironment.upgrade_pip_in_venv amb (course_env amb) m1) in
       version_lt (version_info amb) SetupEnvironment.min_version = false →
       outcome (SetupEnvironment.create_virtual_environment amb (course_env amb) m)
         = Val true →
       outcome (SetupEnvironment.upgrade_pip_in_venv amb (course_env amb) m1)
         = Val upgraded →
       outcome (SetupEnvironment.install_essential amb (course_env amb) essential [] m2)
         = Val failed →
       SetupEnvironment.any_failed essential failed = true →
       outcome (SetupEnvironment.main_with amb pkgs essential m) = Exc (Exit 1)
       ∧ spawns (trace (SetupEnvironment.main_with amb pkgs essential m))
         = spawns (trace (SetupEnvironment.upgrade_pip_in_venv amb (course_env amb) m1))
           ++ spawns (trace (SetupEnvironment.install_essential amb (course_env amb)
                               essential [] m2))).
Proof.
  split; [|split; [|split]].
  - intros vscode_cmd exts m results. subst results.
    split; [apply command_results_length |]. split.
    + apply (install_all_results vscode_cmd exts [] m).
    + by destruct (install_all_from vscode_cmd exts [] m) as (oks & _ & _ & Hspawns & _).
  - intros vscode_cmd exts m. apply vscode_main_with_editor.
  - intros Hwb venv_path pkgs essential failed m install remaining.
    subst install remaining. split; split.
    + apply (install_essential_results amb venv_path essential failed m Hwb).
    + by destruct (install_essential_from amb venv_path essential failed m Hwb)
        as (oks & _ & _ & Hspawns).
    + apply (install_remaining_results amb venv_path pkgs essential failed m Hwb).
    + by destruct (install_remaining_from amb venv_path pkgs essential failed m Hwb)
        as (oks & _ & _ & Hspawns).
  - intros pkgs essential failed upgraded m. apply se_main_essential_failure.
Qed.

(** C4, as the scripts have it.  When every package imports after a first
    run of the two package loops of installs_required.py, a second run of
    the loops acquires nothing, reports no failure and leaves the machine
    as the first run left it. *)
Theorem C4_second_run_installs_nothing (packages essential : list string)
    (m : machine X) :
  let loops :=
    InstallsRequired.install_essential amb essential ;;
    InstallsRequired.install_packages amb packages essential in
  let first_run := loops m in
  (∀ package, package ∈ essential ++ packages →
     import_module (final first_run) (InstallsRequired.derive_import_name package)
       = None) →
  let second_run := loops (final first_run) in
  outcome second_run = Val []
  ∧ final second_run = final first_run
  ∧ acquisitions (trace second_run) = [].
Proof.
  intros loops first_run Hsat second_run. subst second_run loops.
  set (m1 := final first_run) in *. clearbody m1. clear first_run.
  destruct (install_essential_satisfied amb essential m1) as (Hout & Hfin & Hacq).
  { intros package Hin. apply Hsat, elem_of_app. by left. }
  destruct (install_packages_satisfied amb packages essential [] m1) as (Hout' & Hfin' & Hacq').
  { intros package Hin. apply Hsat, elem_of_app. by right. }
  cbv zeta in Hout, Hfin, Hacq, Hout', Hfin', Hacq'.
  unfold InstallsRequired.install_packages.
  rewrite outcome_bind, final_bind, trace_bind, Hout, Hfin, Hout', Hfin'.
  rewrite acquisitions_app, Hacq, Hacq'. done.
Qed.

End Runs.

(** ** The file system *)

Section Files.
Context {X : Type} `{Host X} (amb : ambient).

Lemma length_append (a b : string) :
  String.length (a +:+ b) = (String.length a + String.length b)%nat.
Proof.
  induction a as [|c a IH]; [done |]. rewrite append_cons. simpl. by rewrite IH.
Qed.

Lemma settings_file_not_dir (workspace_path : string) :
  SetupEnvironment.settings_path amb workspace_path
  ≠ path_join amb workspace_path ".vscode".
Proof.
  unfold SetupEnvironment.settings_path.
  set (dir := path_join amb workspace_path ".vscode").
  unfold path_join at 1.
  assert (PyStr.startswith "settings.json" (sep amb) = false) as ->.
  { unfold sep. by destruct (String.eqb (system amb) "Windows"). }
  destruct (negb (PyStr.truthy dir) || PyStr.endswith dir (sep amb));
    intros Heq; apply (f_equal String.length) in Heq;
    rewrite !length_append in Heq; simpl in Heq; lia.
Qed.

Lemma new_settings_written (venv_python : string) :
  SetupEnvironment.new_settings venv_python !! "python.pythonPath"
    = Some (JStr venv_python)
  ∧ SetupEnvironment.new_settings venv_python !! "python.defaultInterpreterPath"
    = Some (JStr venv_python)
  ∧ SetupEnvironment.new_settings venv_python !! "jupyter.kernels.filter"
    = Some (JArr [JObj (<["path" := JStr venv_python]>
                          (<["type" := JStr "pythonEnvironment"]> ∅))]).
Proof.
  unfold SetupEnvironment.new_settings. split; [|split].
  - by rewrite lookup_insert_eq.
  - rewrite lookup_insert_ne by done. by rewrite lookup_insert_eq.
  - rewrite !lookup_insert_ne by done. by rewrite lookup_insert_eq.
Qed.

Lemma new_settings_other (venv_python key : string) :
  key ∉ written_keys → SetupEnvironment.new_settings venv_python !! key = None.
Proof.
  unfold written_keys, SetupEnvironment.new_settings. intros Hkey.
  apply not_elem_of_cons in Hkey as [H1 Hkey].
  apply not_elem_of_cons in Hkey as [H2 Hkey].
  apply not_elem_of_cons in Hkey as [H3 _].
  rewrite !lookup_insert_ne by done. apply lookup_empty.
Qed.

Lemma settings_written (venv_path workspace_path : string) (m : machine X) :
  let file := SetupEnvironment.settings_path amb workspace_path in
  let dir := path_join amb workspace_path ".vscode" in
  let python := abspath (SetupEnvironment.get_venv_python amb venv_path) in
  (fs m !! dir = None ∨ fs m !! dir = Some Dir) →
  (fs m !! file = None ∨ ∃ existing, fs m !! file = Some (JsonFile (JObj existing))) →
  SetupEnvironment.create_vscode_settings amb venv_path workspace_path m
  = (Val true,
     Machine (<[file := JsonFile (JObj (merged (SetupEnvironment.new_settings python)
                                          (fs m !! file)))]>
                (<[dir := Dir]> (fs m)))
       (world m),
     [Print ("✅ VS Code settings created at: " +:+ file);
      Print ("🔧 Python interpreter set to: " +:+ python)]).
Proof.
  intros file dir python Hdir Hfile.
  pose proof (settings_file_not_dir workspace_path) as Hne.
  unfold SetupEnvironment.create_vscode_settings.
  fold (SetupEnvironment.settings_path amb workspace_path). fold file. fold python. fold dir.
  fold dir in Hne. fold file in Hne.
  set (new := SetupEnvironment.new_settings python).
  unfold SetupEnvironment.makedirs, SetupEnvironment.json_load, SetupEnvironment.json_dump,
    SetupEnvironment.update, path_exists.
  destruct Hdir as [Hd|Hd], Hfile as [Hf|[existing Hf]].
  - exec. rewrite Hd. simpl. rewrite lookup_insert_ne by done. rewrite Hf. simpl.
    rewrite lookup_insert_ne by done. by rewrite Hf.
  - exec. rewrite Hd. simpl. rewrite lookup_insert_ne by done. rewrite Hf. simpl.
    rewrite lookup_insert_ne by done. rewrite Hf. simpl.
    rewrite lookup_insert_ne by done. by rewrite Hf.
  - rewrite (insert_id (fs m) dir Dir Hd).
    exec. rewrite Hd. simpl. rewrite Hf. simpl. by rewrite Hf.
  - rewrite (insert_id (fs m) dir Dir Hd).
    exec. rewrite Hd. simpl. rewrite Hf. simpl. rewrite Hf. simpl. by rewrite Hf.
Qed.

Lemma settings_merged (venv_path workspace_path : string) (m : machine X) :
  let r := SetupEnvironment.create_vscode_settings amb venv_path workspace_path m in
  let file := SetupEnvironment.settings_path amb workspace_path in
  let dir := path_join amb workspace_path ".vscode" in
  let python := abspath (SetupEnvironment.get_venv_python amb venv_path) in
  (fs m !! dir = None ∨ fs m !! dir = Some Dir) →
  (fs m !! file = None ∨ ∃ existing, fs m !! file = Some (JsonFile (JObj existing))) →
  outcome r = Val true
  ∧ ∃ settings : gmap string json,
      fs (final r) !! file = Some (JsonFile (JObj settings))
      ∧ settings !! "python.pythonPath" = Some (JStr python)
      ∧ settings !! "python.defaultInterpreterPath" = Some (JStr python)
      ∧ settings !! "jupyter.kernels.filter"
        = Some (JArr [JObj (<["path" := JStr python]>
                              (<["type" := JStr "pythonEnvironment"]> ∅))])
      ∧ (∀ existing, fs m !! file = Some (JsonFile (JObj existing)) →
           ∀ key, key ∉ written_keys → settings !! key = existing !! key)
      ∧ (fs m !! file = None → settings = SetupEnvironment.new_settings python)
      ∧ (∀ path, path ≠ file → path ≠ dir → fs (final r) !! path = fs m !! path).
Proof.
  intros r file dir python Hdir Hfile. subst r.
  rewrite (settings_written venv_path workspace_path m Hdir Hfile).
  fold file. fold dir. fold python.
  split; [done |].
  exists (merged (SetupEnvironment.new_settings python) (fs m !! file)).
  destruct (new_settings_written python) as (Hpath & Hdefault & Hfilter).
  cbn [final fst snd fs].
  split; [by rewrite lookup_insert_eq |].
  assert (∀ key value,
            SetupEnvironment.new_settings python !! key = Some value →
            merged (SetupEnvironment.new_settings python) (fs m !! file) !! key
            = Some value) as Hnew.
  { intros key value Hkey. unfold merged, SetupEnvironment.dict_update.
    destruct (fs m !! file) as [[|[]|]|]; try done.
    by apply lookup_union_Some_l. }
  repeat split; try (by apply Hnew).
  - intros existing Hexisting key Hkey. rewrite Hexisting. unfold merged.
    unfold SetupEnvironment.dict_update.
    apply lookup_union_r. by apply new_settings_other.
  - by intros ->.
  - intros path Hfile' Hdir'. by rewrite !lookup_insert_ne.
Qed.

(** Either the settings can be written, or the function does not return
    [True] and the settings file is as it was. *)
Lemma settings_cases (venv_path workspace_path : string) (m : machine X) :
  let r := SetupEnvironment.create_vscode_settings amb venv_path workspace_path m in
  let file := SetupEnvironment.settings_path amb workspace_path in
  let dir := path_join amb workspace_path ".vscode" in
  ((fs m !! dir = None ∨ fs m !! dir = Some Dir)
   ∧ (fs m !! file = None ∨ ∃ existing, fs m !! file = Some (JsonFile (JObj existing))))
  ∨ (outcome r ≠ Val true ∧ fs (final r) !! file = fs m !! file).
Proof.
  intros r file dir. subst r.
  pose proof (settings_file_not_dir workspace_path) as Hne.
  fold dir in Hne. fold file in Hne.
  destruct (fs m !! dir) as [[| |]|] eqn:Hd.
  2-3: right; unfold SetupEnvironment.create_vscode_settings, SetupEnvironment.makedirs;
    fold dir; exec; by rewrite Hd.
  all: destruct (fs m !! file) as [n|] eqn:Hf; [|left; by auto].
  all: destruct n as [|[| | | | |existing]|]; try (left; by eauto).
  all: right.
  all: unfold SetupEnvironment.create_vscode_settings.
  all: fold (SetupEnvironment.settings_path amb workspace_path); fold file; fold dir.
  all: unfold SetupEnvironment.makedirs, SetupEnvironment.json_load,
         SetupEnvironment.json_dump, SetupEnvironment.update, path_exists.
  all: exec; rewrite Hd; simpl.
  all: rewrite ?lookup_insert_ne by done; rewrite ?Hf; simpl.
  all: rewrite ?lookup_insert_ne by done; rewrite ?Hf; simpl.
  all: by rewrite ?lookup_insert_ne by done.
Qed.

(** C8, as the script has it.  [create_vscode_settings] returns [True]
    exactly when the settings directory is absent or a directory and the
    settings file is absent or holds a JSON object.  Whenever it returns
    [True], the settings file is a JSON object in which the two interpreter
    settings are the interpreter of the virtual environment and the kernel
    filter names it, every key of an earlier settings file other than the
    three written keeps its value, and no other file is touched.  Whenever
    it does not return [True], the settings file is as it was. *)
Theorem C8_settings_are_merged (venv_path workspace_path : string) (m : machine X) :
  let r := SetupEnvironment.create_vscode_settings amb venv_path workspace_path m in
  let file := SetupEnvironment.settings_path amb workspace_path in
  let dir := path_join amb workspace_path ".vscode" in
  let python := abspath (SetupEnvironment.get_venv_python amb venv_path) in
  (outcome r = Val true
   ↔ (fs m !! dir = None ∨ fs m !! dir = Some Dir)
     ∧ (fs m !! file = None
        ∨ ∃ existing, fs m !! file = Some (JsonFile (JObj existing))))
  ∧ (outcome r = Val true →
     ∃ settings : gmap string json,
       fs (final r) !! file = Some (JsonFile (JObj settings))
       ∧ settings !! "python.pythonPath" = Some (JStr python)
       ∧ settings !! "python.defaultInterpreterPath" = Some (JStr python)
       ∧ settings !! "jupyter.kernels.filter"
         = Some (JArr [JObj (<["path" := JStr python]>
                               (<["type" := JStr "pythonEnvironment"]> ∅))])
       ∧ (∀ existing, fs m !! file = Some (JsonFile (JObj existing)) →
            ∀ key, key ∉ written_keys → settings !! key = existing !! key)
       ∧ (fs m !! file = None → settings = SetupEnvironment.new_settings python)
       ∧ (∀ path, path ≠ file → path ≠ dir → fs (final r) !! path = fs m !! path))
  ∧ (outcome r ≠ Val true → fs (final r) !! file = fs m !! file).
Proof.
  intros r file dir python.
  destruct (settings_cases venv_path workspace_path m) as [[Hdir Hfile]|[Hnot Hsame]].
  - destruct (settings_merged venv_path workspace_path m Hdir Hfile) as [Hout Hmerged].
    split; [by split |]. split; [by intros _ |]. by intros Hnot.
  - fold r in Hnot. split; [|split; [|done]].
    + split; [done |]. intros [Hdir Hfile].
      by destruct (settings_merged venv_path workspace_path m Hdir Hfile) as [Hout _].
    + done.
Qed.

(** *** The virtual environment *)

Lemma without_tree_root (venv_path : string) (m : machine X) :
  fs (without_tree amb venv_path m) !! venv_path = None.
Proof.
  unfold without_tree, path_exists.
  destruct (fs m !! venv_path) as [n|] eqn:Hroot; [|done].
  apply map_lookup_filter_None. right. intros n' _. simpl.
  unfold SetupEnvironment.within. rewrite String.eqb_refl. simpl. tauto.
Qed.

Lemma without_tree_inside (venv_path path : string) (m : machine X) :
  path_exists m venv_path = true →
  SetupEnvironment.within amb venv_path path = true →
  fs (without_tree amb venv_path m) !! path = None.
Proof.
  unfold without_tree. intros -> Hin.
  apply map_lookup_filter_None. right. intros n _. simpl. rewrite Hin. simpl. tauto.
Qed.

Lemma without_tree_outside (venv_path path : string) (m : machine X) :
  SetupEnvironment.within amb venv_path path = false →
  fs (without_tree amb venv_path m) !! path = fs m !! path.
Proof.
  unfold without_tree. intros Hout. destruct (path_exists m venv_path); [|done].
  cbn [fs]. apply option_eq. intros n. rewrite map_lookup_filter_Some. simpl.
  rewrite Hout. simpl. tauto.
Qed.

Lemma without_tree_world (venv_path : string) (m : machine X) :
  world (without_tree amb venv_path m) = world m.
Proof. unfold without_tree. by destruct (path_exists m venv_path). Qed.

Lemma create_virtual_environment_result (venv_path : string) (m : machine X) :
  let r := SetupEnvironment.create_virtual_environment amb venv_path m in
  let cleared := without_tree amb venv_path m in
  (outcome r = Val true ↔
     (fs m !! venv_path = None ∨ fs m !! venv_path = Some Dir)
     ∧ (libcall "venv.create" [venv_path] cleared).1 = None)
  ∧ (outcome r = Val true → final r = (libcall "venv.create" [venv_path] cleared).2).
Proof.
  unfold SetupEnvironment.create_virtual_environment, SetupEnvironment.rmtree,
    without_tree, path_exists.
  exec.
  destruct (fs m !! venv_path) as [[| |]|] eqn:Hroot; simpl; rewrite ?Hroot; simpl.
  - destruct (libcall "venv.create" [venv_path] _) as [[[c text]|] m1]; simpl.
    + destruct c; simpl; (split; [split; [done | by intros [_ ?]] | done]).
    + split; [split; [by auto | done] | done].
  - split; [split; [done | by intros [[?|?] _]] | done].
  - split; [split; [done | by intros [[?|?] _]] | done].
  - destruct (libcall "venv.create" [venv_path] m) as [[[c text]|] m1]; simpl.
    + destruct c; simpl; (split; [split; [done | by intros [_ ?]] | done]).
    + split; [split; [by auto | done] | done].
Qed.

(** C10.  [create_virtual_environment] reuses nothing.  It succeeds exactly
    when the target path is free or a directory and [venv.create] succeeds
    on the machine from which everything at and below the target path has
    been removed; the resulting machine is the one [venv.create] made from
    that cleared machine, on which the rest of the file system is as
    before. *)
Theorem C10_environment_is_created_afresh (venv_path : string) (m : machine X) :
  let r := SetupEnvironment.create_virtual_environment amb venv_path m in
  let cleared := without_tree amb venv_path m in
  (outcome r = Val true ↔
     (fs m !! venv_path = None ∨ fs m !! venv_path = Some Dir)
     ∧ (libcall "venv.create" [venv_path] cleared).1 = None)
  ∧ (outcome r = Val true → final r = (libcall "venv.create" [venv_path] cleared).2)
  ∧ fs cleared !! venv_path = None
  ∧ (path_exists m venv_path = true →
     ∀ path, SetupEnvironment.within amb venv_path path = true →
             fs cleared !! path = None)
  ∧ (∀ path, SetupEnvironment.within amb venv_path path = false →
             fs cleared !! path = fs m !! path)
  ∧ world cleared = world m.
Proof.
  intros r cleared. subst r cleared.
  destruct (create_virtual_environment_result venv_path m) as [Hiff Hfinal].
  split; [exact Hiff |]. split; [exact Hfinal |].
  split; [apply without_tree_root |].
  split; [intros Hex path; by apply without_tree_inside |].
  split; [intros path; apply without_tree_outside | apply without_tree_world].
Qed.

End Files.

(** ** The scripts on the laboratory host *)

Lemma lab_well_behaved : well_behaved Lab.lab.
Proof.
  split.
  - intros argv timeout m. by eexists _, _, _.
  - intros m name err. simpl. destruct (bool_decide (name ∈ Lab.modules (world m))).
    + discriminate.
    + intros [= <-]. by apply (bool_decide_unpack _).
  - intros fn args m err m'. simpl. by destruct (String.eqb fn "venv.create").
Qed.

(** C6 on the laboratory host: pandas imports, nothing is installed. *)
Lemma C6_witness :
  let r := InstallsRequired.check_and_install_package Lab.linux "pandas" None
             Lab.with_pandas in
  outcome r = Val true ∧ final r = Lab.with_pandas ∧ acquisitions (trace r) = [].
Proof.
  destruct (C6_satisfied_items_are_left_alone Lab.linux Lab.with_pandas) as [Hpackage _].
  destruct (Hpackage "pandas" None) as (Hout & Hfin & Hacq & _); [reflexivity |].
  exact (conj Hout (conj Hfin Hacq)).
Defined.

(** C2 as stated fails on the laboratory host: pandas does not import, its
    installation exits with status zero, pandas still does not import
    afterwards, and the package is recorded as installed, the import having
    been tried once only. *)
Lemma C2_counterexample :
  let m := Lab.hollow_pandas in
  let r := InstallsRequired.check_and_install_package Lab.linux "pandas" None m in
  import_module m "pandas" ≠ None
  ∧ (spawn (InstallsRequired.pip_install Lab.linux "pandas") None m).1 = Completed 0 ""
  ∧ import_module (final r) "pandas" ≠ None
  ∧ outcome r = Val true
  ∧ filter is_import (trace r) = [Import "pandas"].
Proof. by repeat split. Qed.

(** C2, as the scripts have it, on the same run. *)
Lemma C2_witness :
  InstallsRequired.check_and_install_package Lab.linux "pandas" None Lab.hollow_pandas
  = (Val true, Lab.hollow_pandas,
     [Import "pandas";
      Print "📦 Installing pandas...";
      Spawn ["/usr/bin/python3"; "-m"; "pip"; "install"; "--upgrade"; "pandas"] None false;
      Print "✅ pandas installed successfully"]).
Proof.
  destruct (C2_zero_exit_status_is_trusted Lab.linux Lab.hollow_pandas Lab.hollow_pandas)
    as [Hpackage _].
  apply (Hpackage "pandas" (ModuleNotFoundError, "No module named 'pandas'") "").
  - reflexivity.
  - by apply (bool_decide_unpack _).
  - reflexivity.
Defined.

(** C5 as stated fails on the laboratory host: the one command that
    installs pandas runs without a timeout and without capturing anything. *)
Lemma C5_counterexample :
  let r := InstallsRequired.check_and_install_package Lab.linux "pandas" None Lab.bare in
  import_module Lab.bare "pandas" ≠ None
  ∧ spawns (trace r)
    = [Spawn ["/usr/bin/python3"; "-m"; "pip"; "install"; "--upgrade"; "pandas"]
         None false]
  ∧ ¬ ∃ argv seconds capture, Spawn argv (Some seconds) capture ∈ trace r.
Proof.
  repeat split; [done |].
  intros (argv & seconds & capture & Hin). vm_compute in Hin.
  repeat (apply elem_of_cons in Hin as [Hin|Hin]; [discriminate |]).
  by apply elem_of_nil in Hin.
Qed.

(** C5, as the scripts have it, where the package index refuses pandas. *)
Lemma C5_witness :
  let r := InstallsRequired.check_and_install_package Lab.linux "pandas" None
             Lab.no_pandas in
  spawns (trace r)
  = [Spawn ["/usr/bin/python3"; "-m"; "pip"; "install"; "--upgrade"; "pandas"] None false]
  ∧ outcome r = Val false.
Proof.
  destruct (C5_acquisition_is_started_without_timeout Lab.linux Lab.no_pandas)
    as [Hpackage _].
  assert (ImportError ∈ mro ModuleNotFoundError) as Hcls
    by (by apply (bool_decide_unpack _)).
  destruct (Hpackage "pandas" (ModuleNotFoundError, "No module named 'pandas'")
              eq_refl Hcls) as [Hspawns Hresult].
  split; [exact Hspawns |].
  by destruct (Hresult 1 "refused" Lab.no_pandas) as [Hout _].
Defined.

(** C1 as stated fails on the laboratory host: when ipykernel cannot be
    installed, setup_python_environment.py stops with exit status one after
    the essential packages; none of the nineteen remaining packages is
    tried. *)
Lemma C1_counterexample :
  let r := SetupEnvironment.main Lab.linux Lab.no_ipykernel in
  outcome r = Exc (Exit 1)
  ∧ length SetupEnvironment.packages = 22%nat
  ∧ spawns (trace r)
    = map (venv_install Lab.linux "/home/student/course/ds101_env")
        ["pip"; "ipykernel"; "jupyterlab"; "jupyter"].
Proof. by repeat split. Qed.

(** C1, as the scripts have it, on the laboratory host: the one extension
    that cannot be installed is the one returned, and so is the one
    essential package. *)
Lemma C1_witness :
  outcome (VscodeExtensions.install_all "code" VscodeExtensions.extensions Lab.with_editor)
  = Val ["YAML Support"]
  ∧ outcome (VscodeExtensions.main Lab.linux Lab.with_editor) = Val tt
  ∧ acquisitions (trace (VscodeExtensions.main Lab.linux Lab.with_editor))
    = map (install_command "code") VscodeExtensions.extensions
  ∧ outcome (SetupEnvironment.install_essential Lab.linux "/home/student/course/ds101_env"
               SetupEnvironment.essential_packages [] Lab.no_ipykernel)
    = Val ["ipykernel"].
Proof.
  destruct (C1_every_item_of_a_loop_is_processed (X:=Lab.lab) Lab.linux)
    as (Hloop & Hmain & Hloops & _).
  destruct (Hloop "code" VscodeExtensions.extensions Lab.with_editor)
    as (_ & Hfailed & _).
  destruct (Hmain "code" VscodeExtensions.extensions Lab.with_editor eq_refl eq_refl)
    as [Hout Hacq].
  destruct (Hloops lab_well_behaved "/home/student/course/ds101_env" []
              SetupEnvironment.essential_packages [] Lab.no_ipykernel)
    as [[Hessential _] _].
  split; [exact Hfailed |]. split; [exact Hout |]. split; [exact Hacq |].
  exact Hessential.
Defined.

(** C3 as stated fails on the laboratory host: the interpreter passes the
    version check, the virtual environment is created, and the run still
    ends with exit status one, because ipykernel could not be installed. *)
Lemma C3_counterexample :
  let r := SetupEnvironment.main Lab.linux Lab.no_ipykernel in
  version_lt (version_info Lab.linux) SetupEnvironment.min_version = false
  ∧ Print "✅ Virtual environment created successfully" ∈ trace r
  ∧ Print "❌ Critical package ipykernel failed to install!" ∈ trace r
  ∧ exit_status (outcome r) = 1.
Proof.
  repeat split; try done.
  all: apply (bool_decide_unpack _); by vm_compute.
Qed.

(** C3, as the scripts have it, where the package index refuses pandas:
    exit status zero, pandas named in the summary. *)
Lemma C3_witness :
  let m1 :=
    final (InstallsRequired.install_essential Lab.linux InstallsRequired.essential_packages
             (final (InstallsRequired.upgrade_pip Lab.linux Lab.no_pandas))) in
  exit_status (outcome (InstallsRequired.main Lab.linux Lab.no_pandas)) = 0
  ∧ outcome (InstallsRequired.install_packages Lab.linux InstallsRequired.core_packages
               InstallsRequired.essential_packages m1) = Val ["pandas"]
  ∧ ∃ before after,
      trace (InstallsRequired.main Lab.linux Lab.no_pandas)
      = before
        ++ trace (InstallsRequired.install_packages Lab.linux
                    InstallsRequired.core_packages InstallsRequired.essential_packages m1)
        ++ after
      ∧ Print (summary_line ["pandas"]) ∈ after.
Proof.
  intros m1.
  assert (outcome (InstallsRequired.install_packages Lab.linux
                     InstallsRequired.core_packages InstallsRequired.essential_packages m1)
          = Val ["pandas"]) as Hloop by (vm_compute; reflexivity).
  destruct (C3_exit_status_and_version_check (X:=Lab.lab) Lab.linux)
    as (_ & _ & Hzero & _).
  destruct (Hzero lab_well_behaved InstallsRequired.core_packages
              InstallsRequired.essential_packages Lab.no_pandas eq_refl)
    as (Hstatus & failed_packages & Hfailed & before & after & Htrace & Hsummary).
  fold m1 in Hfailed, Htrace.
  split; [exact Hstatus |]. split; [exact Hloop |].
  exists before, after. split; [exact Htrace |].
  rewrite Hloop in Hfailed. injection Hfailed as <-. exact Hsummary.
Defined.

(** C4 as stated fails on the laboratory host: a second run of
    setup_python_environment.py, after a first run in which everything was
    installed, issues all twenty-eight acquisition commands again. *)
Lemma C4_counterexample :
  let first_run := SetupEnvironment.main Lab.linux Lab.bare in
  let second_run := SetupEnvironment.main Lab.linux (final first_run) in
  outcome first_run = Val tt
  ∧ outcome second_run = Val tt
  ∧ acquisitions (trace second_run) = acquisitions (trace first_run)
  ∧ length (acquisitions (trace second_run)) = 28%nat.
Proof. by repeat split. Qed.

(** C4, as the scripts have it: one essential package and two others, all
    installed by the first run. *)
Lemma C4_witness :
  let loops :=
    InstallsRequired.install_essential Lab.linux ["jupyterlab"] ;;
    InstallsRequired.install_packages Lab.linux ["jupyterlab"; "pandas"; "tqdm"]
      ["jupyterlab"] in
  let first_run := loops Lab.bare in
  let second_run := loops (final first_run) in
  length (acquisitions (trace first_run)) = 3%nat
  ∧ outcome second_run = Val []
  ∧ final second_run = final first_run
  ∧ acquisitions (trace second_run) = [].
Proof.
  split; [reflexivity |].
  apply (C4_second_run_installs_nothing Lab.linux ["jupyterlab"; "pandas"; "tqdm"]
           ["jupyterlab"] Lab.bare).
  intros package Hin.
  repeat (apply elem_of_cons in Hin as [-> | Hin]; [reflexivity |]).
  by apply elem_of_nil in Hin.
Defined.

(** C7 on the laboratory host: no editor on the search path, and an
    interpreter of version 3.7. *)
Lemma C7_witness :
  exit_status (outcome (VscodeExtensions.main Lab.linux Lab.bare)) = 1
  ∧ acquisitions (trace (VscodeExtensions.main Lab.linux Lab.bare)) = []
  ∧ exit_status (outcome (InstallsRequired.main Lab.old_python Lab.bare)) = 1
  ∧ interactions (trace (InstallsRequired.main Lab.old_python Lab.bare)) = []
  ∧ exit_status (outcome (SetupEnvironment.main Lab.old_python Lab.bare)) = 1
  ∧ interactions (trace (SetupEnvironment.main Lab.old_python Lab.bare)) = [].
Proof.
  destruct (C7_failed_prerequisite_stops_the_run Lab.linux Lab.bare) as (Heditor & _ & _).
  destruct (C7_failed_prerequisite_stops_the_run Lab.old_python Lab.bare)
    as (_ & Hrequired & Hsetup).
  destruct (Heditor VscodeExtensions.extensions eq_refl) as [He1 He2].
  destruct (Hrequired InstallsRequired.core_packages InstallsRequired.essential_packages
              eq_refl) as [Hr1 Hr2].
  destruct (Hsetup SetupEnvironment.packages SetupEnvironment.essential_packages eq_refl)
    as [Hs1 Hs2].
  exact (conj He1 (conj He2 (conj Hr1 (conj Hr2 (conj Hs1 Hs2))))).
Defined.

(** C8 as stated fails on the laboratory host: the settings file exists and
    holds no JSON; the step returns [False] and the file is as it was, so
    no interpreter path is set. *)
Lemma C8_counterexample :
  let r := SetupEnvironment.create_vscode_settings Lab.linux
             "/home/student/course/ds101_env" "/home/student/course"
             Cases.broken_settings in
  fs Cases.broken_settings !! "/home/student/course/.vscode/settings.json"
    = Some (Blob 17)
  ∧ outcome r = Val false
  ∧ fs (final r) !! "/home/student/course/.vscode/settings.json" = Some (Blob 17).
Proof. by repeat split. Qed.

(** C8, as the script has it, on the laboratory host: the font size of the
    earlier settings is kept, the interpreter path is replaced. *)
Lemma C8_witness :
  let r := SetupEnvironment.create_vscode_settings Lab.linux
             "/home/student/course/ds101_env" "/home/student/course" Lab.with_settings in
  outcome r = Val true
  ∧ ∃ settings : gmap string json,
      fs (final r) !! "/home/student/course/.vscode/settings.json"
        = Some (JsonFile (JObj settings))
      ∧ settings !! "python.pythonPath"
        = Some (JStr "/home/student/course/ds101_env/bin/python")
      ∧ settings !! "editor.fontSize" = Some (JNum 14).
Proof.
  destruct (C8_settings_are_merged Lab.linux "/home/student/course/ds101_env"
              "/home/student/course" Lab.with_settings)
    as ([_ Hreturns] & Hmerged & _).
  assert (outcome (SetupEnvironment.create_vscode_settings Lab.linux
                     "/home/student/course/ds101_env" "/home/student/course"
                     Lab.with_settings) = Val true) as Hout.
  { apply Hreturns. split; right; [reflexivity | eexists; reflexivity]. }
  destruct (Hmerged Hout) as (settings & Hfile & Hpath & _ & _ & Hkeep & _ & _).
  split; [exact Hout |]. exists settings.
  split; [exact Hfile |]. split; [exact Hpath |].
  rewrite (Hkeep _ eq_refl "editor.fontSize"); [reflexivity |].
  by apply (bool_decide_unpack _).
Defined.

(** C10 on the laboratory host: the stale file of the earlier environment
    is gone, the notes next to it are still there. *)
Lemma C10_witness :
  let r := SetupEnvironment.create_virtual_environment Lab.linux
             "/home/student/course/ds101_env" Lab.with_environment in
  outcome r = Val true
  ∧ fs (final r) !! "/home/student/course/ds101_env" = Some Dir
  ∧ fs (final r) !! "/home/student/course/ds101_env/lib/stale.py" = None
  ∧ fs (final r) !! "/home/student/course/notes.txt" = Some (Blob 42).
Proof.
  destruct (C10_environment_is_created_afresh Lab.linux "/home/student/course/ds101_env"
              Lab.with_environment)
    as ([_ Hsuccess] & Hfinal & _ & Hinside & Houtside & _).
  assert (outcome (SetupEnvironment.create_virtual_environment Lab.linux
                     "/home/student/course/ds101_env" Lab.with_environment) = Val true)
    as Hout by (apply Hsuccess; split; [by right | reflexivity]).
  split; [exact Hout |].
  rewrite (Hfinal Hout). cbn [libcall Lab.host snd String.eqb Ascii.eqb Bool.eqb hd fs].
  split; [by rewrite lookup_insert_eq |].
  split.
  - rewrite lookup_insert_ne by done. by apply Hinside.
  - rewrite lookup_insert_ne by done. by rewrite Houtside.
Defined.

(** * Further properties of the scripts *)

(** ** The version check *)

Section VersionCheck.
Context {X : Type} `{Host X} (amb : ambient).

Lemma version_lt_min (v : nat * nat) :
  version_lt v (3%nat, 8%nat) = false ↔ (3 < v.1 ∨ (v.1 = 3 ∧ 8 ≤ v.2))%nat.
Proof.
  unfold version_lt. cbn [fst snd].
  destruct (Nat.ltb_spec v.1 3), (Nat.eqb_spec v.1 3), (Nat.ltb_spec v.2 8);
    simpl; split; intros; try done; lia.
Qed.

(** X1.  Both scripts accept exactly the interpreters of version 3.8 and later,
    the two numbers compared as a pair and not digit by digit: 3.10 and 4.0
    pass, 3.7 and 2.9 do not.  The check prints and does nothing else. *)
Theorem check_python_version_accepts (m : machine X) :
  (outcome (InstallsRequired.check_python_version amb m) = Val true
   ↔ (3 < (version_info amb).1
      ∨ ((version_info amb).1 = 3 ∧ 8 ≤ (version_info amb).2))%nat)
  ∧ (outcome (SetupEnvironment.check_python_version amb m) = Val true
     ↔ (3 < (version_info amb).1
        ∨ ((version_info amb).1 = 3 ∧ 8 ≤ (version_info amb).2))%nat)
  ∧ final (InstallsRequired.check_python_version amb m) = m
  ∧ final (SetupEnvironment.check_python_version amb m) = m
  ∧ interactions (trace (InstallsRequired.check_python_version amb m)) = []
  ∧ interactions (trace (SetupEnvironment.check_python_version amb m)) = [].
Proof.
  destruct (ir_check_python_version amb m) as (Hir & Hirf & Hirt).
  destruct (se_check_python_version amb m) as (Hse & Hsef & Hset).
  rewrite Hir, Hse. repeat split; try done.
  all: rewrite <- version_lt_min.
  all: unfold InstallsRequired.min_version, SetupEnvironment.min_version in *.
  all: destruct (version_lt (version_info amb) (3%nat, 8%nat)); simpl; congruence.
Qed.

End VersionCheck.

(** ** Strings cut and joined *)

Section Names.

Lemma prefix_split (p s : string) : String.prefix p s = true → ∃ r, s = p +:+ r.
Proof.
  revert s. induction p as [|c p IH]; intros s Hp; [by exists s |].
  destruct s as [|c' s]; [done |].
  change (String.prefix (String c p) (String c' s))
    with (if Ascii.ascii_dec c c' then String.prefix p s else false) in Hp.
  destruct (Ascii.ascii_dec c c') as [->|]; [|done].
  destruct (IH s Hp) as [r ->]. by exists r.
Qed.

Lemma prefix_append (p r : string) : String.prefix p (p +:+ r) = true.
Proof.
  induction p as [|c p IH]; [apply prefix_empty |].
  change (String.prefix (String c p) (String c p +:+ r))
    with (if Ascii.ascii_dec c c then String.prefix p (p +:+ r) else false).
  by destruct (Ascii.ascii_dec c c).
Qed.

Lemma occurs_cons (sub : string) (c : Ascii.ascii) (s : string) :
  occurs sub s → occurs sub (String c s).
Proof. intros (a & b & ->). by exists (String c a), b. Qed.

Lemma occurs_prefix (sub s : string) : String.prefix sub s = true → occurs sub s.
Proof. intros Hp. destruct (prefix_split sub s Hp) as [r ->]. by exists "", r. Qed.

Lemma strip_cons (c : Ascii.ascii) (s t : string) :
  strip_version_specifier s = String c t → ∃ r, s = String c r.
Proof.
  destruct s as [|c' s]; [done |]. cbn [strip_version_specifier].
  destruct (_ || _); [done |]. intros [= -> _]. by exists s.
Qed.

Lemma strip_is_prefix (s : string) : ∃ rest, s = strip_version_specifier s +:+ rest.
Proof.
  induction s as [|c s [rest IH]]; [by exists "" |].
  cbn [strip_version_specifier]. destruct (_ || _).
  - by exists (String c s).
  - exists rest. rewrite append_cons. by rewrite <- IH.
Qed.

Lemma strip_has_no_less (s : string) : ¬ occurs "<" (strip_version_specifier s).
Proof.
  intros (a & b & Heq). revert a Heq. induction s as [|c s IH]; intros a Heq.
  - by destruct a.
  - cbn [strip_version_specifier] in Heq.
    destruct (String.prefix ">=" (String c s)) eqn:Hge; [by destruct a |].
    destruct (String.prefix "<" (String c s)) eqn:Hlt; [by destruct a |].
    cbn [orb] in Heq. destruct a as [|x a].
    + injection Heq as -> _. pose proof (prefix_append "<" s) as Hp.
      match type of Hlt with ?l = _ => change (l = true) in Hp end. congruence.
    + injection Heq as _ Heq. by apply (IH a).
Qed.

Lemma strip_has_no_at_least (s : string) : ¬ occurs ">=" (strip_version_specifier s).
Proof.
  intros (a & b & Heq). revert a Heq. induction s as [|c s IH]; intros a Heq.
  - by destruct a.
  - cbn [strip_version_specifier] in Heq.
    destruct (String.prefix ">=" (String c s)) eqn:Hge; [by destruct a |].
    destruct (String.prefix "<" (String c s)); [by destruct a |].
    cbn [orb] in Heq. destruct a as [|x a].
    + injection Heq as -> Heq. destruct (strip_cons _ _ _ Heq) as [r ->].
      pose proof (prefix_append ">=" r) as Hp.
      match type of Hge with ?l = _ => change (l = true) in Hp end. congruence.
    + injection Heq as _ Heq. by apply (IH a).
Qed.

Lemma strip_unchanged (s : string) :
  ¬ occurs "<" s → ¬ occurs ">=" s → strip_version_specifier s = s.
Proof.
  induction s as [|c s IH]; intros Hlt Hge; [done |].
  cbn [strip_version_specifier].
  destruct (String.prefix ">=" (String c s)) eqn:Hpge;
    [by destruct Hge; apply occurs_prefix |].
  destruct (String.prefix "<" (String c s)) eqn:Hplt;
    [by destruct Hlt; apply occurs_prefix |].
  cbn [orb]. rewrite IH; [done | |]; intros Hocc.
  - by apply Hlt, occurs_cons.
  - by apply Hge, occurs_cons.
Qed.

(** X2.  The module name derived from a package name is the beginning of the
    package name, and holds neither [<] nor [>=]. *)
Theorem derive_import_name_is_a_clean_prefix (package_name : string) :
  (∃ rest, package_name = InstallsRequired.derive_import_name package_name +:+ rest)
  ∧ ¬ occurs "<" (InstallsRequired.derive_import_name package_name)
  ∧ ¬ occurs ">=" (InstallsRequired.derive_import_name package_name).
Proof.
  rewrite derive_import_name_strips. split; [apply strip_is_prefix |].
  split; [apply strip_has_no_less | apply strip_has_no_at_least].
Qed.

(** X3.  A package name is its own module name exactly when it holds neither
    [<] nor [>=]: the specifiers [==], [~=], [!=] and [>] are not cut off.
    Deriving the name a second time changes nothing. *)
Theorem derive_import_name_fixed_points (package_name : string) :
  (InstallsRequired.derive_import_name package_name = package_name
   ↔ ¬ occurs "<" package_name ∧ ¬ occurs ">=" package_name)
  ∧ InstallsRequired.derive_import_name
      (InstallsRequired.derive_import_name package_name)
    = InstallsRequired.derive_import_name package_name.
Proof.
  rewrite !derive_import_name_strips. split; [split |].
  - intros Heq. rewrite <- Heq.
    split; [apply strip_has_no_less | apply strip_has_no_at_least].
  - intros [Hlt Hge]. by apply strip_unchanged.
  - apply strip_unchanged; [apply strip_has_no_less | apply strip_has_no_at_least].
Qed.

(** *** [split] and [join] *)

Lemma split_from_skip (sep t piece r : string) :
  PyStr.split_from sep (String.length t) piece (t +:+ r) = PyStr.split_from sep O piece r
  ∨ r = "".
Proof.
  destruct r as [|c r]; [by right |]. left.
  induction t as [|x t IH]; [done |]. by rewrite append_cons.
Qed.

Lemma split_from_skip_all (sep t piece : string) :
  PyStr.split_from sep (String.length t) piece t = [piece].
Proof. induction t as [|x t IH]; [done |]. done. Qed.

Lemma split_from_not_nil (sep : string) (skip : nat) (piece s : string) :
  PyStr.split_from sep skip piece s ≠ [].
Proof.
  revert skip piece. induction s as [|c s IH]; intros skip piece; [done |].
  cbn [PyStr.split_from]. destruct skip; [|apply IH].
  destruct (String.prefix sep (String c s)); [done | apply IH].
Qed.

Lemma join_cons (sep x : string) (l : list string) :
  l ≠ [] → PyStr.join sep (x :: l) = x +:+ sep +:+ PyStr.join sep l.
Proof. by destruct l. Qed.

Lemma append_assoc (a b c : string) : (a +:+ b) +:+ c = a +:+ (b +:+ c).
Proof. induction a as [|x a IH]; [done |]. by rewrite !append_cons, IH. Qed.

Lemma join_split_from (sep : string) (n : nat) (piece s : string) :
  sep ≠ "" → (String.length s ≤ n)%nat →
  PyStr.join sep (PyStr.split_from sep O piece s) = piece +:+ s.
Proof.
  intros Hsep. revert piece s. induction n as [|n IH]; intros piece s Hlen.
  - destruct s; [|simpl in Hlen; lia]. simpl. by rewrite append_empty_r.
  - destruct s as [|c s]; [simpl; by rewrite append_empty_r |].
    simpl in Hlen. cbn [PyStr.split_from].
    destruct (String.prefix sep (String c s)) eqn:Hp.
    + destruct (prefix_split _ _ Hp) as [r Hr].
      destruct sep as [|c0 sep']; [done |].
      rewrite append_cons in Hr. injection Hr as -> ->.
      cbn [String.length Nat.pred].
      rewrite join_cons by apply split_from_not_nil.
      destruct (split_from_skip (String c0 sep') sep' "" r) as [-> | ->].
      * rewrite IH; [done |]. rewrite length_append in Hlen. lia.
      * rewrite append_empty_r, split_from_skip_all. simpl.
        by rewrite !append_empty_r.
    + rewrite IH by lia. apply append_snoc.
Qed.

(** Joining the pieces of a split with the separator gives the string
    back. *)
Theorem join_split (sep s : string) :
  sep ≠ "" → PyStr.join sep (PyStr.split sep s) = s.
Proof.
  intros Hsep. unfold PyStr.split.
  by rewrite (join_split_from sep (String.length s) "" s Hsep).
Qed.

End Names.

(** ** Items that go wrong *)

Section Failures.
Context {X : Type} `{Host X} (amb : ambient).

(** X4.  [install_extension] never raises: whatever becomes of the command, it
    returns a boolean, which is [True] exactly when the command ran to
    completion with return code zero; the machine is the one the command
    left. *)
Theorem install_extension_returns (vscode_cmd extension_id extension_name : string)
    (m : machine X) :
  let r := VscodeExtensions.install_extension vscode_cmd extension_id extension_name m in
  let child := spawn [vscode_cmd; "--install-extension"; extension_id] (Some 60%nat) m in
  ∃ ok : bool,
    outcome r = Val ok
    ∧ (ok = true ↔ ∃ errors, child.1 = Completed 0 errors)
    ∧ final r = child.2.
Proof.
  unfold VscodeExtensions.install_extension. exec.
  destruct (spawn _ (Some 60%nat) m) as [[rc errors|[c text]] m1]; simpl.
  - destruct (rc =? 0) eqn:Hrc; simpl.
    + exists true. apply Z.eqb_eq in Hrc as ->. split; [done |]. split; [|done].
      split; [by exists errors | done].
    + exists false. apply Z.eqb_neq in Hrc.
      destruct (PyStr.truthy errors); simpl.
      all: split; [done |]; split; [|done].
      all: split; [done | by intros [errors' [= ? _]]].
  - exists false.
    destruct c; simpl; (split; [done |]; split; [|done]).
    all: split; [done | by intros [errors' ?]].
Qed.

(** X5.  An import that fails with anything but an [ImportError], such as the
    [ValueError] for an empty module name, is not handled by
    [check_and_install_package]: the exception leaves the function and no
    installation is attempted. *)
Theorem check_and_install_package_import_error (package_name : string)
    (import_name : option string) (m : machine X) (c : exn_class) (text : string) :
  let name := default (InstallsRequired.derive_import_name package_name) import_name in
  import_module m name = Some (c, text) →
  ImportError ∉ mro c →
  InstallsRequired.check_and_install_package amb package_name import_name m
  = (Exc (Raised c text), m, [Import name]).
Proof.
  intros name Himp Hcls. subst name.
  unfold InstallsRequired.check_and_install_package.
  destruct import_name as [name|]; simpl in Himp; exec; rewrite Himp; simpl;
    by rewrite (bool_decide_false _ Hcls).
Qed.

(** X6.  With an explicit import name the package name plays no part in the
    detection: the import name alone is imported, the package name alone is
    installed. *)
Theorem check_and_install_package_explicit_name (package_name import_name : string)
    (m : machine X) :
  filter is_import
    (trace (InstallsRequired.check_and_install_package amb package_name
              (Some import_name) m))
  = [Import import_name]
  ∧ (spawns (trace (InstallsRequired.check_and_install_package amb package_name
                      (Some import_name) m)) = []
     ∨ spawns (trace (InstallsRequired.check_and_install_package amb package_name
                        (Some import_name) m))
       = [Spawn (InstallsRequired.pip_install amb package_name) None false]).
Proof.
  unfold InstallsRequired.check_and_install_package, InstallsRequired.pip_install. exec.
  destruct (import_module m import_name) as [[c text]|]; simpl; [|by auto].
  destruct (bool_decide (ImportError ∈ mro c)); simpl; [|by auto].
  destruct (spawn _ None m) as [[rc errors|[c' text']] m1]; simpl.
  - destruct (rc =? 0); by auto.
  - destruct (bool_decide (CalledProcessError ∈ mro c')); by auto.
Qed.

(** X7.  The three steps of setup_python_environment.py that run the
    interpreter of the environment return the verdict of the return code
    when the command runs to completion; when the command cannot be started
    (the interpreter is missing, say) the error is not handled and leaves
    the function. *)
Theorem venv_commands_results (venv_path package_name kernel_name : string)
    (m : machine X) :
  let python := SetupEnvironment.get_venv_python amb venv_path in
  let install := SetupEnvironment.pip_install python package_name in
  let upgrade := SetupEnvironment.pip_install python "pip" in
  let register :=
    [python; "-m"; "ipykernel"; "install"; "--user"; "--name"; kernel_name;
     "--display-name"; "Python (Digital Studies 101)"] in
  (∀ rc errors m1,
     spawn install None m = (Completed rc errors, m1) →
     outcome (SetupEnvironment.install_package_in_venv amb venv_path package_name m)
       = Val (rc =? 0)
     ∧ final (SetupEnvironment.install_package_in_venv amb venv_path package_name m) = m1)
  ∧ (∀ c text m1,
       spawn install None m = (Failed (c, text), m1) → CalledProcessError ∉ mro c →
       outcome (SetupEnvironment.install_package_in_venv amb venv_path package_name m)
         = Exc (Raised c text))
  ∧ (∀ rc errors m1,
       spawn upgrade None m = (Completed rc errors, m1) →
       outcome (SetupEnvironment.upgrade_pip_in_venv amb venv_path m) = Val (rc =? 0))
  ∧ (∀ c text m1,
       spawn upgrade None m = (Failed (c, text), m1) → CalledProcessError ∉ mro c →
       outcome (SetupEnvironment.upgrade_pip_in_venv amb venv_path m)
         = Exc (Raised c text))
  ∧ (∀ rc errors m1,
       spawn register None m = (Completed rc errors, m1) →
       outcome (SetupEnvironment.setup_jupyter_kernel amb venv_path kernel_name m)
         = Val (rc =? 0))
  ∧ (∀ c text m1,
       spawn register None m = (Failed (c, text), m1) → CalledProcessError ∉ mro c →
       outcome (SetupEnvironment.setup_jupyter_kernel amb venv_path kernel_name m)
         = Exc (Raised c text)).
Proof.
  intros python install upgrade register. subst install upgrade register.
  unfold SetupEnvironment.install_package_in_venv, SetupEnvironment.upgrade_pip_in_venv,
    SetupEnvironment.setup_jupyter_kernel, SetupEnvironment.pip_install.
  fold python.
  repeat split.
  all: intros; exec.
  all: match goal with Hrun : spawn _ _ _ = _ |- _ => rewrite Hrun end; simpl.
  all: try (by destruct (_ =? 0)).
  all: match goal with Hcls : _ ∉ _ |- _ => by rewrite (bool_decide_false _ Hcls) end.
Qed.

End Failures.

(** ** The language resources of installs_required.py *)

Section Resources.
Context {X : Type} `{Host X} (amb : ambient).

(** X8.  A library that is not installed is skipped: when [nltk], [spacy] or
    [geoparser] fails to import with an [ImportError], the function for its
    resources prints that it skips them, touches nothing and returns, the
    last one with [False]. *)
Theorem missing_library_is_skipped (m : machine X) :
  (∀ err, import_module m "nltk" = Some err → ImportError ∈ mro err.1 →
     InstallsRequired.check_and_download_nltk_data m
     = (Val tt, m,
        [Import "nltk"; Print "❌ NLTK not installed - skipping NLTK data downloads"]))
  ∧ (∀ err, import_module m "spacy" = Some err → ImportError ∈ mro err.1 →
       InstallsRequired.check_and_download_spacy_model amb m
       = (Val tt, m,
          [Import "spacy"; Print "❌ spaCy not installed - skipping model download"]))
  ∧ (∀ err, import_module m "geoparser" = Some err → ImportError ∈ mro err.1 →
       InstallsRequired.check_and_setup_geoparser amb m
       = (Val (Some false), m,
          [Import "geoparser";
           Print "❌ Geoparser not installed - skipping GeoNames database setup"])).
Proof.
  unfold InstallsRequired.check_and_download_nltk_data,
    InstallsRequired.check_and_download_spacy_model,
    InstallsRequired.check_and_setup_geoparser.
  repeat split; intros err Himp Hcls; exec; rewrite Himp; simpl;
    by rewrite (bool_decide_true _ Hcls).
Qed.

(** X9.  NLTK data that is not found is downloaded, and then reported as
    downloaded whatever [nltk.download] returned. *)
Theorem missing_nltk_data_is_downloaded (package path : string) (m m1 m2 : machine X)
    (err : error) :
  libcall "nltk.data.find" [path] m = (Some err, m1) →
  LookupError ∈ mro err.1 →
  libcall "nltk.download" [package] m1 = (None, m2) →
  InstallsRequired.ensure_nltk_data package path m
  = (Val tt, m2,
     [Call "nltk.data.find" [path];
      Print ("📥 Downloading NLTK " +:+ package +:+ "...");
      Call "nltk.download" [package];
      Print ("✅ NLTK " +:+ package +:+ " downloaded successfully")]).
Proof.
  intros Hfind Hcls Hload. unfold InstallsRequired.ensure_nltk_data. exec.
  rewrite Hfind. simpl. rewrite (bool_decide_true _ Hcls). simpl. by rewrite Hload.
Qed.

(** X10.  An error of [nltk.download] is handled nowhere, unless it is an
    [ImportError]: it leaves [check_and_download_nltk_data] before the
    second data package is looked for. *)
Theorem nltk_download_error_escapes (m m1 m2 : machine X) (err : error)
    (c : exn_class) (text : string) :
  import_module m "nltk" = None →
  libcall "nltk.data.find" ["tokenizers/punkt"] m = (Some err, m1) →
  LookupError ∈ mro err.1 →
  libcall "nltk.download" ["punkt"] m1 = (Some (c, text), m2) →
  ImportError ∉ mro c →
  InstallsRequired.check_and_download_nltk_data m
  = (Exc (Raised c text), m2,
     [Import "nltk";
      Call "nltk.data.find" ["tokenizers/punkt"];
      Print "📥 Downloading NLTK punkt...";
      Call "nltk.download" ["punkt"]]).
Proof.
  intros Himp Hfind Hcls Hload Hother.
  unfold InstallsRequired.check_and_download_nltk_data, InstallsRequired.ensure_nltk_data,
    InstallsRequired.nltk_data_packages.
  exec. rewrite Himp. simpl. rewrite Hfind. simpl.
  rewrite (bool_decide_true _ Hcls). simpl. rewrite Hload. simpl.
  by rewrite (bool_decide_false _ Hother).
Qed.

Lemma ensure_spacy_model_spawns (model_name : string) (m : machine X) :
  spawns (trace (InstallsRequired.ensure_spacy_model amb model_name m)) = []
  ∨ spawns (trace (InstallsRequired.ensure_spacy_model amb model_name m))
    = [spacy_download amb model_name].
Proof.
  unfold InstallsRequired.ensure_spacy_model, spacy_download. exec.
  destruct (libcall "spacy.load" [model_name] m) as [[[c text]|] m1]; simpl; [|by left].
  destruct (bool_decide (OSError ∈ mro c)); simpl; [|by left].
  destruct (spawn _ None m1) as [[rc errors|[c' text']] m2]; simpl.
  - destruct (rc =? 0); by right.
  - destruct (bool_decide (CalledProcessError ∈ mro c')); by right.
Qed.

Lemma spacy_loop_spawns (model_names : list string) (m : machine X) :
  spawns (trace (for_each model_names tt
                   (λ model_name _, InstallsRequired.ensure_spacy_model amb model_name) m))
  `sublist_of` map (spacy_download amb) model_names.
Proof.
  revert m. induction model_names as [|model_name model_names IH]; intros m; [done |].
  cbn [for_each]. rewrite trace_bind, spawns_app. cbn [map].
  change (spacy_download amb model_name :: map (spacy_download amb) model_names)
    with ([spacy_download amb model_name] ++ map (spacy_download amb) model_names).
  apply sublist_app.
  - destruct (ensure_spacy_model_spawns model_name m) as [-> | ->];
      [apply sublist_nil_l | done].
  - destruct (outcome _) as [[]|]; [apply IH | apply sublist_nil_l].
Qed.

Lemma spawns_try_silent {A} (c : M X A) clauses (m : machine X) :
  Forall (λ clause, ∀ e, ∀ m', spawns (trace (clause.2 e m')) = []) clauses →
  spawns (trace (try c clauses m)) = spawns (trace (c m)).
Proof.
  intros Hsilent. rewrite trace_try, spawns_app.
  destruct (outcome (c m)) as [a|e]; [by rewrite app_nil_r |].
  destruct (select_handler e clauses) as [h|] eqn:Hsel; [|by rewrite app_nil_r].
  rewrite (select_handler_Forall (λ h, ∀ m', spawns (trace (h m')) = [])
             e clauses h Hsilent Hsel).
  by rewrite app_nil_r.
Qed.

(** X11.  [check_and_download_spacy_model] starts no command but downloads of the
    three models, each at most once and in the order of the list, whatever
    happens on the way. *)
Theorem spacy_downloads_are_of_the_models (m : machine X) :
  spawns (trace (InstallsRequired.check_and_download_spacy_model amb m))
  `sublist_of` map (spacy_download amb) InstallsRequired.models.
Proof.
  unfold InstallsRequired.check_and_download_spacy_model.
  rewrite spawns_try_silent by (by repeat constructor).
  rewrite trace_bind, spawns_app.
  assert (spawns (trace (import "spacy" m)) = []) as ->
    by (unfold import; by destruct (import_module m "spacy")).
  destruct (outcome (import "spacy" m)) as [[]|];
    [apply spacy_loop_spawns | apply sublist_nil_l].
Qed.

(** X12.  With [geoparser] and [appdirs] both importable, no download is ever
    started and [False] is never returned, whatever the state of the
    database: a database that is missing, empty or unusable is reported and
    left as it is. *)
Theorem geoparser_never_downloads_with_appdirs (m : machine X) :
  import_module m "geoparser" = None →
  import_module m "appdirs" = None →
  spawns (trace (InstallsRequired.check_and_setup_geoparser amb m)) = []
  ∧ (outcome (InstallsRequired.check_and_setup_geoparser amb m) = Val (Some true)
     ∨ outcome (InstallsRequired.check_and_setup_geoparser amb m) = Val None).
Proof.
  intros Hgeo Happ. unfold InstallsRequired.check_and_setup_geoparser. exec.
  rewrite Hgeo. simpl. rewrite Happ. simpl.
  destruct (path_exists m _ && nonempty m _); simpl.
  - destruct (libcall "geoparser.Geoparser" [] m) as [[[c text]|] m1]; simpl;
      [|by auto].
    destruct c; simpl; by auto.
  - destruct (path_exists m _); simpl; by auto.
Qed.

(** X13.  Without [appdirs] the database is downloaded without looking for it
    first; the return code of the download is the result. *)
Theorem geoparser_downloads_without_appdirs (m m1 : machine X) (err : error)
    (rc : Z) (errors : string) :
  import_module m "geoparser" = None →
  import_module m "appdirs" = Some err →
  ImportError ∈ mro err.1 →
  spawn [executable amb; "-m"; "geoparser"; "download"; "geonames"] None m
    = (Completed rc errors, m1) →
  outcome (InstallsRequired.check_and_setup_geoparser amb m) = Val (Some (rc =? 0))
  ∧ final (InstallsRequired.check_and_setup_geoparser amb m) = m1
  ∧ spawns (trace (InstallsRequired.check_and_setup_geoparser amb m))
    = [geonames_download amb].
Proof.
  intros Hgeo Happ Hcls Hrun.
  unfold InstallsRequired.check_and_setup_geoparser, geonames_download. exec.
  rewrite Hgeo. simpl. rewrite Happ. simpl. rewrite (bool_decide_true _ Hcls). simpl.
  rewrite Hrun. simpl. by destruct (rc =? 0).
Qed.

End Resources.

(** ** Settings and environments that cannot be written *)

Section FileFailures.
Context {X : Type} `{Host X} (amb : ambient).

(** X14.  A settings file that holds anything but a JSON object (text that is no
    JSON, a JSON list, a directory in its place) makes
    [create_vscode_settings] return [False]; the file is left as it was and
    no other path but the settings directory is touched. *)
Theorem invalid_settings_are_left_alone (venv_path workspace_path : string)
    (m : machine X) (n : node) :
  let r := SetupEnvironment.create_vscode_settings amb venv_path workspace_path m in
  let file := SetupEnvironment.settings_path amb workspace_path in
  let dir := path_join amb workspace_path ".vscode" in
  (fs m !! dir = None ∨ fs m !! dir = Some Dir) →
  fs m !! file = Some n →
  (∀ existing, n ≠ JsonFile (JObj existing)) →
  outcome r = Val false
  ∧ fs (final r) !! file = Some n
  ∧ (∀ path, path ≠ dir → fs (final r) !! path = fs m !! path)
  ∧ world (final r) = world m.
Proof.
  intros r file dir Hdir Hfile Hn. subst r.
  pose proof (settings_file_not_dir amb workspace_path) as Hne.
  unfold SetupEnvironment.create_vscode_settings.
  fold (SetupEnvironment.settings_path amb workspace_path). fold file. fold dir.
  fold dir in Hne. fold file in Hne.
  set (new := SetupEnvironment.new_settings _).
  unfold SetupEnvironment.makedirs, SetupEnvironment.json_load, SetupEnvironment.json_dump,
    SetupEnvironment.update, path_exists.
  destruct Hdir as [Hd|Hd].
  - exec. rewrite Hd. simpl. rewrite lookup_insert_ne by done. rewrite Hfile. simpl.
    rewrite lookup_insert_ne by done. rewrite Hfile.
    destruct n as [|[| | | | |existing]|]; simpl;
      try (by destruct (Hn existing)).
    all: rewrite lookup_insert_ne by done.
    all: split; [done |]; split; [done |]; split; [|done].
    all: intros path Hpath; by rewrite lookup_insert_ne.
  - exec. rewrite Hd. simpl. rewrite Hfile. simpl. rewrite Hfile.
    destruct n as [|[| | | | |existing]|]; simpl;
      try (by destruct (Hn existing)).
    all: done.
Qed.

(** X15.  When [.vscode] exists and is no directory, [os.makedirs] raises
    [FileExistsError] outside the [try] of [create_vscode_settings]: the
    exception leaves the function, nothing is written. *)
Theorem settings_directory_in_the_way (venv_path workspace_path : string)
    (m : machine X) (n : node) :
  fs m !! path_join amb workspace_path ".vscode" = Some n →
  n ≠ Dir →
  SetupEnvironment.create_vscode_settings amb venv_path workspace_path m
  = (Exc (Raised FileExistsError (path_join amb workspace_path ".vscode")), m, []).
Proof.
  intros Hdir Hn. unfold SetupEnvironment.create_vscode_settings, SetupEnvironment.makedirs.
  exec. rewrite Hdir. by destruct n.
Qed.

Lemma merged_twice (new : gmap string json) (before : option node) :
  merged new (Some (JsonFile (JObj (merged new before)))) = merged new before.
Proof.
  unfold merged at 1. unfold SetupEnvironment.dict_update.
  apply map_eq. intros key. rewrite lookup_union.
  destruct (new !! key) as [v|] eqn:Hnew.
  - assert (merged new before !! key = Some v) as ->; [|done].
    unfold merged, SetupEnvironment.dict_update.
    destruct before as [[|[]|]|]; try done. by apply lookup_union_Some_l.
  - by destruct (merged new before !! key).
Qed.

(** X16.  Writing the settings a second time changes nothing: the file system
    after two calls in a row is the file system after one. *)
Theorem create_vscode_settings_twice (venv_path workspace_path : string)
    (m : machine X) :
  let first := SetupEnvironment.create_vscode_settings amb venv_path workspace_path m in
  let second :=
    SetupEnvironment.create_vscode_settings amb venv_path workspace_path (final first) in
  let file := SetupEnvironment.settings_path amb workspace_path in
  let dir := path_join amb workspace_path ".vscode" in
  (fs m !! dir = None ∨ fs m !! dir = Some Dir) →
  (fs m !! file = None ∨ ∃ existing, fs m !! file = Some (JsonFile (JObj existing))) →
  outcome second = Val true ∧ final second = final first.
Proof.
  intros first second file dir Hdir Hfile. subst second first.
  pose proof (settings_file_not_dir amb workspace_path) as Hne.
  fold file dir in Hne.
  rewrite (settings_written amb venv_path workspace_path m Hdir Hfile).
  fold file. fold dir. cbn [final fst snd].
  set (new := SetupEnvironment.new_settings _).
  set (m1 := Machine _ _).
  assert (fs m1 !! dir = Some Dir) as Hd1.
  { subst m1. cbn [fs]. rewrite lookup_insert_ne by done. apply lookup_insert_eq. }
  assert (fs m1 !! file = Some (JsonFile (JObj (merged new (fs m !! file))))) as Hf1.
  { subst m1. cbn [fs]. apply lookup_insert_eq. }
  rewrite (settings_written amb venv_path workspace_path m1); [|by right |right; eauto].
  fold file. fold dir. fold new. split; [done |].
  cbn [final fst snd]. rewrite Hf1, merged_twice.
  rewrite (insert_id (fs m1) dir Dir Hd1). subst m1. cbn [fs world].
  f_equal. apply insert_insert_eq.
Qed.

Lemma merged_keys (existing : gmap string json) (venv_python key : string) :
  is_Some (merged (SetupEnvironment.new_settings venv_python)
             (Some (JsonFile (JObj existing))) !! key)
  ↔ key ∈ written_keys ∨ is_Some (existing !! key).
Proof.
  unfold merged, SetupEnvironment.dict_update. rewrite lookup_union_is_Some.
  apply or_iff_compat_r. split.
  - intros Hkey. destruct (decide (key ∈ written_keys)) as [|Hout]; [done |].
    rewrite (new_settings_other venv_python key Hout) in Hkey. by destruct Hkey.
  - destruct (new_settings_written venv_python) as (H1 & H2 & H3).
    unfold written_keys. intros Hin.
    repeat (apply elem_of_cons in Hin as [-> | Hin]; [eauto |]).
    by apply elem_of_nil in Hin.
Qed.

(** X17.  After [create_vscode_settings] on an existing settings object, the file
    holds an object whose keys are the keys of the earlier file and the
    three keys set, and no other. *)
Theorem settings_keys (venv_path workspace_path : string) (m : machine X)
    (existing : gmap string json) :
  let r := SetupEnvironment.create_vscode_settings amb venv_path workspace_path m in
  let file := SetupEnvironment.settings_path amb workspace_path in
  let dir := path_join amb workspace_path ".vscode" in
  (fs m !! dir = None ∨ fs m !! dir = Some Dir) →
  fs m !! file = Some (JsonFile (JObj existing)) →
  ∃ settings,
    fs (final r) !! file = Some (JsonFile (JObj settings))
    ∧ ∀ key, is_Some (settings !! key) ↔ key ∈ written_keys ∨ is_Some (existing !! key).
Proof.
  intros r file dir Hdir Hfile. subst r.
  rewrite (settings_written amb venv_path workspace_path m Hdir); [|right; eauto].
  fold file. fold dir. cbn [final fst snd fs]. rewrite lookup_insert_eq, Hfile.
  eexists. split; [done |]. apply merged_keys.
Qed.

(** X18.  A regular file at the place of the environment makes
    [create_virtual_environment] return [False] with nothing done:
    [venv.create] is not called, the file stays. *)
Theorem environment_path_is_a_file (venv_path : string) (m : machine X) (n : node) :
  fs m !! venv_path = Some n →
  n ≠ Dir →
  outcome (SetupEnvironment.create_virtual_environment amb venv_path m) = Val false
  ∧ final (SetupEnvironment.create_virtual_environment amb venv_path m) = m
  ∧ interactions (trace (SetupEnvironment.create_virtual_environment amb venv_path m))
    = [].
Proof.
  intros Hfile Hn.
  unfold SetupEnvironment.create_virtual_environment, SetupEnvironment.rmtree, path_exists.
  exec. rewrite Hfile. simpl. rewrite Hfile. by destruct n.
Qed.

(** X19.  When [venv.create] fails after an earlier environment was removed, the
    function returns [False] and the earlier environment is not put back:
    the machine is the one [venv.create] left of the cleared machine. *)
Theorem failed_creation_loses_the_environment (venv_path : string) (m m1 : machine X)
    (err : error) :
  fs m !! venv_path = Some Dir →
  libcall "venv.create" [venv_path] (without_tree amb venv_path m) = (Some err, m1) →
  outcome (SetupEnvironment.create_virtual_environment amb venv_path m) = Val false
  ∧ final (SetupEnvironment.create_virtual_environment amb venv_path m) = m1.
Proof.
  intros Hdir. unfold without_tree, path_exists. rewrite Hdir. intros Hcreate.
  unfold SetupEnvironment.create_virtual_environment, SetupEnvironment.rmtree, path_exists.
  exec. rewrite Hdir. simpl. rewrite Hdir. simpl. rewrite Hcreate. simpl.
  destruct err as [c text]. by destruct c.
Qed.

End FileFailures.

(** ** The search for the editor *)

Section Editor.
Context {X : Type} `{Host X} (amb : ambient).

Lemma for_return_some {A B} (l : list A) (body : A → M X (option B)) (m : machine X)
    (b : B) :
  outcome (for_return l body m) = Val (Some b) →
  ∃ a m0 earlier,
    a ∈ l ∧ outcome (body a m0) = Val (Some b)
    ∧ trace (for_return l body m) = earlier ++ trace (body a m0).
Proof.
  revert m. induction l as [|a l IH]; intros m; [done |].
  cbn [for_return]. rewrite outcome_bind, trace_bind.
  destruct (outcome (body a m)) as [[b'|]|e] eqn:Hbody; [| |done].
  - intros [= ->]. exists a, m, []. rewrite Hbody.
    split; [apply list_elem_of_here |]. split; [done |]. simpl. by rewrite app_nil_r.
  - intros Hrest. destruct (IH _ Hrest) as (a' & m0 & earlier & Hin & Hout & Htrace).
    exists a', m0, (trace (body a m) ++ earlier).
    split; [by apply list_elem_of_further |]. split; [done |].
    by rewrite Htrace, app_assoc.
Qed.

Lemma probe_command_some (cmd found : string) (m : machine X) :
  outcome (VscodeExtensions.probe_command cmd m) = Val (Some found) →
  found = cmd
  ∧ ∃ line, trace (VscodeExtensions.probe_command cmd m) = [version_probe cmd; Print line].
Proof.
  unfold VscodeExtensions.probe_command, version_probe. exec.
  destruct (which m cmd); [|done]. simpl.
  destruct (spawn _ (Some 10%nat) m) as [[rc errors|[c text]] m1]; simpl.
  - destruct (rc =? 0); [|done]. simpl. intros [= ->]. eauto.
  - destruct (_ || _); simpl; done.
Qed.

Lemma probe_path_some (path found : string) (m : machine X) :
  outcome (VscodeExtensions.probe_path path m) = Val (Some found) →
  found = path
  ∧ ∃ line, trace (VscodeExtensions.probe_path path m) = [version_probe path; Print line].
Proof.
  unfold VscodeExtensions.probe_path, version_probe. exec.
  destruct (path_exists m path); [|done]. simpl.
  destruct (spawn _ (Some 10%nat) m) as [[rc errors|[c text]] m1]; simpl.
  - destruct (rc =? 0); [|done]. simpl. intros [= ->]. eauto.
  - destruct (_ || _); simpl; done.
Qed.

Lemma possible_paths_truthy (username path : string) :
  path ∈ VscodeExtensions.possible_paths username → PyStr.truthy path = true.
Proof.
  unfold VscodeExtensions.possible_paths. intros Hin.
  repeat (apply elem_of_cons in Hin as [-> | Hin]; [done |]).
  by apply elem_of_nil in Hin.
Qed.

Lemma check_vscode_installed_some (m : machine X) (cmd : string) :
  outcome (VscodeExtensions.check_vscode_installed amb m) = Val (Some cmd) →
  cmd ∈ editor_candidates amb
  ∧ PyStr.truthy cmd = true
  ∧ ∃ earlier line,
      trace (VscodeExtensions.check_vscode_installed amb m)
      = earlier ++ [version_probe cmd; Print line].
Proof.
  unfold VscodeExtensions.check_vscode_installed, editor_candidates. intros Hout.
  destruct (bind_val _ _ _ _ Hout) as ([] & _ & Hout1 & ->). clear Hout.
  set (hello := trace (print _ m)). clearbody hello.
  destruct (bind_val _ _ _ _ Hout1) as ([found|] & Hloop & Hout2 & ->); clear Hout1.
  - injection Hout2 as ->. rewrite trace_ret, app_nil_r.
    destruct (for_return_some _ _ _ _ Hloop) as (a & m0 & earlier & Hin & Hbody & ->).
    destruct (probe_command_some _ _ _ Hbody) as [-> (line & ->)].
    split; [by apply elem_of_app; left |].
    split.
    { repeat (apply elem_of_cons in Hin as [-> | Hin]; [reflexivity |]).
      by apply elem_of_nil in Hin. }
    exists (hello ++ earlier), line. by rewrite app_assoc.
  - set (first := trace (for_return _ _ _)). clearbody first.
    destruct (bind_val _ _ _ _ Hout2) as ([found|] & Hsearch & Hout3 & ->); clear Hout2;
      [|revert Hout3; run; done].
    injection Hout3 as ->. rewrite trace_ret, app_nil_r.
    destruct (system amb =? "Windows")%string.
    + destruct (bind_val _ _ _ _ Hsearch) as ([] & _ & Hlocations & ->).
      set (searching := trace (print _ _)). clearbody searching.
      destruct (for_return_some _ _ _ _ Hlocations)
        as (a & m0 & earlier & Hin & Hbody & ->).
      destruct (probe_path_some _ _ _ Hbody) as [-> (line & ->)].
      split; [by apply elem_of_app; right |].
      split; [by eapply possible_paths_truthy |].
      exists (hello ++ first ++ searching ++ earlier), line. by rewrite <- !app_assoc.
    + destruct (system amb =? "Darwin")%string; [|done].
      destruct (bind_val _ _ _ _ Hsearch) as ([] & _ & Hbody & ->).
      set (searching := trace (print _ _)). clearbody searching.
      destruct (probe_path_some _ _ _ Hbody) as [-> (line & ->)].
      split; [apply elem_of_app; right; apply list_elem_of_here |].
      split; [reflexivity |].
      exists (hello ++ first ++ searching), line. by rewrite <- !app_assoc.
Qed.

(** X20.  A command that [check_vscode_installed] returns is one of the
    candidates of the platform, is not the empty string, and is the last
    thing the function ran: its version probe, then the line that reports
    it, end the trace. *)
Theorem editor_found_was_probed (m : machine X) (cmd : string) :
  outcome (VscodeExtensions.check_vscode_installed amb m) = Val (Some cmd) →
  cmd ∈ editor_candidates amb
  ∧ PyStr.truthy cmd = true
  ∧ ∃ earlier line,
      trace (VscodeExtensions.check_vscode_installed amb m)
      = earlier ++ [version_probe cmd; Print line].
Proof. apply check_vscode_installed_some. Qed.

(** X21.  An error of the version probe that is none of the three classes the
    function names (a [PermissionError], say) is not handled: it leaves
    [check_vscode_installed] and ends the script with status 1, after that
    one probe and before any installation. *)
Theorem unexpected_probe_error_ends_the_script (exts : list (string * string))
    (m m1 : machine X) (c : exn_class) (text : string) :
  which m "code" = true →
  spawn ["code"; "--version"] (Some 10%nat) m = (Failed (c, text), m1) →
  TimeoutExpired ∉ mro c → CalledProcessError ∉ mro c → FileNotFoundError ∉ mro c →
  outcome (VscodeExtensions.main_with amb exts m) = Exc (Raised c text)
  ∧ exit_status (outcome (VscodeExtensions.main_with amb exts m)) = 1
  ∧ final (VscodeExtensions.main_with amb exts m) = m1
  ∧ spawns (trace (VscodeExtensions.main_with amb exts m)) = [version_probe "code"].
Proof.
  intros Hwhich Hrun H1 H2 H3.
  unfold VscodeExtensions.main_with, VscodeExtensions.check_vscode_installed,
    VscodeExtensions.probe_command, VscodeExtensions.probe_errors, version_probe.
  exec. rewrite Hwhich. simpl. rewrite Hrun. simpl.
  by rewrite (bool_decide_false _ H1), (bool_decide_false _ H2), (bool_decide_false _ H3).
Qed.

(** X22.  Where the platform is neither Windows nor macOS, only the search path
    is consulted: with neither command on it nothing is run, the machine is
    untouched, and the script exits with status 1. *)
Theorem editor_is_sought_on_the_path_only (exts : list (string * string))
    (m : machine X) :
  system amb ≠ "Windows" → system amb ≠ "Darwin" →
  which m "code" = false → which m "code-insiders" = false →
  outcome (VscodeExtensions.check_vscode_installed amb m) = Val None
  ∧ outcome (VscodeExtensions.main_with amb exts m) = Exc (Exit 1)
  ∧ final (VscodeExtensions.main_with amb exts m) = m
  ∧ interactions (trace (VscodeExtensions.main_with amb exts m)) = [].
Proof.
  intros Hwin Hmac Hcode Hinsiders.
  apply String.eqb_neq in Hwin, Hmac.
  unfold VscodeExtensions.main_with, VscodeExtensions.check_vscode_installed,
    VscodeExtensions.probe_command.
  exec. rewrite Hcode, Hinsiders. simpl. by rewrite Hwin, Hmac.
Qed.

End Editor.

(** ** The package loops and the order of the runs *)

Section Packages.
Context {X : Type} `{Host X} (amb : ambient).

(** The loop that both scripts run over the packages that are not
    essential, for any way [check] to install one package. *)
Lemma collected_failures (check : string → M X bool) (pkgs essential failed0 : list string)
    (m : machine X) (failed : list string) :
  outcome
    (for_each pkgs failed0
       (λ package failed_packages,
          if negb (bool_decide (package ∈ essential)) then
            ok <- check package ;;
            ret (if ok then failed_packages else failed_packages ++ [package])
          else ret failed_packages) m) = Val failed →
  ∃ extra,
    failed = failed0 ++ extra
    ∧ extra `sublist_of` filter (λ package, package ∉ essential) pkgs.
Proof.
  revert failed0 m. induction pkgs as [|package pkgs IH]; intros failed0 m.
  - intros [= <-]. exists []. by rewrite app_nil_r.
  - cbn [for_each]. intros Hloop.
    destruct (bind_val _ _ _ _ Hloop) as (failed1 & Hbody & Hrest & _).
    destruct (IH _ _ Hrest) as (extra & -> & Hsub).
    destruct (decide (package ∈ essential)) as [Hin|Hout].
    + rewrite (bool_decide_true _ Hin) in Hbody. injection Hbody as <-.
      rewrite filter_cons_False by (by intros ?). eauto.
    + rewrite (bool_decide_false _ Hout) in Hbody. cbn [negb] in Hbody.
      rewrite filter_cons_True by done.
      destruct (bind_val _ _ _ _ Hbody) as ([] & _ & [= <-] & _).
      * exists extra. split; [done | by apply sublist_cons].
      * exists (package :: extra). split; [by rewrite <- app_assoc |].
        by apply sublist_skip.
Qed.

(** X23.  The packages that installs_required.py reports as failed are packages
    of the list that are not essential, in the order of the list and each
    at most as often as it is listed: an essential package that fails to
    install is never reported. *)
Theorem failed_packages_are_not_essential (packages essential : list string)
    (m : machine X) (failed_packages : list string) :
  outcome (InstallsRequired.install_packages amb packages essential m)
    = Val failed_packages →
  failed_packages `sublist_of` filter (λ package, package ∉ essential) packages.
Proof.
  unfold InstallsRequired.install_packages. intros Hloop.
  by destruct (collected_failures _ _ _ _ _ _ Hloop) as (extra & -> & Hsub).
Qed.

Lemma essential_failures (venv_path : string) (essential failed0 : list string)
    (m : machine X) (failed : list string) :
  outcome (SetupEnvironment.install_essential amb venv_path essential failed0 m)
    = Val failed →
  ∃ extra, failed = failed0 ++ extra ∧ extra `sublist_of` essential.
Proof.
  unfold SetupEnvironment.install_essential.
  revert failed0 m. induction essential as [|package essential IH]; intros failed0 m.
  - intros [= <-]. exists []. by rewrite app_nil_r.
  - cbn [for_each]. intros Hloop.
    destruct (bind_val _ _ _ _ Hloop) as (failed1 & Hbody & Hrest & _).
    destruct (IH _ _ Hrest) as (extra & -> & Hsub).
    destruct (bind_val _ _ _ _ Hbody) as ([] & _ & Hnext & _); cbn [negb] in Hnext.
    + injection Hnext as <-. exists extra. split; [done | by apply sublist_cons].
    + revert Hnext. run. intros [= <-].
      exists (package :: extra). split; [by rewrite <- app_assoc |].
      by apply sublist_skip.
Qed.

(** X24.  In setup_python_environment.py the failures of the first loop are
    essential packages, so the test that follows it, whether any essential
    package is among the failures, holds exactly when the first loop
    recorded a failure, and the later packages add to that list only. *)
Theorem essential_failure_test (venv_path : string) (pkgs essential : list string)
    (m m1 : machine X) (failed failed_packages : list string) :
  outcome (SetupEnvironment.install_essential amb venv_path essential [] m) = Val failed →
  outcome (SetupEnvironment.install_remaining amb venv_path pkgs essential failed m1)
    = Val failed_packages →
  failed `sublist_of` essential
  ∧ (SetupEnvironment.any_failed essential failed = true ↔ failed ≠ [])
  ∧ ∃ extra,
      failed_packages = failed ++ extra
      ∧ extra `sublist_of` filter (λ package, package ∉ essential) pkgs.
Proof.
  intros Hfirst Hsecond.
  destruct (essential_failures _ _ _ _ _ Hfirst) as (extra & -> & Hsub).
  cbn [app]. split; [done |]. split.
  - unfold SetupEnvironment.any_failed. rewrite existsb_exists. split.
    + intros (package & _ & Hin%bool_decide_eq_true) ->. by apply elem_of_nil in Hin.
    + destruct extra as [|package extra]; [done |]. intros _.
      exists package. split.
      * apply list_elem_of_In, (elem_of_sublist _ _ _ (list_elem_of_here _ _) Hsub).
      * apply bool_decide_eq_true, list_elem_of_here.
  - by apply (collected_failures _ _ _ _ _ _ Hsecond).
Qed.

Lemma package_imports (package_name : string) (import_name : option string)
    (m : machine X) :
  filter is_import
    (trace (InstallsRequired.check_and_install_package amb package_name import_name m))
  = [Import (default (InstallsRequired.derive_import_name package_name) import_name)].
Proof.
  unfold InstallsRequired.check_and_install_package.
  set (name := match import_name with Some name => name | None => _ end).
  change (default _ import_name) with name. clearbody name. exec.
  destruct (import_module m name) as [[c text]|]; simpl; [|done].
  destruct (bool_decide (ImportError ∈ mro c)); simpl; [|done].
  destruct (spawn _ None m) as [[rc errors|[c' text']] m1]; simpl.
  - by destruct (rc =? 0).
  - by destruct (bool_decide (CalledProcessError ∈ mro c')).
Qed.

(** X25.  On a well-behaved host the two loops of installs_required.py import
    every package once: the essential ones first, then the others in the
    order of the list; none is checked twice and none is left out. *)
Theorem each_package_is_checked_once (packages essential : list string) (m : machine X) :
  well_behaved X →
  filter is_import
    (trace ((InstallsRequired.install_essential amb essential ;;
             InstallsRequired.install_packages amb packages essential) m))
  = map (λ package, Import (InstallsRequired.derive_import_name package))
      (essential ++ filter (λ package, package ∉ essential) packages).
Proof.
  intros Hwb. rewrite trace_bind, filter_app, map_app.
  destruct (ir_install_essential_total amb Hwb essential m) as [[] ->].
  f_equal.
  - unfold InstallsRequired.install_essential. generalize m.
    induction essential as [|package rest IH]; intros m0; [done |].
    cbn [for_each]. rewrite trace_bind, filter_app.
    rewrite trace_bind, filter_app, package_imports.
    destruct (ir_package_total amb Hwb package None m0) as [ok Hok].
    rewrite Hok, outcome_bind, Hok. cbn [map]. simpl. f_equal. apply IH.
  - unfold InstallsRequired.install_packages.
    generalize (final (InstallsRequired.install_essential amb essential m)).
    set (failed0 := @nil string) at 1. generalize failed0.
    induction packages as [|package rest IH]; intros failed m0; [done |].
    cbn [for_each]. rewrite trace_bind, filter_app.
    destruct (decide (package ∈ essential)) as [Hin|Hout].
    + rewrite (bool_decide_true _ Hin). cbn [negb].
      rewrite filter_cons_False by (by intros ?). simpl. apply IH.
    + rewrite (bool_decide_false _ Hout). cbn [negb].
      rewrite filter_cons_True by done.
      rewrite trace_bind, filter_app, package_imports.
      destruct (ir_package_total amb Hwb package None m0) as [ok Hok].
      rewrite outcome_bind, Hok. cbn [map]. simpl. f_equal. apply IH.
Qed.

Lemma upgrade_pip_spawns (m : machine X) :
  spawns (trace (InstallsRequired.upgrade_pip amb m))
  = [Spawn (InstallsRequired.pip_install amb "pip") None false].
Proof.
  unfold InstallsRequired.upgrade_pip, InstallsRequired.pip_install. exec.
  destruct (spawn _ None m) as [[rc errors|[c text]] m1]; simpl.
  - by destruct (rc =? 0).
  - by destruct (bool_decide (CalledProcessError ∈ mro c)).
Qed.

(** X26.  With a recent enough interpreter the first command that
    installs_required.py starts is the upgrade of pip, whatever follows. *)
Theorem pip_is_upgraded_first (packages essential : list string) (m : machine X) :
  version_lt (version_info amb) InstallsRequired.min_version = false →
  ∃ rest,
    spawns (trace (InstallsRequired.main_with amb packages essential m))
    = Spawn (InstallsRequired.pip_install amb "pip") None false :: rest.
Proof.
  intros Hnew. destruct (ir_check_python_version amb m) as (Hout & Hfin & Htrace).
  assert (spawns (trace (InstallsRequired.check_python_version amb m)) = []) as Hcheck.
  { unfold InstallsRequired.check_python_version. exec.
    by destruct (version_lt (version_info amb) InstallsRequired.min_version). }
  unfold InstallsRequired.main_with. run. rewrite Hout, Hfin, Hnew. cbn [negb]. run.
  rewrite !spawns_app, Hcheck, upgrade_pip_spawns. simpl. eauto.
Qed.

(** X27.  When the environment cannot be created, setup_python_environment.py
    stops with exit status 1 before it starts any command. *)
Theorem setup_stops_without_environment (pkgs essential : list string) (m : machine X) :
  version_lt (version_info amb) SetupEnvironment.min_version = false →
  outcome (SetupEnvironment.create_virtual_environment amb (course_env amb) m)
    = Val false →
  outcome (SetupEnvironment.main_with amb pkgs essential m) = Exc (Exit 1)
  ∧ final (SetupEnvironment.main_with amb pkgs essential m)
    = final (SetupEnvironment.create_virtual_environment amb (course_env amb) m)
  ∧ spawns (trace (SetupEnvironment.main_with amb pkgs essential m)) = [].
Proof.
  intros Hnew Hcreated. destruct (se_check_python_version amb m) as (Hout & Hfin & Htrace).
  assert (spawns (trace (SetupEnvironment.check_python_version amb m)) = []) as Hcheck.
  { unfold SetupEnvironment.check_python_version. exec.
    by destruct (version_lt (version_info amb) SetupEnvironment.min_version). }
  unfold SetupEnvironment.main_with. fold (course_env amb). run.
  rewrite Hout, Hfin, Hnew. cbn [negb]. run. rewrite Hcreated. cbn [negb]. run.
  split; [done |]. split; [done |].
  by rewrite !spawns_app, Hcheck, create_virtual_environment_spawns.
Qed.

End Packages.

(** ** The language resources of setup_python_environment.py *)

Section VenvResources.
Context {X : Type} `{Host X} (amb : ambient).
Hypothesis Hwb : well_behaved X.

Lemma venv_nltk_runs (venv_path : string) (m : machine X) :
  (∃ ok, outcome (SetupEnvironment.check_and_download_nltk_data amb venv_path m) = Val ok)
  ∧ spawns (trace (SetupEnvironment.check_and_download_nltk_data amb venv_path m))
    = [Spawn [SetupEnvironment.get_venv_python amb venv_path; "-c";
              SetupEnvironment.nltk_script] None false].
Proof.
  unfold SetupEnvironment.check_and_download_nltk_data. exec.
  destruct (wb_spawn Hwb [SetupEnvironment.get_venv_python amb venv_path; "-c";
                          SetupEnvironment.nltk_script] None m)
    as (rc & errors & m1 & Hrun).
  rewrite Hrun. simpl. destruct (rc =? 0); simpl; eauto.
Qed.

Lemma venv_spacy_runs (venv_path : string) (model_names : list string) (m : machine X) :
  let python := SetupEnvironment.get_venv_python amb venv_path in
  let r :=
    for_each model_names tt
      (λ model_name _,
         try
           (print ("📥 Downloading spaCy model " +:+ model_name +:+ "...") ;;
            check_call (SetupEnvironment.spacy_download python model_name) ;;
            print ("✅ spaCy model " +:+ model_name +:+ " downloaded successfully"))
           [([CalledProcessError],
             λ _, print ("⚠️  Failed to download spaCy model " +:+ model_name
                         +:+ " - you can install it later"))]) m in
  outcome r = Val tt
  ∧ spawns (trace r)
    = map (λ model_name, Spawn (SetupEnvironment.spacy_download python model_name)
                           None false) model_names.
Proof.
  intros python. cbv zeta. revert m.
  induction model_names as [|model_name model_names IH]; intros m; [done |].
  cbn [for_each]. rewrite outcome_bind, trace_bind, spawns_app.
  set (body := try _ _).
  assert (outcome (body m) = Val tt
          ∧ spawns (trace (body m))
            = [Spawn (SetupEnvironment.spacy_download python model_name) None false])
    as [Hout Hspawns].
  { subst body. exec.
    destruct (wb_spawn Hwb (SetupEnvironment.spacy_download python model_name) None m)
      as (rc & errors & m1 & Hrun).
    unfold SetupEnvironment.spacy_download in *. rewrite Hrun. simpl.
    by destruct (rc =? 0). }
  rewrite Hout, Hspawns. destruct (IH (final (body m))) as [-> ->]. done.
Qed.

(** X28.  On a well-behaved host the resource phase of
    setup_python_environment.py returns and starts exactly four commands
    with the interpreter of the environment, whatever each of them returns:
    the NLTK script, the download of the two spaCy models in the order of
    the list, and the download of the GeoNames database.  Nothing is looked
    for before it is downloaded. *)
Theorem venv_resources_are_always_downloaded (venv_path : string) (m : machine X) :
  let python := SetupEnvironment.get_venv_python amb venv_path in
  let r :=
    (SetupEnvironment.check_and_download_nltk_data amb venv_path ;;
     SetupEnvironment.check_and_download_spacy_model amb venv_path ;;
     SetupEnvironment.setup_geoparser amb venv_path) m in
  (∃ ok, outcome r = Val ok)
  ∧ spawns (trace r)
    = [Spawn [python; "-c"; SetupEnvironment.nltk_script] None false;
       Spawn [python; "-m"; "spacy"; "download"; "en_core_web_sm"] None false;
       Spawn [python; "-m"; "spacy"; "download"; "en_core_web_md"] None false;
       Spawn [python; "-m"; "geoparser"; "download"; "geonames"] None false].
Proof.
  intros python. cbv zeta.
  rewrite !outcome_bind, !trace_bind.
  destruct (venv_nltk_runs venv_path m) as [[ok ->] Hnltk].
  set (m1 := final (SetupEnvironment.check_and_download_nltk_data amb venv_path m)).
  assert (outcome (SetupEnvironment.check_and_download_spacy_model amb venv_path m1) = Val tt
          ∧ spawns (trace (SetupEnvironment.check_and_download_spacy_model amb venv_path m1))
            = [Spawn [python; "-m"; "spacy"; "download"; "en_core_web_sm"] None false;
               Spawn [python; "-m"; "spacy"; "download"; "en_core_web_md"] None false])
    as [Hout Hspacy].
  { unfold SetupEnvironment.check_and_download_spacy_model.
    rewrite outcome_bind, trace_bind, spawns_app, outcome_print.
    by destruct (venv_spacy_runs venv_path SetupEnvironment.models
                   (final (print "🤖 Setting up spaCy models..." m1))) as [-> ->]. }
  rewrite Hout.
  set (m2 := final (SetupEnvironment.check_and_download_spacy_model amb venv_path m1)).
  rewrite !spawns_app, Hnltk, Hspacy, (setup_geoparser_spawns amb venv_path m2).
  split; [|done].
  unfold SetupEnvironment.setup_geoparser. exec.
  destruct (wb_spawn Hwb [SetupEnvironment.get_venv_python amb venv_path;
                          "-m"; "geoparser"; "download"; "geonames"] None m2)
    as (rc & errors & m3 & Hrun).
  rewrite Hrun. simpl. destruct (rc =? 0); simpl; eauto.
Qed.

End VenvResources.

(** ** What a normal return of a script means *)

Section Returns.
Context {X : Type} `{Host X} (amb : ambient).

(** X29.  install_vscode_extensions.py returns normally exactly when
    [check_vscode_installed] returns a command: the test [if not vscode_cmd]
    of [main] fires for [None] only, since no command returned is the empty
    string, and no failed extension stops the run. *)
Theorem extensions_script_returns_iff_editor_found (exts : list (string * string))
    (m : machine X) :
  outcome (VscodeExtensions.main_with amb exts m) = Val tt
  ↔ ∃ cmd, outcome (VscodeExtensions.check_vscode_installed amb m) = Val (Some cmd).
Proof.
  split.
  - intros Hmain.
    destruct (outcome (VscodeExtensions.check_vscode_installed amb m))
      as [[cmd|]|e] eqn:Hcheck.
    + by exists cmd.
    + destruct (vscode_main_without_editor amb exts m Hcheck) as [Hexit _].
      by rewrite Hexit in Hmain.
    + revert Hmain. unfold VscodeExtensions.main_with. run. by rewrite Hcheck.
  - intros [cmd Hcheck].
    destruct (check_vscode_installed_some amb m cmd Hcheck) as (_ & Htruthy & _).
    by destruct (vscode_main_with_editor amb exts m cmd Hcheck Htruthy) as [Hmain _].
Qed.

(** X30.  When setup_python_environment.py returns normally, then in this
    run the interpreter passed the version check, the environment was
    created, the loop over the essential packages recorded no failure and
    the kernel was registered, each step on the machine the steps before it
    left.  (The results of the pip upgrade, of the other packages, of the
    editor settings and of the language resources play no part.) *)
Theorem setup_script_returns_only_after (pkgs essential : list string) (m : machine X) :
  let env := course_env amb in
  let m1 := final (SetupEnvironment.create_virtual_environment amb env m) in
  let m2 := final (SetupEnvironment.upgrade_pip_in_venv amb env m1) in
  let m3 := final (SetupEnvironment.install_essential amb env essential [] m2) in
  let m4 := final (SetupEnvironment.install_remaining amb env pkgs essential [] m3) in
  outcome (SetupEnvironment.main_with amb pkgs essential m) = Val tt →
  version_lt (version_info amb) SetupEnvironment.min_version = false
  ∧ outcome (SetupEnvironment.create_virtual_environment amb env m) = Val true
  ∧ outcome (SetupEnvironment.install_essential amb env essential [] m2) = Val []
  ∧ outcome (SetupEnvironment.setup_jupyter_kernel amb env "ds101" m4) = Val true.
Proof.
  intros env m1 m2 m3 m4 Hmain.
  destruct (se_check_python_version amb m) as (Hout & Hfin & _).
  unfold SetupEnvironment.main_with in Hmain. cbv zeta in Hmain.
  fold (course_env amb) in Hmain. fold env in Hmain.
  do 5 skip_print Hmain. invert_bind Hmain ok Hok.
  repeat (rewrite final_print in Hok || rewrite Hfin in Hok).
  repeat (rewrite final_print in Hmain || rewrite Hfin in Hmain).
  rewrite Hout in Hok.
  destruct ok; cbn [negb] in Hmain; [|revert Hmain; run; done].
  do 4 skip_print Hmain. invert_bind Hmain created Hcreated.
  repeat (rewrite final_print in Hcreated || rewrite Hfin in Hcreated).
  repeat (rewrite final_print in Hmain || rewrite Hfin in Hmain).
  destruct created; cbn [negb] in Hmain; [|revert Hmain; run; done].
  fold m1 in Hmain.
  invert_bind Hmain upgraded Hupgraded. fold m2 in Hmain.
  assert (final ((if negb upgraded
                  then print "⚠️  Pip upgrade failed, continuing anyway..."
                  else ret ()) m2) = m2) as Hm2 by (by destruct upgraded).
  skip_print Hmain. do 3 skip_print Hmain. invert_bind Hmain failed Hfailed.
  repeat (rewrite final_print in Hfailed || rewrite Hm2 in Hfailed).
  repeat (rewrite final_print in Hmain || rewrite Hm2 in Hmain).
  fold m3 in Hmain.
  destruct (SetupEnvironment.any_failed essential failed) eqn:Hany;
    [revert Hmain; run; done |].
  assert (failed = []) as ->.
  { destruct (essential_failures amb _ _ _ _ _ Hfailed) as (extra & Hextra & Hsub).
    cbn [app] in Hextra. subst extra.
    destruct failed as [|package failed]; [done |]. exfalso.
    assert (SetupEnvironment.any_failed essential (package :: failed) = true) as Htrue.
    { unfold SetupEnvironment.any_failed. apply existsb_exists. exists package. split.
      - apply list_elem_of_In, (elem_of_sublist _ _ _ (list_elem_of_here _ _) Hsub).
      - apply bool_decide_eq_true, list_elem_of_here. }
    congruence. }
  fold m3 in Hmain.
  invert_bind Hmain failed_packages Hremaining. fold m4 in Hmain.
  do 2 skip_print Hmain. invert_bind Hmain registered Hregistered.
  repeat (rewrite final_print in Hregistered).
  destruct registered; cbn [negb] in Hmain; [|revert Hmain; run; done].
  split; [by destruct (version_lt (version_info amb) SetupEnvironment.min_version) |].
  by repeat split.
Qed.

End Returns.

(** ** Further runs on the two hosts *)

Section FurtherRuns.
Local Existing Instance Faulty.host.

Lemma join_split_witness :
  PyStr.join ">=" (PyStr.split ">=" "numpy>=1.20,<2") = "numpy>=1.20,<2".
Proof. apply join_split. discriminate. Defined.

(** The package name [>=1.0] gives the empty module name, whose import
    raises [ValueError]. *)
Lemma check_and_install_package_import_error_witness :
  InstallsRequired.check_and_install_package Lab.linux ">=1.0" None
    Faulty.empty_module_name
  = (Exc (Raised ValueError "cannot import "), Faulty.empty_module_name, [Import ""]).
Proof.
  apply (check_and_install_package_import_error Lab.linux ">=1.0" None
           Faulty.empty_module_name ValueError "cannot import ").
  - reflexivity.
  - by apply (bool_decide_unpack _).
Defined.

(** The index refuses pandas: [False]; the interpreter of the environment
    is missing: [FileNotFoundError] leaves the function. *)
Lemma venv_commands_results_witness :
  outcome (SetupEnvironment.install_package_in_venv Lab.linux
             "/home/student/course/ds101_env" "pandas" Lab.no_pandas) = Val false
  ∧ outcome (SetupEnvironment.install_package_in_venv Lab.linux
               "/home/student/course/ds101_env" "pandas" Faulty.no_interpreter)
    = Exc (Raised FileNotFoundError
             "cannot run /home/student/course/ds101_env/bin/python").
Proof.
  split.
  - destruct (venv_commands_results Lab.linux "/home/student/course/ds101_env" "pandas"
                "ds101" Lab.no_pandas) as (Hinstall & _).
    destruct (Hinstall 1 "refused" Lab.no_pandas) as [Hout _]; [reflexivity |].
    exact Hout.
  - destruct (venv_commands_results Lab.linux "/home/student/course/ds101_env" "pandas"
                "ds101" Faulty.no_interpreter) as (_ & Hfail & _).
    apply (Hfail FileNotFoundError _ Faulty.no_interpreter); [reflexivity |].
    by apply (bool_decide_unpack _).
Defined.

Lemma missing_library_is_skipped_witness :
  outcome (InstallsRequired.check_and_download_nltk_data Lab.bare) = Val tt
  ∧ interactions (trace (InstallsRequired.check_and_download_spacy_model Lab.linux
                           Lab.bare)) = [Import "spacy"]
  ∧ outcome (InstallsRequired.check_and_setup_geoparser Lab.linux Lab.bare)
    = Val (Some false).
Proof.
  assert (ImportError ∈ mro ModuleNotFoundError) as Hcls
    by (by apply (bool_decide_unpack _)).
  destruct (missing_library_is_skipped Lab.linux Lab.bare) as (Hnltk & Hspacy & Hgeo).
  rewrite (Hnltk (ModuleNotFoundError, "No module named 'nltk'")),
    (Hspacy (ModuleNotFoundError, "No module named 'spacy'")),
    (Hgeo (ModuleNotFoundError, "No module named 'geoparser'"));
    first [exact Hcls | reflexivity | idtac].
  by repeat split.
Defined.

Lemma missing_nltk_data_is_downloaded_witness :
  acquisitions (trace (InstallsRequired.ensure_nltk_data "punkt" "tokenizers/punkt"
                         Faulty.no_punkt))
  = [Call "nltk.download" ["punkt"]].
Proof.
  assert (LookupError ∈ mro LookupError) as Hcls by (by apply (bool_decide_unpack _)).
  rewrite (missing_nltk_data_is_downloaded "punkt" "tokenizers/punkt" Faulty.no_punkt
             Faulty.no_punkt Faulty.no_punkt (LookupError, "nltk.data.find failed"));
    [reflexivity | reflexivity | exact Hcls | reflexivity].
Defined.

Lemma nltk_download_error_escapes_witness :
  outcome (InstallsRequired.check_and_download_nltk_data Faulty.no_network)
  = Exc (Raised OSError "nltk.download failed").
Proof.
  assert (LookupError ∈ mro LookupError) as Hcls by (by apply (bool_decide_unpack _)).
  assert (ImportError ∉ mro OSError) as Hother by (by apply (bool_decide_unpack _)).
  rewrite (nltk_download_error_escapes Faulty.no_network Faulty.no_network
             Faulty.no_network (LookupError, "nltk.data.find failed") OSError
             "nltk.download failed");
    [reflexivity | reflexivity | reflexivity | exact Hcls | reflexivity | exact Hother].
Defined.

Lemma geoparser_never_downloads_with_appdirs_witness :
  spawns (trace (InstallsRequired.check_and_setup_geoparser Lab.linux Cases.with_geoparser))
  = []
  ∧ (outcome (InstallsRequired.check_and_setup_geoparser Lab.linux Cases.with_geoparser)
     = Val (Some true)
     ∨ outcome (InstallsRequired.check_and_setup_geoparser Lab.linux Cases.with_geoparser)
       = Val None).
Proof.
  apply (geoparser_never_downloads_with_appdirs Lab.linux Cases.with_geoparser);
    reflexivity.
Defined.

Lemma geoparser_downloads_without_appdirs_witness :
  outcome (InstallsRequired.check_and_setup_geoparser Lab.linux Cases.geoparser_only)
  = Val (Some true)
  ∧ spawns (trace (InstallsRequired.check_and_setup_geoparser Lab.linux
                     Cases.geoparser_only))
    = [geonames_download Lab.linux].
Proof.
  assert (ImportError ∈ mro ModuleNotFoundError) as Hcls
    by (by apply (bool_decide_unpack _)).
  destruct (geoparser_downloads_without_appdirs Lab.linux Cases.geoparser_only
              Cases.geoparser_only (ModuleNotFoundError, "No module named 'appdirs'") 0 "")
    as (Hout & _ & Hspawns); [reflexivity | reflexivity | exact Hcls | reflexivity |].
  exact (conj Hout Hspawns).
Defined.

Lemma invalid_settings_are_left_alone_witness :
  let r := SetupEnvironment.create_vscode_settings Lab.linux
             "/home/student/course/ds101_env" "/home/student/course"
             Cases.broken_settings in
  outcome r = Val false
  ∧ fs (final r) !! "/home/student/course/.vscode/settings.json" = Some (Blob 17).
Proof.
  destruct (invalid_settings_are_left_alone Lab.linux "/home/student/course/ds101_env"
              "/home/student/course" Cases.broken_settings (Blob 17))
    as (Hout & Hfile & _).
  - right. reflexivity.
  - reflexivity.
  - intros existing. discriminate.
  - exact (conj Hout Hfile).
Defined.

Lemma settings_directory_in_the_way_witness :
  outcome (SetupEnvironment.create_vscode_settings Lab.linux
             "/home/student/course/ds101_env" "/home/student/course"
             Cases.vscode_is_a_file)
  = Exc (Raised FileExistsError "/home/student/course/.vscode").
Proof.
  rewrite (settings_directory_in_the_way Lab.linux "/home/student/course/ds101_env"
             "/home/student/course" Cases.vscode_is_a_file (Blob 3));
    [reflexivity | reflexivity | discriminate].
Defined.

Lemma create_vscode_settings_twice_witness :
  let first := SetupEnvironment.create_vscode_settings Lab.linux
                 "/home/student/course/ds101_env" "/home/student/course"
                 Lab.with_settings in
  let second := SetupEnvironment.create_vscode_settings Lab.linux
                  "/home/student/course/ds101_env" "/home/student/course"
                  (final first) in
  outcome second = Val true ∧ final second = final first.
Proof.
  apply (create_vscode_settings_twice Lab.linux "/home/student/course/ds101_env"
           "/home/student/course" Lab.with_settings).
  - right. reflexivity.
  - right. eexists. reflexivity.
Defined.

Lemma settings_keys_witness :
  let r := SetupEnvironment.create_vscode_settings Lab.linux
             "/home/student/course/ds101_env" "/home/student/course" Lab.with_settings in
  ∃ settings,
    fs (final r) !! "/home/student/course/.vscode/settings.json"
      = Some (JsonFile (JObj settings))
    ∧ is_Some (settings !! "editor.fontSize")
    ∧ ¬ is_Some (settings !! "files.autoSave").
Proof.
  destruct (settings_keys Lab.linux "/home/student/course/ds101_env"
              "/home/student/course" Lab.with_settings
              (<["editor.fontSize" := JNum 14]>
                 (<["python.pythonPath" := JStr "/usr/bin/python"]> ∅)))
    as (settings & Hfile & Hkeys).
  - right. reflexivity.
  - reflexivity.
  - exists settings. split; [exact Hfile |]. split.
    + apply Hkeys. right. by eexists.
    + intros [Hin|[value Hold]]%Hkeys.
      * revert Hin. by apply (bool_decide_unpack _).
      * discriminate Hold.
Defined.

Lemma environment_path_is_a_file_witness :
  let r := SetupEnvironment.create_virtual_environment Lab.linux
             "/home/student/course/ds101_env" Cases.env_is_a_file in
  outcome r = Val false ∧ final r = Cases.env_is_a_file ∧ interactions (trace r) = [].
Proof.
  apply (environment_path_is_a_file Lab.linux "/home/student/course/ds101_env"
           Cases.env_is_a_file (Blob 9)).
  - reflexivity.
  - discriminate.
Defined.

Lemma failed_creation_loses_the_environment_witness :
  let r := SetupEnvironment.create_virtual_environment Lab.linux
             "/home/student/course/ds101_env" Faulty.read_only_course in
  outcome r = Val false
  ∧ fs (final r) !! "/home/student/course/ds101_env/lib/stale.py" = None.
Proof.
  destruct (failed_creation_loses_the_environment Lab.linux
              "/home/student/course/ds101_env" Faulty.read_only_course
              (without_tree Lab.linux "/home/student/course/ds101_env"
                 Faulty.read_only_course)
              (PermissionError, "venv.create failed")) as [Hout Hfin];
    [reflexivity | reflexivity |].
  split; [exact Hout |]. rewrite Hfin. by vm_compute.
Defined.

Lemma editor_found_was_probed_witness :
  "code" ∈ editor_candidates Lab.linux
  ∧ ∃ earlier line,
      trace (VscodeExtensions.check_vscode_installed Lab.linux Lab.with_editor)
      = earlier ++ [version_probe "code"; Print line].
Proof.
  destruct (editor_found_was_probed Lab.linux Lab.with_editor "code")
    as (Hin & _ & Htrace); [reflexivity |].
  exact (conj Hin Htrace).
Defined.

Lemma unexpected_probe_error_ends_the_script_witness :
  exit_status (outcome (VscodeExtensions.main Lab.linux Faulty.locked_editor)) = 1
  ∧ spawns (trace (VscodeExtensions.main Lab.linux Faulty.locked_editor))
    = [version_probe "code"].
Proof.
  destruct (unexpected_probe_error_ends_the_script Lab.linux VscodeExtensions.extensions
              Faulty.locked_editor Faulty.locked_editor PermissionError "cannot run code")
    as (_ & Hstatus & _ & Hspawns).
  - reflexivity.
  - reflexivity.
  - by apply (bool_decide_unpack _).
  - by apply (bool_decide_unpack _).
  - by apply (bool_decide_unpack _).
  - exact (conj Hstatus Hspawns).
Defined.

Lemma editor_is_sought_on_the_path_only_witness :
  outcome (VscodeExtensions.main Lab.linux Lab.bare) = Exc (Exit 1)
  ∧ interactions (trace (VscodeExtensions.main Lab.linux Lab.bare)) = [].
Proof.
  destruct (editor_is_sought_on_the_path_only Lab.linux VscodeExtensions.extensions
              Lab.bare) as (_ & Hout & _ & Hquiet).
  - discriminate.
  - discriminate.
  - reflexivity.
  - reflexivity.
  - exact (conj Hout Hquiet).
Defined.

Lemma failed_packages_are_not_essential_witness :
  outcome (InstallsRequired.install_packages Lab.linux ["jupyterlab"; "pandas"; "tqdm"]
             ["jupyterlab"] Lab.no_pandas) = Val ["pandas"]
  ∧ ["pandas"]
    `sublist_of` filter (λ package, package ∉ ["jupyterlab"])
                   ["jupyterlab"; "pandas"; "tqdm"].
Proof.
  split; [reflexivity |].
  apply (failed_packages_are_not_essential Lab.linux ["jupyterlab"; "pandas"; "tqdm"]
           ["jupyterlab"] Lab.no_pandas ["pandas"]).
  reflexivity.
Defined.

Lemma essential_failure_test_witness :
  SetupEnvironment.any_failed SetupEnvironment.essential_packages ["ipykernel"] = true
  ↔ ["ipykernel"] ≠ @nil string.
Proof.
  destruct (essential_failure_test Lab.linux "/home/student/course/ds101_env"
              ["pandas"] SetupEnvironment.essential_packages
              Lab.no_ipykernel Lab.no_ipykernel ["ipykernel"] ["ipykernel"])
    as (_ & Htest & _); [reflexivity | reflexivity |].
  exact Htest.
Defined.

Lemma each_package_is_checked_once_witness :
  filter is_import
    (trace ((InstallsRequired.install_essential Lab.linux ["jupyterlab"] ;;
             InstallsRequired.install_packages Lab.linux
               ["jupyterlab"; "pandas"; "tqdm"] ["jupyterlab"]) Lab.bare))
  = [Import "jupyterlab"; Import "pandas"; Import "tqdm"].
Proof.
  by rewrite (each_package_is_checked_once Lab.linux ["jupyterlab"; "pandas"; "tqdm"]
                ["jupyterlab"] Lab.bare lab_well_behaved).
Defined.

Lemma pip_is_upgraded_first_witness :
  ∃ rest,
    spawns (trace (InstallsRequired.main Lab.linux Lab.bare))
    = Spawn ["/usr/bin/python3"; "-m"; "pip"; "install"; "--upgrade"; "pip"] None false
      :: rest.
Proof.
  apply (pip_is_upgraded_first Lab.linux InstallsRequired.core_packages
           InstallsRequired.essential_packages Lab.bare).
  reflexivity.
Defined.

Lemma setup_stops_without_environment_witness :
  outcome (SetupEnvironment.main Lab.linux Cases.env_is_a_file) = Exc (Exit 1)
  ∧ spawns (trace (SetupEnvironment.main Lab.linux Cases.env_is_a_file)) = [].
Proof.
  destruct (setup_stops_without_environment Lab.linux SetupEnvironment.packages
              SetupEnvironment.essential_packages Cases.env_is_a_file)
    as (Hout & _ & Hspawns); [reflexivity | reflexivity |].
  exact (conj Hout Hspawns).
Defined.

Lemma venv_resources_are_always_downloaded_witness :
  length (spawns (trace ((SetupEnvironment.check_and_download_nltk_data Lab.linux
                            "/home/student/course/ds101_env" ;;
                          SetupEnvironment.check_and_download_spacy_model Lab.linux
                            "/home/student/course/ds101_env" ;;
                          SetupEnvironment.setup_geoparser Lab.linux
                            "/home/student/course/ds101_env") Lab.bare)))
  = 4%nat.
Proof.
  destruct (venv_resources_are_always_downloaded Lab.linux lab_well_behaved
              "/home/student/course/ds101_env" Lab.bare) as [_ Hspawns].
  by rewrite Hspawns.
Defined.

Lemma setup_script_returns_only_after_witness :
  let env := "/home/student/course/ds101_env" in
  let m1 := final (SetupEnvironment.create_virtual_environment Lab.linux env Lab.bare) in
  let m2 := final (SetupEnvironment.upgrade_pip_in_venv Lab.linux env m1) in
  outcome (SetupEnvironment.main Lab.linux Lab.bare) = Val tt
  ∧ outcome (SetupEnvironment.create_virtual_environment Lab.linux env Lab.bare)
    = Val true
  ∧ outcome (SetupEnvironment.install_essential Lab.linux env
               SetupEnvironment.essential_packages [] m2) = Val [].
Proof.
  intros env m1 m2.
  assert (outcome (SetupEnvironment.main Lab.linux Lab.bare) = Val tt) as Hmain
    by (vm_compute; reflexivity).
  split; [exact Hmain |].
  destruct (setup_script_returns_only_after Lab.linux SetupEnvironment.packages
              SetupEnvironment.essential_packages Lab.bare Hmain)
    as (_ & Hcreated & Hessential & _).
  split; [exact Hcreated | exact Hessential].
Defined.

End FurtherRuns.
